(** * Guestara rules core: pricing, tax inheritance, add-ons, bookings

    A shallow embedding of the rules-evaluation core of the menu and
    booking backend:

    - [PricingEngine]  (src/utils/pricingEngine.js)
    - [TaxEngine]      (src/utils/taxEngine.js)
    - [AddonGroup]     (models/AddonGroup.js: validateSelections,
                        calculateSelectedPrice)
    - [ItemService]    (src/services/itemService.js: calculatePrice)
    - [BookingModel]   (models/Booking.js: findConflicts, isTimeOverlapping)
    - [BookingService] (services/bookingService.js: checkAvailability,
                        update, create, cancel, complete,
                        getAvailableSlots)

    Conventions of the embedding.
    - A JavaScript [Number] is a rational [Q] with exact arithmetic,
      compared with [==]: this is the value the code computes wherever
      its double-precision operations are exact, as on whole amounts.
      What turns on the rounding of fractional amounts is evaluated on
      doubles instead ([Binary64], over [SpecFloat]).
    - A [Date] is the record of the readings the code takes of it;
      Invalid Date, whose readings are [NaN], is a [DateObject] of its
      own.
    - [undefined]/[null] fields are [option]s; [x || d] is [num_or x d].
    - Mongo collections keyed by [_id] are [gmap string _]; the booking
      collection is a list in natural order, because queries return lists.
    - A thrown [{status, message}] object is the [Throw] outcome. *)

From Stdlib Require Import ZArith QArith Qround Lia Lqa Bool List Ascii String.
From Stdlib Require Import DecimalString Permutation Sorted.
From Stdlib Require Import Floats.SpecFloat.
From stdpp Require Import base option strings gmap.
Import ListNotations.

Local Open Scope Z_scope.

(* ================================================================== *)
(** * JavaScript primitives used by the sources *)
(* ================================================================== *)

Module Js.

(** [a < b] on Numbers, as a boolean. *)
Definition Qltb (a b : Q) : bool := negb (Qle_bool b a).

(** [Math.round(x)]: the integer nearest to [x], ties towards +infinity.
    Numbers are read here as exact rationals, which is the value the
    runtime computes wherever its double-precision operations are exact,
    as they are on whole amounts; [Binary64] below has the same functions
    on doubles, for the inputs where the two differ. *)
Definition Math_round (x : Q) : Q := inject_Z (Qfloor (x + (1 # 2))).

(** [Math.min(a, b)]. *)
Definition Math_min (a b : Q) : Q := if Qle_bool a b then a else b.

(** Truthiness of an optional Number: [undefined], [null] and [0] are falsy. *)
Definition truthy_num (o : option Q) : bool :=
  match o with
  | Some q => negb (Qeq_bool q 0)
  | None => false
  end.

(** [x || d] on an optional Number. *)
Definition num_or (o : option Q) (d : Q) : Q :=
  match o with
  | Some q => if Qeq_bool q 0 then d else q
  | None => d
  end.

(** Truthiness of an optional string: [undefined] and [""] are falsy. *)
Definition truthy_str (o : option string) : bool :=
  match o with
  | Some s => negb (String.eqb s "")
  | None => false
  end.

(** [x || d] on an optional string. *)
Definition str_or (o : option string) (d : string) : string :=
  match o with
  | Some s => if String.eqb s "" then d else s
  | None => d
  end.

(** [s.split(sep)] for a one-character separator. *)
Fixpoint split (sep : ascii) (s : string) : list string :=
  match s with
  | EmptyString => [EmptyString]
  | String c s' =>
      if Ascii.eqb c sep then EmptyString :: split sep s'
      else match split sep s' with
           | [] => [String c EmptyString]
           | p :: ps => String c p :: ps
           end
  end.

Definition digit_of (c : ascii) : option Z :=
  let n := Z.of_N (N_of_ascii c) in
  if (48 <=? n) && (n <=? 57) then Some (n - 48) else None.

Fixpoint digits_value (s : string) (acc : Z) : option Z :=
  match s with
  | EmptyString => Some acc
  | String c s' =>
      match digit_of c with
      | Some d => digits_value s' (10 * acc + d)
      | None => None
      end
  end.

(** [Number(s)] on the strings the time fields can hold: a run of decimal
    digits (the empty run is [0]).  [None] stands for [NaN]; every other
    spelling JavaScript accepts (signs, exponents, blanks, hex) is
    excluded by the time pattern of the validation layer and is read as
    [NaN] here. *)
Definition Number_of_string (s : string) : option Z := digits_value s 0.

(** The local closure [toMinutes] that [isTimeInRange],
    [isTimeOverlapping] and [isTimeWithinSlot] each declare:
    [const [hours, minutes] = t.split(':').map(Number);
     return hours * 60 + minutes]. *)
Definition toMinutes (t : string) : option Z :=
  match List.map Number_of_string (split ":" t) with
  | Some hours :: Some minutes :: _ => Some (hours * 60 + minutes)
  | _ => None
  end.

(** [String(n)] for a non-negative integer. *)
Definition String_of_Z (n : Z) : string :=
  NilZero.string_of_uint (N.to_uint (Z.to_N n)).

Fixpoint repeat_char (c : ascii) (n : nat) : string :=
  match n with
  | O => EmptyString
  | S n' => String c (repeat_char c n')
  end.

(** [s.padStart(n, c)]. *)
Definition padStart (n : nat) (c : ascii) (s : string) : string :=
  (repeat_char c (n - String.length s) ++ s)%string.

(** Comparisons of two possibly-[NaN] numbers: false as soon as one side
    is [NaN]. *)
Definition nan_cmp (op : Z -> Z -> bool) (a b : option Z) : bool :=
  match a, b with
  | Some x, Some y => op x y
  | _, _ => false
  end.

(** [Array.prototype.sort(cmp)] is stable; an insertion sort that places
    an element before the first one it does not compare greater than
    yields the same array for the comparators used here. *)
Fixpoint sort_insert {A : Type} (cmp : A -> A -> Q) (x : A) (l : list A)
  : list A :=
  match l with
  | [] => [x]
  | y :: l' =>
      if Qltb (cmp y x) 0 then y :: sort_insert cmp x l'
      else x :: y :: l'
  end.

Definition sort {A : Type} (cmp : A -> A -> Q) (l : list A) : list A :=
  List.fold_right (sort_insert cmp) [] l.

(** A [Date], seen through the accessors the sources call: [getTime]
    identifies the instant (used when a query compares dates), the other
    three are the local-time readings. *)
Record Date := mkDate {
  getTime : Z;
  getDay : Z;
  getHours : Z;
  getMinutes : Z
}.

Definition Date_eqb (a b : Date) : bool := getTime a =? getTime b.

(** The readings of a valid [Date]. *)
Definition Date_valid (d : Date) : Prop :=
  0 <= getDay d <= 6 /\ 0 <= getHours d < 24 /\ 0 <= getMinutes d < 60.

(** What the [Date] constructor returns: a date, or Invalid Date, whose
    [getDay()], [getHours()] and [getMinutes()] are all [NaN]. *)
Inductive DateObject :=
| ValidDate (d : Date)
| InvalidDate.

(** [new Date(date + 'T' + time)] where [date] is a [Date] object, which
    [booking_date] always is once Joi ([Joi.date()]) or Mongoose
    ([type: Date]) has cast it.  The concatenation prints [date] the way
    [Date.prototype.toString] does
    ("Mon Jan 15 2024 00:00:00 GMT+0000 (Coordinated Universal Time)"),
    and that text followed by "T" and a clock time is no date string:
    the result is Invalid Date whatever the two arguments are. *)
Definition Date_of_concat (date : Date) (time : string) : DateObject :=
  InvalidDate.

End Js.

(* ================================================================== *)
(** * config/constants.js *)
(* ================================================================== *)

Inductive PRICING_TYPES := STATIC | TIERED | COMPLIMENTARY | DISCOUNTED | DYNAMIC.
Inductive DISCOUNT_TYPES := FLAT | PERCENTAGE.
Inductive BOOKING_STATUS := PENDING | CONFIRMED | CANCELLED | COMPLETED.
Inductive ADDON_TYPES := OPTIONAL | MANDATORY.
Inductive ADDON_GROUP_SELECTION := SINGLE | MULTIPLE.

Definition BOOKING_STATUS_eqb (a b : BOOKING_STATUS) : bool :=
  match a, b with
  | PENDING, PENDING | CONFIRMED, CONFIRMED
  | CANCELLED, CANCELLED | COMPLETED, COMPLETED => true
  | _, _ => false
  end.

(** The time pattern of the validation layer,
    [/^([01]?[0-9]|2[0-3]):[0-5][0-9]$/]. *)
Definition is_digit (c : ascii) : bool :=
  let n := N_of_ascii c in (48 <=? n)%N && (n <=? 57)%N.

Definition digit_upto (hi : N) (c : ascii) : bool :=
  let n := N_of_ascii c in (48 <=? n)%N && (n <=? 48 + hi)%N.

Definition time_pattern (s : string) : bool :=
  match s with
  | String h (String c (String m1 (String m2 EmptyString))) =>
      is_digit h && Ascii.eqb c ":" && digit_upto 5 m1 && is_digit m2
  | String h1 (String h2 (String c (String m1 (String m2 EmptyString)))) =>
      ((digit_upto 1 h1 && is_digit h2)
       || (Ascii.eqb h1 "2" && digit_upto 3 h2))
      && Ascii.eqb c ":" && digit_upto 5 m1 && is_digit m2
  | _ => false
  end.

(** A zero-padded ["HH:MM"] time: the pattern with a two-digit hour. *)
Definition is_HHMM (s : string) : bool :=
  time_pattern s && (String.length s =? 5)%nat.

(* ================================================================== *)
(** * Schemas (models/Item.js, models/Category.js, models/Subcategory.js,
      models/AddonGroup.js, models/Booking.js) *)
(* ================================================================== *)

(** [tierSchema]. *)
Module Tier.
Record t := mk {
  min_quantity : Q;
  max_quantity : Q;
  price : Q
}.
End Tier.

(** [dynamicPricingRuleSchema]. *)
Module DynamicRule.
Record t := mk {
  name : string;
  days : option (list Z);
  start_time : string;
  end_time : string;
  price : Q;
  priority : option Q
}.
End DynamicRule.

(** The [discount] sub-object of [pricingConfigSchema]. *)
Module Discount.
Record t := mk {
  type : option DISCOUNT_TYPES;
  value : option Q
}.
End Discount.

(** [pricingConfigSchema]. *)
Module PricingConfig.
Record t := mk {
  type : option PRICING_TYPES;
  base_price : option Q;
  tiers : option (list Tier.t);
  discount : option Discount.t;
  dynamic_rules : option (list DynamicRule.t);
  default_price : option Q
}.
End PricingConfig.

(** [availabilitySlotSchema]. *)
Module Slot.
Record t := mk {
  day : Z;
  start_time : string;
  end_time : string;
  max_bookings : Q
}.
End Slot.

(** A reference field of a document: absent, an id still to be looked up,
    or a populated document ([typeof x === 'object']). *)
Inductive Ref (A : Type) :=
| RefNone
| RefId (id : string)
| RefDoc (doc : A).
Arguments RefNone {A}.
Arguments RefId {A} id.
Arguments RefDoc {A} doc.

(** [categorySchema]: [tax_applicable] is a Boolean with default [false]. *)
Module Category.
Record t := mk {
  _id : string;
  name : string;
  tax_applicable : bool;
  tax_percentage : option Q
}.
End Category.

(** [subcategorySchema]: [tax_applicable] is [null] when inherited. *)
Module Subcategory.
Record t := mk {
  _id : string;
  name : string;
  category : Ref Category.t;
  tax_applicable : option bool;
  tax_percentage : option Q
}.
End Subcategory.

(** [addonSchema]. *)
Module Addon.
Record t := mk {
  _id : string;
  name : string;
  price : Q;
  is_active : bool
}.
End Addon.

(** [itemSchema]; [G] is what [addon_groups] holds: ids in the stored
    document, group documents once populated. *)
Module Item.
Record t (G : Type) := mk {
  _id : string;
  name : string;
  category : Ref Category.t;
  subcategory : Ref Subcategory.t;
  tax_applicable : option bool;
  tax_percentage : option Q;
  pricing : PricingConfig.t;
  is_bookable : bool;
  availability_slots : option (list Slot.t);
  addon_groups : list G;
  is_active : bool
}.
Arguments mk {G}.
Arguments _id {G}.
Arguments name {G}.
Arguments category {G}.
Arguments subcategory {G}.
Arguments tax_applicable {G}.
Arguments tax_percentage {G}.
Arguments pricing {G}.
Arguments is_bookable {G}.
Arguments availability_slots {G}.
Arguments addon_groups {G}.
Arguments is_active {G}.
End Item.

(** What a thrown value carries. *)
Inductive Message :=
| Msg (s : string)
| MinimumRequired (n : Q) (group : string)
    (* `Minimum ${min_selections} selection(s) required for ${name}` *)
| MaximumAllowed (n : Q) (group : string)
    (* `Maximum ${max_selections} selection(s) allowed for ${name}` *)
| UnknownPricingType.
    (* `Unknown pricing type: ${type}` *)

(** The conflicts listed by a 409. *)
Module ConflictInfo.
Record t := mk {
  id : string;
  start_time : string;
  end_time : string
}.
End ConflictInfo.

Inductive Outcome (A : Type) :=
| Ok (a : A)
| Throw (status : Z) (message : Message) (conflicts : list ConflictInfo.t)
| ThrowError (message : Message).
Arguments Ok {A} a.
Arguments Throw {A} status message conflicts.
Arguments ThrowError {A} message.

(* ================================================================== *)
(** * utils/pricingEngine.js *)
(* ================================================================== *)

Module PricingEngine.

(** The text of [pricing_rule_applied]; template literals keep the
    numbers they interpolate. *)
Inductive RuleLabel :=
| Label (s : string)
| TierLabel (min_quantity max_quantity : Q)   (* `Tier ${min}-${max}` *)
| FlatLabel (v : Q)                            (* `Flat discount: ${v}` *)
| PercentLabel (v : Q).                        (* `${v}% off` *)

(** [applicableTier]: a tier, or the object [{ price: default }]. *)
Inductive TierDetails :=
| TierOf (tier : Tier.t)
| PriceOnly (price : Q).

Definition TierDetails_price (d : TierDetails) : Q :=
  match d with
  | TierOf tier => Tier.price tier
  | PriceOnly p => p
  end.

(** The fields a result carries besides the common ones. *)
Inductive Details :=
| NoDetails
| tier_details (d : TierDetails)
| discount_details (d : option Discount.t)
| rule_details (r : option DynamicRule.t) (current_day : Z)
    (current_time : string)
| rule_details_invalid (r : option DynamicRule.t).
    (* current_day: NaN, current_time: "NaN:NaN" *)

Record Result := mkResult {
  pricing_type : PRICING_TYPES;
  pricing_rule_applied : RuleLabel;
  details : Details;
  unit_price : Q;
  quantity : Q;
  base_price : Q;
  discount_amount : Q;
  calculated_price : Q
}.

Definition calculateStaticPrice (pricingConfig : PricingConfig.t)
    (quantity : Q) : Result :=
  let basePrice := Js.num_or (PricingConfig.base_price pricingConfig) 0 in
  let totalPrice := (basePrice * quantity)%Q in
  {| pricing_type := STATIC;
     pricing_rule_applied := Label "Fixed Price";
     details := NoDetails;
     unit_price := basePrice;
     quantity := quantity;
     base_price := totalPrice;
     discount_amount := 0;
     calculated_price := totalPrice |}.

(** The loop test [quantity >= tier.min_quantity && quantity <=
    tier.max_quantity]. *)
Definition tier_contains (quantity : Q) (tier : Tier.t) : bool :=
  Qle_bool (Tier.min_quantity tier) quantity
  && Qle_bool quantity (Tier.max_quantity tier).

Definition sortTiers (tiers : list Tier.t) : list Tier.t :=
  Js.sort (fun a b => (Tier.min_quantity a - Tier.min_quantity b)%Q) tiers.

Definition calculateTieredPrice (pricingConfig : PricingConfig.t)
    (quantity : Q) : Result :=
  let tiers := default [] (PricingConfig.tiers pricingConfig) in
  let sortedTiers := sortTiers tiers in
  let '(applicableTier, tierName) :=
    match List.find (tier_contains quantity) sortedTiers with
    | Some tier =>
        (TierOf tier,
         TierLabel (Tier.min_quantity tier) (Tier.max_quantity tier))
    | None =>
        (match last sortedTiers with
         | Some tier => TierOf tier
         | None =>
             PriceOnly (Js.num_or (PricingConfig.default_price pricingConfig) 0)
         end,
         Label "Default/Overflow")
    end in
  let unitPrice := TierDetails_price applicableTier in
  let totalPrice := (unitPrice * quantity)%Q in
  {| pricing_type := TIERED;
     pricing_rule_applied := tierName;
     details := tier_details applicableTier;
     unit_price := unitPrice;
     quantity := quantity;
     base_price := totalPrice;
     discount_amount := 0;
     calculated_price := totalPrice |}.

Definition calculateComplimentaryPrice : Result :=
  {| pricing_type := COMPLIMENTARY;
     pricing_rule_applied := Label "Complimentary";
     details := NoDetails;
     unit_price := 0;
     quantity := 1;
     base_price := 0;
     discount_amount := 0;
     calculated_price := 0 |}.

Definition calculateDiscountedPrice (pricingConfig : PricingConfig.t)
    (quantity : Q) : Result :=
  let basePrice := Js.num_or (PricingConfig.base_price pricingConfig) 0 in
  let totalBase := (basePrice * quantity)%Q in
  let '(discountAmount, discountDescription) :=
    match PricingConfig.discount pricingConfig with
    | Some d =>
        match Discount.type d with
        | Some ty =>
            let discountValue := Js.num_or (Discount.value d) 0 in
            match ty with
            | FLAT => (discountValue, FlatLabel discountValue)
            | PERCENTAGE =>
                ((totalBase * discountValue / 100)%Q,
                 PercentLabel discountValue)
            end
        | None => (0%Q, Label "No discount")
        end
    | None => (0%Q, Label "No discount")
    end in
  let discountAmount := Js.Math_min discountAmount totalBase in
  let finalPrice := (totalBase - discountAmount)%Q in
  {| pricing_type := DISCOUNTED;
     pricing_rule_applied := discountDescription;
     details := discount_details (PricingConfig.discount pricingConfig);
     unit_price := basePrice;
     quantity := quantity;
     base_price := totalBase;
     discount_amount := discountAmount;
     calculated_price := finalPrice |}.

(** [isTimeInRange(time, startTime, endTime)]. *)
Definition isTimeInRange (time startTime endTime : string) : bool :=
  let current := Js.toMinutes time in
  let start := Js.toMinutes startTime in
  let end_ := Js.toMinutes endTime in
  if Js.nan_cmp Z.ltb end_ start
  then Js.nan_cmp Z.geb current start || Js.nan_cmp Z.ltb current end_
  else Js.nan_cmp Z.geb current start && Js.nan_cmp Z.ltb current end_.

(** [`${String(h).padStart(2,'0')}:${String(m).padStart(2,'0')}`]. *)
Definition currentTime (date : Js.Date) : string :=
  (Js.padStart 2 "0" (Js.String_of_Z (Js.getHours date)) ++ ":"
   ++ Js.padStart 2 "0" (Js.String_of_Z (Js.getMinutes date)))%string.

(** [!rule.days || rule.days.length === 0 || rule.days.includes(dayOfWeek)]. *)
Definition isDayMatch (rule : DynamicRule.t) (dayOfWeek : Z) : bool :=
  match DynamicRule.days rule with
  | None => true
  | Some [] => true
  | Some ds => List.existsb (Z.eqb dayOfWeek) ds
  end.

(** The test each rule undergoes in the loop of [calculateDynamicPrice]:
    [isDayMatch && isTimeMatch]. *)
Definition rule_matches (date : Js.Date) (rule : DynamicRule.t) : bool :=
  isDayMatch rule (Js.getDay date)
  && isTimeInRange (currentTime date) (DynamicRule.start_time rule)
       (DynamicRule.end_time rule).

Definition sortRules (rules : list DynamicRule.t) : list DynamicRule.t :=
  Js.sort (fun a b => (Js.num_or (DynamicRule.priority b) 0
                       - Js.num_or (DynamicRule.priority a) 0)%Q) rules.

Definition calculateDynamicPrice (pricingConfig : PricingConfig.t)
    (quantity : Q) (datetime : Js.Date) : Result :=
  let date := datetime in
  let dayOfWeek := Js.getDay date in
  let rules := default [] (PricingConfig.dynamic_rules pricingConfig) in
  let sortedRules := sortRules rules in
  let applicableRule := List.find (rule_matches date) sortedRules in
  let unitPrice :=
    match applicableRule with
    | Some rule => DynamicRule.price rule
    | None => Js.num_or (PricingConfig.default_price pricingConfig) 0
    end in
  let ruleName :=
    match applicableRule with
    | Some rule => Label (DynamicRule.name rule)
    | None => Label "Default Price"
    end in
  let totalPrice := (unitPrice * quantity)%Q in
  {| pricing_type := DYNAMIC;
     pricing_rule_applied := ruleName;
     details := rule_details applicableRule dayOfWeek (currentTime date);
     unit_price := unitPrice;
     quantity := quantity;
     base_price := totalPrice;
     discount_amount := 0;
     calculated_price := totalPrice |}.

(** [calculatePrice(pricingConfig, { quantity, datetime })].  The type
    of a configuration is one of the five the schemas admit, or absent;
    the [default:] branch, which throws an [Error], is reached here by an
    absent type only. *)
Definition calculatePrice (pricingConfig : PricingConfig.t)
    (quantity : Q) (datetime : Js.Date) : Outcome Result :=
  match PricingConfig.type pricingConfig with
  | Some STATIC => Ok (calculateStaticPrice pricingConfig quantity)
  | Some TIERED => Ok (calculateTieredPrice pricingConfig quantity)
  | Some COMPLIMENTARY => Ok calculateComplimentaryPrice
  | Some DISCOUNTED => Ok (calculateDiscountedPrice pricingConfig quantity)
  | Some DYNAMIC =>
      Ok (calculateDynamicPrice pricingConfig quantity datetime)
  | None => ThrowError UnknownPricingType
  end.

(** The loop test of [calculateDynamicPrice] when [datetime] is Invalid
    Date: [dayOfWeek] is [NaN], which no [days] array of numbers
    includes, and [currentTime] is the string "NaN:NaN". *)
Definition rule_matches_invalid (rule : DynamicRule.t) : bool :=
  match DynamicRule.days rule with
  | None => true
  | Some [] => true
  | Some _ => false
  end
  && isTimeInRange "NaN:NaN" (DynamicRule.start_time rule)
       (DynamicRule.end_time rule).

(** [calculateDynamicPrice] with a [datetime] that may be Invalid
    Date. *)
Definition calculateDynamicPrice_at (pricingConfig : PricingConfig.t)
    (quantity : Q) (datetime : Js.DateObject) : Result :=
  match datetime with
  | Js.ValidDate date => calculateDynamicPrice pricingConfig quantity date
  | Js.InvalidDate =>
      let rules := default [] (PricingConfig.dynamic_rules pricingConfig) in
      let sortedRules := sortRules rules in
      let applicableRule := List.find rule_matches_invalid sortedRules in
      let unitPrice :=
        match applicableRule with
        | Some rule => DynamicRule.price rule
        | None => Js.num_or (PricingConfig.default_price pricingConfig) 0
        end in
      let ruleName :=
        match applicableRule with
        | Some rule => Label (DynamicRule.name rule)
        | None => Label "Default Price"
        end in
      let totalPrice := (unitPrice * quantity)%Q in
      {| pricing_type := DYNAMIC;
         pricing_rule_applied := ruleName;
         details := rule_details_invalid applicableRule;
         unit_price := unitPrice;
         quantity := quantity;
         base_price := totalPrice;
         discount_amount := 0;
         calculated_price := totalPrice |}
  end.

(** [calculatePrice] with a [datetime] that may be Invalid Date; only
    the dynamic branch reads it. *)
Definition calculatePrice_at (pricingConfig : PricingConfig.t)
    (quantity : Q) (datetime : Js.DateObject) : Outcome Result :=
  match PricingConfig.type pricingConfig with
  | Some STATIC => Ok (calculateStaticPrice pricingConfig quantity)
  | Some TIERED => Ok (calculateTieredPrice pricingConfig quantity)
  | Some COMPLIMENTARY => Ok calculateComplimentaryPrice
  | Some DISCOUNTED => Ok (calculateDiscountedPrice pricingConfig quantity)
  | Some DYNAMIC =>
      Ok (calculateDynamicPrice_at pricingConfig quantity datetime)
  | None => ThrowError UnknownPricingType
  end.

(** The entries [validatePricingConfig] pushes on [errors]. *)
Inductive ValidationError :=
| TypeRequired
| StaticNeedsBasePrice
| TieredNeedsTier
| TierOverlap (i j : nat)   (* between tier ${i + 1} and tier ${i + 2} *)
| DiscountedNeedsBasePrice
| DiscountedNeedsDiscount
| DynamicNeedsRule
| DynamicNeedsDefault.

(** [base_price === undefined || base_price < 0]. *)
Definition base_price_invalid (o : option Q) : bool :=
  match o with
  | None => true
  | Some p => Js.Qltb p 0
  end.

(** The loop [for (i = 0; i < tiers.length - 1; i++)] over the sorted
    tiers, reporting [tiers[i].max_quantity >= tiers[i+1].min_quantity]. *)
Fixpoint tier_overlaps (i : nat) (tiers : list Tier.t)
  : list ValidationError :=
  match tiers with
  | a :: ((b :: _) as rest) =>
      (if Qle_bool (Tier.min_quantity b) (Tier.max_quantity a)
       then [TierOverlap (i + 1) (i + 2)] else [])
      ++ tier_overlaps (S i) rest
  | _ => []
  end.

Record Validation := mkValidation {
  valid : bool;
  errors : list ValidationError
}.

(** [validatePricingConfig(pricingConfig)], for a type that is one of
    the five or absent; the [default:] branch of its [switch], for any
    other string, lies outside [PricingConfig.t]. *)
Definition validatePricingConfig (pricingConfig : PricingConfig.t)
  : Validation :=
  let errors :=
    match PricingConfig.type pricingConfig with
    | None => [TypeRequired]
    | Some STATIC =>
        if base_price_invalid (PricingConfig.base_price pricingConfig)
        then [StaticNeedsBasePrice] else []
    | Some TIERED =>
        match PricingConfig.tiers pricingConfig with
        | None | Some [] => [TieredNeedsTier]
        | Some tiers => tier_overlaps 0 (sortTiers tiers)
        end
    | Some DISCOUNTED =>
        (if base_price_invalid (PricingConfig.base_price pricingConfig)
         then [DiscountedNeedsBasePrice] else [])
        ++ (match PricingConfig.discount pricingConfig with
            | Some d =>
                match Discount.type d with
                | Some _ => []
                | None => [DiscountedNeedsDiscount]
                end
            | None => [DiscountedNeedsDiscount]
            end)
    | Some DYNAMIC =>
        (match PricingConfig.dynamic_rules pricingConfig with
         | None | Some [] => [DynamicNeedsRule]
         | Some _ => []
         end)
        ++ (match PricingConfig.default_price pricingConfig with
            | None => [DynamicNeedsDefault]
            | Some _ => []
            end)
    | Some COMPLIMENTARY => []
    end in
  {| valid := (List.length errors =? 0)%nat; errors := errors |}.

End PricingEngine.

(** Bounds the schemas put on numbers that [validatePricingConfig] does not
    re-check: [tierSchema] ([min_quantity >= 0],
    [max_quantity >= min_quantity], [price >= 0]) and the discount value
    ([min: 0]). *)
Definition tierSchema_ok (tier : Tier.t) : Prop :=
  (0 <= Tier.min_quantity tier)%Q
  /\ (Tier.min_quantity tier <= Tier.max_quantity tier)%Q
  /\ (0 <= Tier.price tier)%Q.


(* ================================================================== *)
(** * models/AddonGroup.js *)
(* ================================================================== *)

Module AddonGroup.

Record t := mk {
  _id : string;
  name : string;
  type : ADDON_TYPES;
  selection_type : ADDON_GROUP_SELECTION;
  min_selections : Q;
  max_selections : Q;
  addons : list Addon.t;
  is_active : bool
}.

(** [selectedAddonIds.includes(addon._id.toString())]. *)
Definition includes (ids : list string) (id : string) : bool :=
  List.existsb (String.eqb id) ids.

(** [calculateSelectedPrice(selectedAddonIds)]: the [for ... of] loop
    adding the price of every selected active addon. *)
Definition calculateSelectedPrice (group : t)
    (selectedAddonIds : list string) : Q :=
  List.fold_left
    (fun total addon =>
       if includes selectedAddonIds (Addon._id addon)
          && Addon.is_active addon
       then (total + Addon.price addon)%Q else total)
    (addons group) 0%Q.

Record Validation := mkValidation {
  valid : bool;
  error : option Message
}.

Definition validSelections (group : t) (selectedAddonIds : list string)
  : list string :=
  let activeAddons := List.filter Addon.is_active (addons group) in
  List.filter
    (fun id => List.existsb (fun a => String.eqb (Addon._id a) id) activeAddons)
    selectedAddonIds.

(** [validateSelections(selectedAddonIds)]. *)
Definition validateSelections (group : t) (selectedAddonIds : list string)
  : Validation :=
  let n := inject_Z (Z.of_nat (List.length (validSelections group selectedAddonIds))) in
  if Js.Qltb n (min_selections group) then
    {| valid := false;
       error := Some (MinimumRequired (min_selections group) (name group)) |}
  else if Js.Qltb (max_selections group) n then
    {| valid := false;
       error := Some (MaximumAllowed (max_selections group) (name group)) |}
  else {| valid := true; error := None |}.

End AddonGroup.

(* ================================================================== *)
(** * models/Booking.js: documents *)
(* ================================================================== *)

(** [selectedAddonSchema]; [price] is absent on the selections a request
    body carries. *)
Module SelectedAddon.
Record t := mk {
  addon_group : string;
  addon_ids : list string;
  price : option Q
}.
End SelectedAddon.

(** [priceBreakdownSchema]. *)
Module PriceBreakdown.
Record t := mk {
  base_price : Q;
  pricing_type : PRICING_TYPES;
  pricing_rule_applied : PricingEngine.RuleLabel;
  discount_amount : Q;
  addons_total : Q;
  subtotal : Q;
  tax_percentage : Q;
  tax_amount : Q;
  final_price : Q
}.
End PriceBreakdown.

(** [bookingSchema]; customer fields and notes take part in no rule and
    are left out. *)
Module Booking.
Record t := mk {
  _id : string;
  item : string;
  booking_date : Js.Date;
  start_time : string;
  end_time : string;
  quantity : Q;
  selected_addons : list SelectedAddon.t;
  price_breakdown : option PriceBreakdown.t;
  status : BOOKING_STATUS
}.
End Booking.

(* ================================================================== *)
(** * The store *)
(* ================================================================== *)

Record Db := mkDb {
  Categories : gmap string Category.t;
  Subcategories : gmap string Subcategory.t;
  Items : gmap string (Item.t string);
  AddonGroups : gmap string AddonGroup.t;
  Bookings : list Booking.t
}.

(** [typeof ref === 'object' ? ref : await Model.findById(ref)], guarded by
    the truthiness tests around it: an absent reference finds nothing and
    a populated one is the document itself.  [RefId] is looked up, which
    is what [populate] does with the id a stored document holds; the tax
    functions themselves are handed populated documents by the services,
    and the statements about them are made for those (a raw [ObjectId]
    also has [typeof] ['object'], and is then taken for the document). *)
Definition resolve {A : Type} (collection : gmap string A) (r : Ref A)
  : option A :=
  match r with
  | RefNone => None
  | RefId id => collection !! id
  | RefDoc doc => Some doc
  end.

(** [.populate('category', 'name tax_applicable tax_percentage')]: a
    dangling id populates to [null]. *)
Definition populate_category (db : Db) (r : Ref Category.t) : Ref Category.t :=
  match resolve (Categories db) r with
  | Some c => RefDoc c
  | None => RefNone
  end.

(** [.populate('subcategory', 'name tax_applicable tax_percentage')]: the
    selected fields do not include [category]. *)
Definition populate_subcategory (db : Db) (r : Ref Subcategory.t)
  : Ref Subcategory.t :=
  match resolve (Subcategories db) r with
  | Some s =>
      RefDoc {| Subcategory._id := Subcategory._id s;
                Subcategory.name := Subcategory.name s;
                Subcategory.category := RefNone;
                Subcategory.tax_applicable := Subcategory.tax_applicable s;
                Subcategory.tax_percentage := Subcategory.tax_percentage s |}
  | None => RefNone
  end.

(** [.populate('addon_groups')]: ids with no document are dropped. *)
Definition populate_addon_groups (db : Db) (ids : list string)
  : list AddonGroup.t :=
  omap (fun id => AddonGroups db !! id) ids.

(* ================================================================== *)
(** * utils/taxEngine.js *)
(* ================================================================== *)

Module TaxEngine.

Record EffectiveTax := mkEffectiveTax {
  tax_applicable : bool;
  tax_percentage : Q;
  inherited_from : string;
  source_id : option string
}.

(** [x.tax_applicable ? (x.tax_percentage || 0) : 0]. *)
Definition percentage_of (applicable : bool) (percentage : option Q) : Q :=
  if applicable then Js.num_or percentage 0 else 0%Q.

Definition from_category (category : Category.t) : EffectiveTax :=
  {| tax_applicable := Category.tax_applicable category;
     tax_percentage :=
       percentage_of (Category.tax_applicable category)
         (Category.tax_percentage category);
     inherited_from := "category";
     source_id := Some (Category._id category) |}.

Definition default_tax : EffectiveTax :=
  {| tax_applicable := false;
     tax_percentage := 0;
     inherited_from := "default";
     source_id := None |}.

(** [getEffectiveTax(item)]. *)
Definition getEffectiveTax {G : Type} (db : Db) (item : Item.t G)
  : EffectiveTax :=
  match Item.tax_applicable item with
  | Some applicable =>
      {| tax_applicable := applicable;
         tax_percentage := percentage_of applicable (Item.tax_percentage item);
         inherited_from := "item";
         source_id := Some (Item._id item) |}
  | None =>
      let via_item_category :=
        match resolve (Categories db) (Item.category item) with
        | Some category => from_category category
        | None => default_tax
        end in
      match resolve (Subcategories db) (Item.subcategory item) with
      | Some subcategory =>
          match Subcategory.tax_applicable subcategory with
          | Some applicable =>
              {| tax_applicable := applicable;
                 tax_percentage :=
                   percentage_of applicable
                     (Subcategory.tax_percentage subcategory);
                 inherited_from := "subcategory";
                 source_id := Some (Subcategory._id subcategory) |}
          | None =>
              match resolve (Categories db) (Subcategory.category subcategory) with
              | Some category => from_category category
              | None => via_item_category
              end
          end
      | None => via_item_category
      end
  end.

(** The object [calculateTax] returns. *)
Module TaxCalculation.
Record t := mk {
  original_amount : Q;
  tax_percentage : Q;
  tax_amount : Q;
  total_with_tax : Q
}.
End TaxCalculation.

(** [calculateTax(amount, taxPercentage)], on Numbers read as exact
    rationals (see [Js.Math_round]); [Binary64.calculateTax] is the same
    function on doubles. *)
Definition calculateTax (amount taxPercentage : Q) : TaxCalculation.t :=
  let taxAmount := (amount * taxPercentage / 100)%Q in
  {| TaxCalculation.original_amount := amount;
     TaxCalculation.tax_percentage := taxPercentage;
     TaxCalculation.tax_amount := (Js.Math_round (taxAmount * 100) / 100)%Q;
     TaxCalculation.total_with_tax :=
       (Js.Math_round ((amount + taxAmount) * 100) / 100)%Q |}.

End TaxEngine.

(* ================================================================== *)
(** * services/itemService.js: calculatePrice *)
(* ================================================================== *)

Module ItemService.

(** One entry of [options.addons]. *)
Record AddonSelection := mkAddonSelection {
  addon_group : string;
  addon_ids : list string
}.

(** [options]; [quantity] and [addons] fall back to [1] and [[]] when
    absent, [datetime] is always supplied by the callers. *)
Record Options := mkOptions {
  opt_quantity : option Q;
  opt_datetime : Js.Date;
  opt_addons : option (list AddonSelection)
}.

Record ItemInfo := mkItemInfo {
  id : string;
  name : string;
  category : option string;
  subcategory : option string
}.

Record PricingDetails := mkPricingDetails {
  pricing_type : PRICING_TYPES;
  pricing_rule_applied : PricingEngine.RuleLabel;
  unit_price : Q;
  quantity : Q;
  base_price : Q;
  discount_amount : Q
}.

Record AddonDetail := mkAddonDetail {
  group_name : string;
  selected_addons : list (string * Q);
  total_price : Q
}.

Record TaxInfo := mkTaxInfo {
  applicable : bool;
  percentage : Q;
  inherited_from : string;
  amount : Q
}.

(** The object [calculatePrice] returns, without [calculated_at]. *)
Record Quote := mkQuote {
  item : ItemInfo;
  pricing_details : PricingDetails;
  addons_details : list AddonDetail;
  addons_total : Q;
  subtotal : Q;
  tax : TaxInfo;
  final_price : Q
}.

(** [.populate('category', ...).populate('subcategory', ...)
    .populate('addon_groups')] on a stored item. *)
Definition populate (db : Db) (doc : Item.t string)
  : Item.t AddonGroup.t :=
  {| Item._id := Item._id doc;
     Item.name := Item.name doc;
     Item.category := populate_category db (Item.category doc);
     Item.subcategory := populate_subcategory db (Item.subcategory doc);
     Item.tax_applicable := Item.tax_applicable doc;
     Item.tax_percentage := Item.tax_percentage doc;
     Item.pricing := Item.pricing doc;
     Item.is_bookable := Item.is_bookable doc;
     Item.availability_slots := Item.availability_slots doc;
     Item.addon_groups := populate_addon_groups db (Item.addon_groups doc);
     Item.is_active := Item.is_active doc |}.

(** [Item.findById(id)] followed by the three [populate] calls. *)
Definition findById_populated (db : Db) (id : string)
  : option (Item.t AddonGroup.t) :=
  match Items db !! id with
  | Some doc => Some (populate db doc)
  | None => None
  end.

(** [item.addon_groups.find(g => g._id.toString() === sel.addon_group)]. *)
Definition find_group (groups : list AddonGroup.t) (sel : AddonSelection)
  : option AddonGroup.t :=
  List.find (fun g => String.eqb (AddonGroup._id g) (addon_group sel)) groups.

(** The loop [for (const addonSelection of addons)], threading
    [addonsTotal] and [addonDetails]; a failed validation throws. *)
Fixpoint addons_loop (groups : list AddonGroup.t)
    (addons : list AddonSelection) (addonsTotal : Q)
    (addonDetails : list AddonDetail)
  : Outcome (Q * list AddonDetail) :=
  match addons with
  | [] => Ok (addonsTotal, addonDetails)
  | addonSelection :: rest =>
      match find_group groups addonSelection with
      | Some addonGroup =>
          let validation :=
            AddonGroup.validateSelections addonGroup (addon_ids addonSelection) in
          if negb (AddonGroup.valid validation) then
            Throw 400 (default (Msg "") (AddonGroup.error validation)) []
          else
            let addonPrice :=
              AddonGroup.calculateSelectedPrice addonGroup
                (addon_ids addonSelection) in
            let selectedAddons :=
              List.filter
                (fun a => AddonGroup.includes (addon_ids addonSelection)
                            (Addon._id a))
                (AddonGroup.addons addonGroup) in
            addons_loop groups rest (addonsTotal + addonPrice)%Q
              (addonDetails
               ++ [ {| group_name := AddonGroup.name addonGroup;
                       selected_addons :=
                         List.map (fun a => (Addon.name a, Addon.price a))
                           selectedAddons;
                       total_price := addonPrice |} ])
      | None => addons_loop groups rest addonsTotal addonDetails
      end
  end.

Definition ref_name_category (r : Ref Category.t) : option string :=
  match r with RefDoc c => Some (Category.name c) | _ => None end.

Definition ref_name_subcategory (r : Ref Subcategory.t) : option string :=
  match r with RefDoc s => Some (Subcategory.name s) | _ => None end.

(** [calculatePrice(id, options)]. *)
Definition calculatePrice (db : Db) (id : string) (options : Options)
  : Outcome Quote :=
  let quantity := default 1%Q (opt_quantity options) in
  let datetime := opt_datetime options in
  let addons := default [] (opt_addons options) in
  match findById_populated db id with
  | None => Throw 404 (Msg "Item not found") []
  | Some item =>
      if negb (Item.is_active item) then
        Throw 400 (Msg "Item is not available") []
      else
        match PricingEngine.calculatePrice (Item.pricing item) quantity datetime with
        | Throw s m c => Throw s m c
        | ThrowError m => ThrowError m
        | Ok priceResult =>
            match addons_loop (Item.addon_groups item) addons 0%Q [] with
            | Throw s m c => Throw s m c
            | ThrowError m => ThrowError m
            | Ok (addonsTotal, addonDetails) =>
                let subtotal :=
                  (PricingEngine.calculated_price priceResult + addonsTotal)%Q in
                let effectiveTax := TaxEngine.getEffectiveTax db item in
                let taxCalculation :=
                  TaxEngine.calculateTax subtotal
                    (TaxEngine.tax_percentage effectiveTax) in
                Ok {| item :=
                        {| id := Item._id item;
                           name := Item.name item;
                           category := ref_name_category (Item.category item);
                           subcategory :=
                             ref_name_subcategory (Item.subcategory item) |};
                      pricing_details :=
                        {| pricing_type := PricingEngine.pricing_type priceResult;
                           pricing_rule_applied :=
                             PricingEngine.pricing_rule_applied priceResult;
                           unit_price := PricingEngine.unit_price priceResult;
                           quantity := PricingEngine.quantity priceResult;
                           base_price := PricingEngine.base_price priceResult;
                           discount_amount :=
                             PricingEngine.discount_amount priceResult |};
                      addons_details := addonDetails;
                      addons_total := addonsTotal;
                      subtotal := subtotal;
                      tax :=
                        {| applicable := TaxEngine.tax_applicable effectiveTax;
                           percentage := TaxEngine.tax_percentage effectiveTax;
                           inherited_from := TaxEngine.inherited_from effectiveTax;
                           amount := TaxEngine.TaxCalculation.tax_amount taxCalculation |};
                      final_price := TaxEngine.TaxCalculation.total_with_tax taxCalculation |}
            end
        end
  end.

(** [calculatePrice(id, { quantity, datetime, addons })] with a
    [datetime] that may be Invalid Date, as the booking service passes
    it. *)
Definition calculatePrice_at (db : Db) (id : string) (quantity : option Q)
    (datetime : Js.DateObject) (addons : option (list AddonSelection))
  : Outcome Quote :=
  let quantity := default 1%Q quantity in
  let addons := default [] addons in
  match findById_populated db id with
  | None => Throw 404 (Msg "Item not found") []
  | Some item =>
      if negb (Item.is_active item) then
        Throw 400 (Msg "Item is not available") []
      else
        match PricingEngine.calculatePrice_at (Item.pricing item) quantity
                datetime with
        | Throw s m c => Throw s m c
        | ThrowError m => ThrowError m
        | Ok priceResult =>
            match addons_loop (Item.addon_groups item) addons 0%Q [] with
            | Throw s m c => Throw s m c
            | ThrowError m => ThrowError m
            | Ok (addonsTotal, addonDetails) =>
                let subtotal :=
                  (PricingEngine.calculated_price priceResult + addonsTotal)%Q in
                let effectiveTax := TaxEngine.getEffectiveTax db item in
                let taxCalculation :=
                  TaxEngine.calculateTax subtotal
                    (TaxEngine.tax_percentage effectiveTax) in
                Ok {| item :=
                        {| id := Item._id item;
                           name := Item.name item;
                           category := ref_name_category (Item.category item);
                           subcategory :=
                             ref_name_subcategory (Item.subcategory item) |};
                      pricing_details :=
                        {| pricing_type := PricingEngine.pricing_type priceResult;
                           pricing_rule_applied :=
                             PricingEngine.pricing_rule_applied priceResult;
                           unit_price := PricingEngine.unit_price priceResult;
                           quantity := PricingEngine.quantity priceResult;
                           base_price := PricingEngine.base_price priceResult;
                           discount_amount :=
                             PricingEngine.discount_amount priceResult |};
                      addons_details := addonDetails;
                      addons_total := addonsTotal;
                      subtotal := subtotal;
                      tax :=
                        {| applicable := TaxEngine.tax_applicable effectiveTax;
                           percentage := TaxEngine.tax_percentage effectiveTax;
                           inherited_from := TaxEngine.inherited_from effectiveTax;
                           amount := TaxEngine.TaxCalculation.tax_amount taxCalculation |};
                      final_price := TaxEngine.TaxCalculation.total_with_tax taxCalculation |}
            end
        end
  end.

End ItemService.

(* ================================================================== *)
(** * models/Booking.js: statics *)
(* ================================================================== *)

Module BookingModel.

(** The [$or] of the conflict query, over the stored [start_time] and
    [end_time]; [$lt], [$lte], [$gt], [$gte] on strings compare them
    character by character. *)
Definition starts_during (b : Booking.t) (startTime : string) : bool :=
  String.leb (Booking.start_time b) startTime
  && String.ltb startTime (Booking.end_time b).

Definition ends_during (b : Booking.t) (endTime : string) : bool :=
  String.ltb (Booking.start_time b) endTime
  && String.leb endTime (Booking.end_time b).

Definition fully_contained (b : Booking.t) (startTime endTime : string)
  : bool :=
  String.leb startTime (Booking.start_time b)
  && String.leb (Booking.end_time b) endTime.

Definition or_query (b : Booking.t) (startTime endTime : string) : bool :=
  starts_during b startTime
  || ends_during b endTime
  || fully_contained b startTime endTime.

(** The whole query document of [findConflicts]. *)
Definition conflict_query (itemId : string) (bookingDate : Js.Date)
    (startTime endTime : string) (excludeBookingId : option string)
    (b : Booking.t) : bool :=
  String.eqb (Booking.item b) itemId
  && Js.Date_eqb (Booking.booking_date b) bookingDate
  && negb (BOOKING_STATUS_eqb (Booking.status b) CANCELLED)
  && or_query b startTime endTime
  && match excludeBookingId with
     | Some id => negb (String.eqb (Booking._id b) id)
     | None => true
     end.

(** [findConflicts(itemId, bookingDate, startTime, endTime,
    excludeBookingId = null)]. *)
Definition findConflicts (db : Db) (itemId : string) (bookingDate : Js.Date)
    (startTime endTime : string) (excludeBookingId : option string)
  : list Booking.t :=
  List.filter
    (conflict_query itemId bookingDate startTime endTime excludeBookingId)
    (Bookings db).

(** [isTimeOverlapping(start1, end1, start2, end2)]. *)
Definition isTimeOverlapping (start1 end1 start2 end2 : string) : bool :=
  let s1 := Js.toMinutes start1 in
  let e1 := Js.toMinutes end1 in
  let s2 := Js.toMinutes start2 in
  let e2 := Js.toMinutes end2 in
  Js.nan_cmp Z.ltb s1 e2 && Js.nan_cmp Z.gtb e1 s2.

(** [Booking.findById(id)]. *)
Definition findById (db : Db) (id : string) : option Booking.t :=
  List.find (fun b => String.eqb (Booking._id b) id) (Bookings db).

(** [booking.save()] of an existing document. *)
Definition save (db : Db) (booking : Booking.t) : Db :=
  {| Categories := Categories db;
     Subcategories := Subcategories db;
     Items := Items db;
     AddonGroups := AddonGroups db;
     Bookings :=
       List.map
         (fun b => if String.eqb (Booking._id b) (Booking._id booking)
                   then booking else b)
         (Bookings db) |}.

(** What [bookingSchema] requires of the fields modelled here:
    [quantity >= 1], a [price >= 0] on every selected add-on, and a
    [base_price >= 0] in the breakdown. *)
Definition schema_validates (b : Booking.t) : bool :=
  Qle_bool 1 (Booking.quantity b)
  && List.forallb
       (fun a => match SelectedAddon.price a with
                 | Some p => Qle_bool 0 p
                 | None => false
                 end)
       (Booking.selected_addons b)
  && match Booking.price_breakdown b with
     | Some pb => Qle_bool 0 (PriceBreakdown.base_price pb)
     | None => true
     end.

End BookingModel.

(* ================================================================== *)
(** * services/bookingService.js *)
(* ================================================================== *)

Module BookingService.

(** [isTimeWithinSlot(startTime, endTime, slotStart, slotEnd)]. *)
Definition isTimeWithinSlot (startTime endTime slotStart slotEnd : string)
  : bool :=
  let st := Js.toMinutes startTime in
  let et := Js.toMinutes endTime in
  let ss := Js.toMinutes slotStart in
  let se := Js.toMinutes slotEnd in
  Js.nan_cmp Z.geb st ss && Js.nan_cmp Z.leb et se.

Inductive Availability :=
| Available (slot : option Slot.t)      (* { available: true, slot? } *)
| Unavailable (reason : string).        (* { available: false, reason } *)

(** The callback of [availability_slots.find]. *)
Definition slot_contains (dayOfWeek : Z) (startTime endTime : string)
    (slot : Slot.t) : bool :=
  if negb (Slot.day slot =? dayOfWeek) then false
  else isTimeWithinSlot startTime endTime
         (Slot.start_time slot) (Slot.end_time slot).

(** [checkAvailability(item, bookingDate, startTime, endTime)]. *)
Definition checkAvailability {G : Type} (item : Item.t G)
    (bookingDate : Js.Date) (startTime endTime : string) : Availability :=
  match Item.availability_slots item with
  | None | Some [] => Available None
  | Some slots =>
      let dayOfWeek := Js.getDay bookingDate in
      match List.find (slot_contains dayOfWeek startTime endTime) slots with
      | None => Unavailable "Requested time slot is not within available hours"
      | Some matchingSlot => Available (Some matchingSlot)
      end
  end.

(** The body of an update request (the fields of [updateBookingSchema]
    that reach a rule). *)
Module UpdateData.
Record t := mk {
  booking_date : option Js.Date;
  start_time : option string;
  end_time : option string;
  quantity : option Q;
  selected_addons : option (list SelectedAddon.t);
  status : option BOOKING_STATUS
}.
End UpdateData.

(** The [price_breakdown] object built from a quote, in [create] and in
    [update]. *)
Definition breakdown_of (priceCalculation : ItemService.Quote)
  : PriceBreakdown.t :=
  let pd := ItemService.pricing_details priceCalculation in
  {| PriceBreakdown.base_price := ItemService.base_price pd;
     PriceBreakdown.pricing_type := ItemService.pricing_type pd;
     PriceBreakdown.pricing_rule_applied := ItemService.pricing_rule_applied pd;
     PriceBreakdown.discount_amount := ItemService.discount_amount pd;
     PriceBreakdown.addons_total := ItemService.addons_total priceCalculation;
     PriceBreakdown.subtotal := ItemService.subtotal priceCalculation;
     PriceBreakdown.tax_percentage :=
       ItemService.percentage (ItemService.tax priceCalculation);
     PriceBreakdown.tax_amount :=
       ItemService.amount (ItemService.tax priceCalculation);
     PriceBreakdown.final_price := ItemService.final_price priceCalculation |}.

Definition is_locked (s : BOOKING_STATUS) : bool :=
  BOOKING_STATUS_eqb s CANCELLED || BOOKING_STATUS_eqb s COMPLETED.

(** [`Cannot update ${booking.status.toLowerCase()} booking`]. *)
Definition cannot_update (s : BOOKING_STATUS) : Message :=
  match s with
  | CANCELLED => Msg "Cannot update cancelled booking"
  | COMPLETED => Msg "Cannot update completed booking"
  | PENDING => Msg "Cannot update pending booking"
  | CONFIRMED => Msg "Cannot update confirmed booking"
  end.

(** [data.start_time || data.end_time || data.booking_date]. *)
Definition time_changed (data : UpdateData.t) : bool :=
  Js.truthy_str (UpdateData.start_time data)
  || Js.truthy_str (UpdateData.end_time data)
  || bool_decide (is_Some (UpdateData.booking_date data)).

(** [data.quantity || data.selected_addons]. *)
Definition requote_needed (data : UpdateData.t) : bool :=
  Js.truthy_num (UpdateData.quantity data)
  || bool_decide (is_Some (UpdateData.selected_addons data)).

Definition conflict_info (c : Booking.t) : ConflictInfo.t :=
  {| ConflictInfo.id := Booking._id c;
     ConflictInfo.start_time := Booking.start_time c;
     ConflictInfo.end_time := Booking.end_time c |}.

(** [(data.selected_addons || booking.selected_addons).map(...)]. *)
Definition addonsForPricing (booking : Booking.t) (data : UpdateData.t)
  : list ItemService.AddonSelection :=
  List.map
    (fun a => {| ItemService.addon_group := SelectedAddon.addon_group a;
                 ItemService.addon_ids := SelectedAddon.addon_ids a |})
    (default (Booking.selected_addons booking)
       (UpdateData.selected_addons data)).

(** [Object.assign(booking, data)], [price_breakdown] being the entry
    [update] adds to [data] when it re-quotes. *)
Definition assign (booking : Booking.t) (data : UpdateData.t)
    (price_breakdown : option PriceBreakdown.t) : Booking.t :=
  {| Booking._id := Booking._id booking;
     Booking.item := Booking.item booking;
     Booking.booking_date :=
       default (Booking.booking_date booking) (UpdateData.booking_date data);
     Booking.start_time :=
       default (Booking.start_time booking) (UpdateData.start_time data);
     Booking.end_time :=
       default (Booking.end_time booking) (UpdateData.end_time data);
     Booking.quantity :=
       default (Booking.quantity booking) (UpdateData.quantity data);
     Booking.selected_addons :=
       default (Booking.selected_addons booking)
         (UpdateData.selected_addons data);
     Booking.price_breakdown :=
       match price_breakdown with
       | Some pb => Some pb
       | None => Booking.price_breakdown booking
       end;
     Booking.status :=
       default (Booking.status booking) (UpdateData.status data) |}.

(** The [datetime] [update] hands to [ItemService.calculatePrice]:
    [new Date((data.booking_date || booking.booking_date) + 'T' +
    (data.start_time || booking.start_time))]. *)
Definition requote_datetime (booking : Booking.t) (data : UpdateData.t)
  : Js.DateObject :=
  Js.Date_of_concat
    (default (Booking.booking_date booking) (UpdateData.booking_date data))
    (Js.str_or (UpdateData.start_time data) (Booking.start_time booking)).

Section Update.

(** Document validation run by [booking.save()], a parameter. *)
Variable validates : Booking.t -> bool.

(** [update(id, data)]: the new store and the saved booking. *)
Definition update (db : Db) (id : string) (data : UpdateData.t)
  : Outcome (Db * Booking.t) :=
  match BookingModel.findById db id with
  | None => Throw 404 (Msg "Booking not found") []
  | Some booking =>
      if is_locked (Booking.status booking) then
        Throw 400 (cannot_update (Booking.status booking)) []
      else
        let conflicts :=
          if time_changed data then
            BookingModel.findConflicts db (Booking.item booking)
              (default (Booking.booking_date booking)
                 (UpdateData.booking_date data))
              (Js.str_or (UpdateData.start_time data)
                 (Booking.start_time booking))
              (Js.str_or (UpdateData.end_time data)
                 (Booking.end_time booking))
              (Some (Booking._id booking))
          else [] in
        match conflicts with
        | _ :: _ =>
            Throw 409 (Msg "New time slot conflicts with existing bookings")
              (List.map conflict_info conflicts)
        | [] =>
            let requoted : Outcome (option PriceBreakdown.t) :=
              if requote_needed data then
                match ItemService.calculatePrice_at db (Booking.item booking)
                        (Some (Js.num_or (UpdateData.quantity data)
                                 (Booking.quantity booking)))
                        (requote_datetime booking data)
                        (Some (addonsForPricing booking data)) with
                | Ok priceCalculation => Ok (Some (breakdown_of priceCalculation))
                | Throw s m c => Throw s m c
                | ThrowError m => ThrowError m
                end
              else Ok None in
            match requoted with
            | Throw s m c => Throw s m c
            | ThrowError m => ThrowError m
            | Ok price_breakdown =>
                let booking' := assign booking data price_breakdown in
                if validates booking'
                then Ok (BookingModel.save db booking', booking')
                else ThrowError (Msg "ValidationError")
            end
        end
  end.

End Update.

End BookingService.

(* ================================================================== *)
(** * utils/taxEngine.js: the subcategory resolver and the validator *)
(* ================================================================== *)

Module TaxEngineExtra.

(** [getSubcategoryTax(subcategory)]. *)
Definition getSubcategoryTax (db : Db) (subcategory : Subcategory.t)
  : TaxEngine.EffectiveTax :=
  match Subcategory.tax_applicable subcategory with
  | Some applicable =>
      {| TaxEngine.tax_applicable := applicable;
         TaxEngine.tax_percentage :=
           TaxEngine.percentage_of applicable
             (Subcategory.tax_percentage subcategory);
         TaxEngine.inherited_from := "subcategory";
         TaxEngine.source_id := Some (Subcategory._id subcategory) |}
  | None =>
      match resolve (Categories db) (Subcategory.category subcategory) with
      | Some category => TaxEngine.from_category category
      | None => TaxEngine.default_tax
      end
  end.

(** The entries [validateTaxConfig] pushes on [errors]. *)
Inductive TaxConfigError :=
| PercentageRequired     (* 'Tax percentage is required when tax is applicable' *)
| PercentageOutOfRange.  (* 'Tax percentage must be between 0 and 100' *)

Record Validation := mkValidation {
  valid : bool;
  errors : list TaxConfigError
}.

(** [validateTaxConfig(taxApplicable, taxPercentage)]. *)
Definition validateTaxConfig (taxApplicable : option bool)
    (taxPercentage : option Q) : Validation :=
  let errors :=
    match taxApplicable with
    | Some true =>
        match taxPercentage with
        | None => [PercentageRequired]
        | Some p =>
            if Js.Qltb p 0 || Js.Qltb 100 p then [PercentageOutOfRange]
            else []
        end
    | _ => []
    end in
  {| valid := (List.length errors =? 0)%nat; errors := errors |}.

End TaxEngineExtra.

(* ================================================================== *)
(** * utils/taxEngine.js: calculateTax on doubles *)
(* ================================================================== *)

(** JavaScript Numbers are IEEE 754 binary64 values.  [SpecFloat] gives
    them with their correctly rounded operations (53 bits of precision,
    round to nearest, ties to even). *)
Module Binary64.

Definition prec : Z := 53.
Definition emax : Z := 1024.

Definition t : Type := spec_float.

Definition add : t -> t -> t := SFadd prec emax.
Definition mul : t -> t -> t := SFmul prec emax.
Definition div : t -> t -> t := SFdiv prec emax.

(** The double of an integer (exact below [2 ^ 53]). *)
Definition of_Z (z : Z) : t := binary_normalize prec emax z 0 false.

(** The double a decimal literal denotes, [n / 10 ^ d] rounded once:
    [decimal 1005 2] is [10.05]. *)
Definition decimal (n : Z) (d : nat) : t :=
  div (of_Z n) (of_Z (10 ^ Z.of_nat d)).

(** The rational a finite double is. *)
Definition to_Q (x : t) : option Q :=
  match x with
  | S754_zero _ => Some 0%Q
  | S754_finite s m e =>
      let n := if s then Z.neg m else Z.pos m in
      Some (if 0 <=? e then inject_Z (n * 2 ^ e)
            else Qmake n (Z.to_pos (2 ^ (- e))))
  | _ => None
  end.

(** [Math.round(x)]: the integer nearest to the value of [x], ties
    towards +infinity; zeros, infinities and [NaN] are returned as they
    are. *)
Definition Math_round (x : t) : t :=
  match x with
  | S754_finite s m e =>
      let n := if s then Z.neg m else Z.pos m in
      let r := if 0 <=? e then n * 2 ^ e
               else (2 * n + 2 ^ (- e)) / 2 ^ (- e + 1) in
      binary_normalize prec emax r 0 s
  | _ => x
  end.

Record TaxCalculation := mkTaxCalculation {
  original_amount : t;
  tax_percentage : t;
  tax_amount : t;
  total_with_tax : t
}.

(** [calculateTax(amount, taxPercentage)]. *)
Definition calculateTax (amount taxPercentage : t) : TaxCalculation :=
  let taxAmount := div (mul amount taxPercentage) (of_Z 100) in
  {| original_amount := amount;
     tax_percentage := taxPercentage;
     tax_amount := div (Math_round (mul taxAmount (of_Z 100))) (of_Z 100);
     total_with_tax :=
       div (Math_round (mul (add amount taxAmount) (of_Z 100))) (of_Z 100) |}.

End Binary64.

(* ================================================================== *)
(** * models/AddonGroup.js: the [pre('validate')] hook *)
(* ================================================================== *)

Module AddonGroupHook.

(** The hook: a mandatory group with [min_selections === 0] gets 1, a
    single-selection group gets [max_selections = 1], and
    [min_selections > max_selections] is an error. *)
Definition pre_validate (g : AddonGroup.t) : Outcome AddonGroup.t :=
  let min_selections :=
    match AddonGroup.type g with
    | MANDATORY =>
        if Qeq_bool (AddonGroup.min_selections g) 0 then 1%Q
        else AddonGroup.min_selections g
    | OPTIONAL => AddonGroup.min_selections g
    end in
  let max_selections :=
    match AddonGroup.selection_type g with
    | SINGLE => 1%Q
    | MULTIPLE => AddonGroup.max_selections g
    end in
  if Js.Qltb max_selections min_selections then
    ThrowError (Msg "min_selections cannot be greater than max_selections")
  else
    Ok {| AddonGroup._id := AddonGroup._id g;
          AddonGroup.name := AddonGroup.name g;
          AddonGroup.type := AddonGroup.type g;
          AddonGroup.selection_type := AddonGroup.selection_type g;
          AddonGroup.min_selections := min_selections;
          AddonGroup.max_selections := max_selections;
          AddonGroup.addons := AddonGroup.addons g;
          AddonGroup.is_active := AddonGroup.is_active g |}.

End AddonGroupHook.

(* ================================================================== *)
(** * services/addonService.js: calculateAddonPrice *)
(* ================================================================== *)

Module AddonService.

Record SelectedInfo := mkSelectedInfo {
  id : string;
  name : string;
  price : Q
}.

Record AddonPrice := mkAddonPrice {
  group_name : string;
  selected_addons : list SelectedInfo;
  total_price : Q
}.

(** [calculateAddonPrice(groupId, selectedAddonIds)]. *)
Definition calculateAddonPrice (db : Db) (groupId : string)
    (selectedAddonIds : list string) : Outcome AddonPrice :=
  match AddonGroups db !! groupId with
  | None => Throw 404 (Msg "Add-on group not found") []
  | Some addonGroup =>
      let validation :=
        AddonGroup.validateSelections addonGroup selectedAddonIds in
      if negb (AddonGroup.valid validation) then
        Throw 400 (default (Msg "") (AddonGroup.error validation)) []
      else
        let totalPrice :=
          AddonGroup.calculateSelectedPrice addonGroup selectedAddonIds in
        let selectedAddons :=
          List.filter
            (fun a => AddonGroup.includes selectedAddonIds (Addon._id a))
            (AddonGroup.addons addonGroup) in
        Ok {| group_name := AddonGroup.name addonGroup;
              selected_addons :=
                List.map
                  (fun a => {| id := Addon._id a; name := Addon.name a;
                               price := Addon.price a |})
                  selectedAddons;
              total_price := totalPrice |}
  end.

End AddonService.

(* ================================================================== *)
(** * services/itemService.js: getWithTax, delete, restore, create *)
(* ================================================================== *)

Module ItemServiceExtra.

(** [.populate('category', ...).populate('subcategory', ...)] on a stored
    item; [addon_groups] stays a list of ids. *)
Definition populate_refs (db : Db) (doc : Item.t string) : Item.t string :=
  {| Item._id := Item._id doc;
     Item.name := Item.name doc;
     Item.category := populate_category db (Item.category doc);
     Item.subcategory := populate_subcategory db (Item.subcategory doc);
     Item.tax_applicable := Item.tax_applicable doc;
     Item.tax_percentage := Item.tax_percentage doc;
     Item.pricing := Item.pricing doc;
     Item.is_bookable := Item.is_bookable doc;
     Item.availability_slots := Item.availability_slots doc;
     Item.addon_groups := Item.addon_groups doc;
     Item.is_active := Item.is_active doc |}.

(** [getWithTax(id)]: the item and its [effective_tax]. *)
Definition getWithTax (db : Db) (id : string)
  : Outcome (Item.t string * TaxEngine.EffectiveTax) :=
  match Items db !! id with
  | None => Throw 404 (Msg "Item not found") []
  | Some doc =>
      let item := populate_refs db doc in
      Ok (item, TaxEngine.getEffectiveTax db item)
  end.

(** The document with [is_active] assigned. *)
Definition set_active (doc : Item.t string) (active : bool) : Item.t string :=
  {| Item._id := Item._id doc;
     Item.name := Item.name doc;
     Item.category := Item.category doc;
     Item.subcategory := Item.subcategory doc;
     Item.tax_applicable := Item.tax_applicable doc;
     Item.tax_percentage := Item.tax_percentage doc;
     Item.pricing := Item.pricing doc;
     Item.is_bookable := Item.is_bookable doc;
     Item.availability_slots := Item.availability_slots doc;
     Item.addon_groups := Item.addon_groups doc;
     Item.is_active := active |}.

(** The store with one item document written under its id. *)
Definition put_item (db : Db) (id : string) (doc : Item.t string) : Db :=
  {| Categories := Categories db;
     Subcategories := Subcategories db;
     Items := <[ id := doc ]> (Items db);
     AddonGroups := AddonGroups db;
     Bookings := Bookings db |}.

(** The body of a create request, as [createItemSchema] hands it over. *)
Module ItemData.
Record t := mk {
  name : string;
  category : option string;
  subcategory : option string;
  tax_applicable : option bool;
  tax_percentage : option Q;
  pricing : PricingConfig.t;
  is_bookable : bool;
  availability_slots : list Slot.t;
  addon_groups : list string;
  is_active : bool
}.
End ItemData.

(** [AddonGroup.find({ _id: { $in: ids } }).length]: the documents whose
    id occurs in [ids], each once. *)
Definition count_groups_in (db : Db) (ids : list string) : nat :=
  List.length
    (List.filter (fun id => bool_decide (is_Some (AddonGroups db !! id)))
       (remove_dups ids)).

Section Save.

(** Document validation run by [item.save()], apart from the
    [pre('validate')] hook of the item schema, which is modelled. *)
Variable validates : Item.t string -> bool.

(** [item.save()]: the hook refuses an item with neither category nor
    subcategory. *)
Definition save (db : Db) (id : string) (doc : Item.t string) : Outcome Db :=
  match Item.category doc, Item.subcategory doc with
  | RefNone, RefNone =>
      ThrowError (Msg "Item must belong to either a category or subcategory")
  | _, _ =>
      if validates doc then Ok (put_item db id doc)
      else ThrowError (Msg "ValidationError")
  end.

(** [delete(id)]: soft delete; the message returned is constant. *)
Definition delete (db : Db) (id : string) : Outcome Db :=
  match Items db !! id with
  | None => Throw 404 (Msg "Item not found") []
  | Some item => save db id (set_active item false)
  end.

(** [restore(id)]. *)
Definition restore (db : Db) (id : string) : Outcome (Db * Item.t string) :=
  match Items db !! id with
  | None => Throw 404 (Msg "Item not found") []
  | Some item =>
      match save db id (set_active item true) with
      | Ok db' => Ok (db', set_active item true)
      | Throw s m c => Throw s m c
      | ThrowError m => ThrowError m
      end
  end.

(** [create(data)]; [new_id] is the [_id] given to the new document. *)
Definition create (db : Db) (new_id : string) (data : ItemData.t)
  : Outcome (Db * Item.t AddonGroup.t) :=
  let category_missing :=
    match ItemData.category data with
    | Some c => negb (bool_decide (is_Some (Categories db !! c)))
    | None => false
    end in
  if category_missing then Throw 404 (Msg "Category not found") []
  else
    let checked_subcategory : Outcome (Ref Category.t) :=
      match ItemData.subcategory data with
      | Some s =>
          match Subcategories db !! s with
          | None => Throw 404 (Msg "Subcategory not found") []
          | Some subcategory =>
              Ok (match ItemData.category data with
                  | Some c => RefId c
                  | None => Subcategory.category subcategory
                  end)
          end
      | None =>
          Ok (match ItemData.category data with
              | Some c => RefId c
              | None => RefNone
              end)
      end in
    match checked_subcategory with
    | Throw s m c => Throw s m c
    | ThrowError m => ThrowError m
    | Ok category =>
        if negb (PricingEngine.valid
                   (PricingEngine.validatePricingConfig (ItemData.pricing data)))
        then Throw 400 (Msg "Invalid pricing configuration") []
        else if (0 <? List.length (ItemData.addon_groups data))%nat
                && negb (count_groups_in db (ItemData.addon_groups data)
                         =? List.length (ItemData.addon_groups data))%nat
        then Throw 400 (Msg "One or more add-on groups not found") []
        else
          let item :=
            {| Item._id := new_id;
               Item.name := ItemData.name data;
               Item.category := category;
               Item.subcategory :=
                 match ItemData.subcategory data with
                 | Some s => RefId s
                 | None => RefNone
                 end;
               Item.tax_applicable := ItemData.tax_applicable data;
               Item.tax_percentage := ItemData.tax_percentage data;
               Item.pricing := ItemData.pricing data;
               Item.is_bookable := ItemData.is_bookable data;
               Item.availability_slots := Some (ItemData.availability_slots data);
               Item.addon_groups := ItemData.addon_groups data;
               Item.is_active := ItemData.is_active data |} in
          match save db new_id item with
          | Ok db' => Ok (db', ItemService.populate db' item)
          | Throw s m c => Throw s m c
          | ThrowError m => ThrowError m
          end
    end.

End Save.

End ItemServiceExtra.

(* ================================================================== *)
(** * models/Booking.js: getBookingsForDate, cancel *)
(* ================================================================== *)

Module BookingStatics.

(** The sign of the character order of two strings, as a sort key
    comparison. *)
Definition compare_strings (a b : string) : Q :=
  match String.compare a b with
  | Lt => (-1)%Q
  | Eq => 0%Q
  | Gt => 1%Q
  end.

(** The filter of [getBookingsForDate]. *)
Definition on_date (itemId : string) (date : Js.Date) (b : Booking.t) : bool :=
  String.eqb (Booking.item b) itemId
  && Js.Date_eqb (Booking.booking_date b) date
  && negb (BOOKING_STATUS_eqb (Booking.status b) CANCELLED).

(** [getBookingsForDate(itemId, date)]:
    [find({...}).sort({ start_time: 1 })].  The store leaves the order of
    bookings with equal [start_time] open; here they keep their order. *)
Definition getBookingsForDate (db : Db) (itemId : string) (date : Js.Date)
  : list Booking.t :=
  Js.sort
    (fun a b => compare_strings (Booking.start_time a) (Booking.start_time b))
    (List.filter (on_date itemId date) (Bookings db)).

(** The assignments of the instance method [cancel(reason)];
    [cancelled_at] and [cancellation_reason] are fields left out of
    [Booking.t]. *)
Definition cancelled (b : Booking.t) : Booking.t :=
  {| Booking._id := Booking._id b;
     Booking.item := Booking.item b;
     Booking.booking_date := Booking.booking_date b;
     Booking.start_time := Booking.start_time b;
     Booking.end_time := Booking.end_time b;
     Booking.quantity := Booking.quantity b;
     Booking.selected_addons := Booking.selected_addons b;
     Booking.price_breakdown := Booking.price_breakdown b;
     Booking.status := CANCELLED |}.

End BookingStatics.

(* ================================================================== *)
(** * services/bookingService.js: create, cancel, complete,
      getAvailableSlots *)
(* ================================================================== *)

Module BookingServiceExtra.

(** The body of a create request (the fields of [createBookingSchema]
    that reach a rule). *)
Module CreateData.
Record t := mk {
  item : string;
  booking_date : Js.Date;
  start_time : string;
  end_time : string;
  quantity : option Q;
  selected_addons : option (list SelectedAddon.t)
}.
End CreateData.

(** [Item.findById(id).populate('addon_groups')]. *)
Definition populate_groups (db : Db) (doc : Item.t string)
  : Item.t AddonGroup.t :=
  {| Item._id := Item._id doc;
     Item.name := Item.name doc;
     Item.category := Item.category doc;
     Item.subcategory := Item.subcategory doc;
     Item.tax_applicable := Item.tax_applicable doc;
     Item.tax_percentage := Item.tax_percentage doc;
     Item.pricing := Item.pricing doc;
     Item.is_bookable := Item.is_bookable doc;
     Item.availability_slots := Item.availability_slots doc;
     Item.addon_groups := populate_addon_groups db (Item.addon_groups doc);
     Item.is_active := Item.is_active doc |}.

(** [(data.selected_addons || []).map(a => ({ addon_group, addon_ids }))]. *)
Definition addonsForPricing (data : CreateData.t)
  : list ItemService.AddonSelection :=
  List.map
    (fun a => {| ItemService.addon_group := SelectedAddon.addon_group a;
                 ItemService.addon_ids := SelectedAddon.addon_ids a |})
    (default [] (CreateData.selected_addons data)).

(** [selectedAddonsWithPrices]: each selection with the [total_price] of
    the quote detail whose [group_name] is the name of the selection's
    group, or 0. *)
Definition selectedAddonsWithPrices (item : Item.t AddonGroup.t)
    (priceCalculation : ItemService.Quote) (data : CreateData.t)
  : list SelectedAddon.t :=
  List.map
    (fun addon =>
       let group_name :=
         option_map AddonGroup.name
           (List.find
              (fun g => String.eqb (AddonGroup._id g)
                          (SelectedAddon.addon_group addon))
              (Item.addon_groups item)) in
       let addonDetail :=
         List.find
           (fun d => match group_name with
                     | Some n => String.eqb (ItemService.group_name d) n
                     | None => false
                     end)
           (ItemService.addons_details priceCalculation) in
       {| SelectedAddon.addon_group := SelectedAddon.addon_group addon;
          SelectedAddon.addon_ids := SelectedAddon.addon_ids addon;
          SelectedAddon.price :=
            Some (Js.num_or (option_map ItemService.total_price addonDetail) 0) |})
    (default [] (CreateData.selected_addons data)).

(** The store with one more booking. *)
Definition insert_booking (db : Db) (booking : Booking.t) : Db :=
  {| Categories := Categories db;
     Subcategories := Subcategories db;
     Items := Items db;
     AddonGroups := AddonGroups db;
     Bookings := Bookings db ++ [booking] |}.

(** One entry of the [slots] array of [getAvailableSlots]. *)
Module SlotInfo.
Record t := mk {
  start_time : string;
  end_time : string;
  max_bookings : Q;
  current_bookings : nat;
  is_available : bool
}.
End SlotInfo.

Inductive SlotsResult :=
| NoAvailability (message : string)
    (* { available: false, message, slots: [] } *)
| DaySlots (item_id : string) (date : Js.Date) (day_of_week : Z)
    (slots : list SlotInfo.t).

(** The bookings counted against a slot. *)
Definition slotBookings (existingBookings : list Booking.t) (slot : Slot.t)
  : list Booking.t :=
  List.filter
    (fun booking =>
       BookingModel.isTimeOverlapping
         (Booking.start_time booking) (Booking.end_time booking)
         (Slot.start_time slot) (Slot.end_time slot))
    existingBookings.

Definition slot_info (existingBookings : list Booking.t) (slot : Slot.t)
  : SlotInfo.t :=
  let n := List.length (slotBookings existingBookings slot) in
  {| SlotInfo.start_time := Slot.start_time slot;
     SlotInfo.end_time := Slot.end_time slot;
     SlotInfo.max_bookings := Slot.max_bookings slot;
     SlotInfo.current_bookings := n;
     SlotInfo.is_available :=
       Js.Qltb (inject_Z (Z.of_nat n)) (Slot.max_bookings slot) |}.

(** [getAvailableSlots(itemId, date)]; [availability_slots.filter] on an
    absent array is a [TypeError]. *)
Definition getAvailableSlots (db : Db) (itemId : string) (date : Js.Date)
  : Outcome SlotsResult :=
  match Items db !! itemId with
  | None => Throw 404 (Msg "Item not found") []
  | Some item =>
      if negb (Item.is_bookable item) then
        Throw 400 (Msg "This item is not available for booking") []
      else
        let dayOfWeek := Js.getDay date in
        match Item.availability_slots item with
        | None => ThrowError (Msg "TypeError")
        | Some slots =>
            let daySlots :=
              List.filter (fun slot => Slot.day slot =? dayOfWeek) slots in
            match daySlots with
            | [] => Ok (NoAvailability "No availability on this day")
            | _ :: _ =>
                let existingBookings :=
                  BookingStatics.getBookingsForDate db itemId date in
                Ok (DaySlots itemId date dayOfWeek
                      (List.map (slot_info existingBookings) daySlots))
            end
        end
  end.

Section Operations.

(** The document validation of [booking.save()], a parameter as in
    [BookingService.update]. *)
Variable validates : Booking.t -> bool.

(** [create(data)]; [new_id] is the [_id] given to the new document.  The
    conflicts of a 409 are listed without [customer_name]. *)
Definition create (db : Db) (new_id : string) (data : CreateData.t)
  : Outcome (Db * Booking.t) :=
  match Items db !! CreateData.item data with
  | None => Throw 404 (Msg "Item not found") []
  | Some doc =>
      let item := populate_groups db doc in
      if negb (Item.is_bookable item) then
        Throw 400 (Msg "This item is not available for booking") []
      else if negb (Item.is_active item) then
        Throw 400 (Msg "This item is not available") []
      else
        match BookingService.checkAvailability item
                (CreateData.booking_date data) (CreateData.start_time data)
                (CreateData.end_time data) with
        | BookingService.Unavailable reason => Throw 400 (Msg reason) []
        | BookingService.Available _ =>
            match BookingModel.findConflicts db (CreateData.item data)
                    (CreateData.booking_date data) (CreateData.start_time data)
                    (CreateData.end_time data) None with
            | c :: cs =>
                Throw 409 (Msg "Time slot conflicts with existing bookings")
                  (List.map BookingService.conflict_info (c :: cs))
            | [] =>
                match ItemService.calculatePrice_at db (CreateData.item data)
                        (Some (Js.num_or (CreateData.quantity data) 1))
                        (Js.Date_of_concat (CreateData.booking_date data)
                           (CreateData.start_time data))
                        (Some (addonsForPricing data)) with
                | Throw s m c => Throw s m c
                | ThrowError m => ThrowError m
                | Ok priceCalculation =>
                    let booking :=
                      {| Booking._id := new_id;
                         Booking.item := CreateData.item data;
                         Booking.booking_date := CreateData.booking_date data;
                         Booking.start_time := CreateData.start_time data;
                         Booking.end_time := CreateData.end_time data;
                         Booking.quantity :=
                           default 1%Q (CreateData.quantity data);
                         Booking.selected_addons :=
                           selectedAddonsWithPrices item priceCalculation data;
                         Booking.price_breakdown :=
                           Some (BookingService.breakdown_of priceCalculation);
                         Booking.status := CONFIRMED |} in
                    if validates booking
                    then Ok (insert_booking db booking, booking)
                    else ThrowError (Msg "ValidationError")
                end
            end
        end
  end.

(** [cancel(id, reason)]. *)
Definition cancel (db : Db) (id : string) : Outcome (Db * Booking.t) :=
  match BookingModel.findById db id with
  | None => Throw 404 (Msg "Booking not found") []
  | Some booking =>
      match Booking.status booking with
      | CANCELLED => Throw 400 (Msg "Booking is already cancelled") []
      | COMPLETED => Throw 400 (Msg "Cannot cancel a completed booking") []
      | _ =>
          let booking' := BookingStatics.cancelled booking in
          if validates booking'
          then Ok (BookingModel.save db booking', booking')
          else ThrowError (Msg "ValidationError")
      end
  end.

(** [complete(id)]. *)
Definition complete (db : Db) (id : string) : Outcome (Db * Booking.t) :=
  match BookingModel.findById db id with
  | None => Throw 404 (Msg "Booking not found") []
  | Some booking =>
      match Booking.status booking with
      | CANCELLED => Throw 400 (Msg "Cannot complete a cancelled booking") []
      | _ =>
          let booking' :=
            {| Booking._id := Booking._id booking;
               Booking.item := Booking.item booking;
               Booking.booking_date := Booking.booking_date booking;
               Booking.start_time := Booking.start_time booking;
               Booking.end_time := Booking.end_time booking;
               Booking.quantity := Booking.quantity booking;
               Booking.selected_addons := Booking.selected_addons booking;
               Booking.price_breakdown := Booking.price_breakdown booking;
               Booking.status := COMPLETED |} in
          if validates booking'
          then Ok (BookingModel.save db booking', booking')
          else ThrowError (Msg "ValidationError")
      end
  end.

End Operations.

End BookingServiceExtra.

(* ================================================================== *)
(** * Specification-side notions *)
(* ================================================================== *)

(** Rounding to two decimal places, half up. *)
Definition round2 (x : Q) : Q := (inject_Z (Qfloor (x * 100 + (1 # 2))) / 100)%Q.

(** The minute-of-day of a time string that parses. *)
Definition minutes_are (t : string) (m : Z) : Prop := Js.toMinutes t = Some m.

(** A well-formed half-open interval given as two ["HH:MM"] strings. *)
Definition interval_ok (start_time end_time : string) : Prop :=
  is_HHMM start_time = true /\ is_HHMM end_time = true
  /\ exists s e, minutes_are start_time s /\ minutes_are end_time e /\ s < e.

(** The instant a booking is for: the day of its date at the clock time
    of its start. *)
Definition at_clock (date : Js.Date) (time : string) : Js.Date :=
  let m := default 0 (Js.toMinutes time) in
  {| Js.getTime := Js.getTime date + m * 60000;
     Js.getDay := Js.getDay date;
     Js.getHours := m / 60;
     Js.getMinutes := m mod 60 |}.

(** The overlap test of two intervals in minutes. *)
Definition overlap (s1 e1 s2 e2 : Z) : Prop := s1 < e2 /\ e1 > s2.

(** The window test of a dynamic rule in minutes. *)
Definition in_window (current start end_ : Z) : Prop :=
  if end_ <? start
  then current >= start \/ current < end_
  else start <= current /\ current < end_.

(* ================================================================== *)
(** * Example data *)
(* ================================================================== *)

Module Examples.

Definition noon : Js.Date :=
  {| Js.getTime := 1705320000000; Js.getDay := 1;
     Js.getHours := 12; Js.getMinutes := 0 |}.

Definition static_pricing (p : Q) : PricingConfig.t :=
  {| PricingConfig.type := Some STATIC;
     PricingConfig.base_price := Some p;
     PricingConfig.tiers := None;
     PricingConfig.discount := None;
     PricingConfig.dynamic_rules := None;
     PricingConfig.default_price := None |}.

(** ** A starter with a sauce group, taxed through its category *)

Definition starters : Category.t :=
  {| Category._id := "c1"; Category.name := "Starters";
     Category.tax_applicable := true; Category.tax_percentage := Some 5%Q |}.

Definition dip : Addon.t :=
  {| Addon._id := "a1"; Addon.name := "Dip";
     Addon.price := 20; Addon.is_active := true |}.

Definition sauces : AddonGroup.t :=
  {| AddonGroup._id := "g1"; AddonGroup.name := "Sauce";
     AddonGroup.type := MANDATORY;
     AddonGroup.selection_type := SINGLE;
     AddonGroup.min_selections := 1;
     AddonGroup.max_selections := 1;
     AddonGroup.addons := [dip];
     AddonGroup.is_active := true |}.

Definition fries : Item.t string :=
  {| Item._id := "i1"; Item.name := "Fries";
     Item.category := RefId "c1"; Item.subcategory := RefNone;
     Item.tax_applicable := None; Item.tax_percentage := None;
     Item.pricing := static_pricing 100;
     Item.is_bookable := false; Item.availability_slots := None;
     Item.addon_groups := ["g1"]; Item.is_active := true |}.

Definition menu : Db :=
  {| Categories := {[ "c1" := starters ]};
     Subcategories := ∅;
     Items := {[ "i1" := fries ]};
     AddonGroups := {[ "g1" := sauces ]};
     Bookings := [] |}.

Definition fries_order : ItemService.Options :=
  {| ItemService.opt_quantity := Some 2%Q;
     ItemService.opt_datetime := noon;
     ItemService.opt_addons :=
       Some [ {| ItemService.addon_group := "g1";
                 ItemService.addon_ids := ["a1"] |} ] |}.

(** ** An item priced in fractions of a cent, taxed at 50% on itself *)

Definition sample : Item.t string :=
  {| Item._id := "i2"; Item.name := "Sample";
     Item.category := RefId "c1"; Item.subcategory := RefNone;
     Item.tax_applicable := Some true; Item.tax_percentage := Some 50%Q;
     Item.pricing := static_pricing (10004 # 1000);
     Item.is_bookable := false; Item.availability_slots := None;
     Item.addon_groups := []; Item.is_active := true |}.

Definition lab : Db :=
  {| Categories := {[ "c1" := starters ]};
     Subcategories := ∅;
     Items := {[ "i2" := sample ]};
     AddonGroups := ∅;
     Bookings := [] |}.

Definition one_sample : ItemService.Options :=
  {| ItemService.opt_quantity := Some 1%Q;
     ItemService.opt_datetime := noon;
     ItemService.opt_addons := None |}.

(** ** A discount of 150 percent *)

Definition clearance : PricingConfig.t :=
  {| PricingConfig.type := Some DISCOUNTED;
     PricingConfig.base_price := Some 80%Q;
     PricingConfig.tiers := None;
     PricingConfig.discount :=
       Some {| Discount.type := Some PERCENTAGE;
               Discount.value := Some 150%Q |};
     PricingConfig.dynamic_rules := None;
     PricingConfig.default_price := None |}.

(** ** A spa session with an evening rate, and one booking of it *)

Definition monday : Js.Date :=
  {| Js.getTime := 1705276800000; Js.getDay := 1;
     Js.getHours := 0; Js.getMinutes := 0 |}.

Definition evening_rate : DynamicRule.t :=
  {| DynamicRule.name := "Evening";
     DynamicRule.days := Some [];
     DynamicRule.start_time := "18:00";
     DynamicRule.end_time := "22:00";
     DynamicRule.price := 150;
     DynamicRule.priority := Some 1%Q |}.

Definition spa_pricing : PricingConfig.t :=
  {| PricingConfig.type := Some DYNAMIC;
     PricingConfig.base_price := None;
     PricingConfig.tiers := None;
     PricingConfig.discount := None;
     PricingConfig.dynamic_rules := Some [evening_rate];
     PricingConfig.default_price := Some 100%Q |}.

Definition weekday_hours : Slot.t :=
  {| Slot.day := 1; Slot.start_time := "09:00"; Slot.end_time := "18:00";
     Slot.max_bookings := 5 |}.

Definition spa : Item.t string :=
  {| Item._id := "i3"; Item.name := "Spa";
     Item.category := RefId "c1"; Item.subcategory := RefNone;
     Item.tax_applicable := None; Item.tax_percentage := None;
     Item.pricing := spa_pricing;
     Item.is_bookable := true;
     Item.availability_slots := Some [weekday_hours];
     Item.addon_groups := []; Item.is_active := true |}.

Definition morning_breakdown : PriceBreakdown.t :=
  {| PriceBreakdown.base_price := 100;
     PriceBreakdown.pricing_type := DYNAMIC;
     PriceBreakdown.pricing_rule_applied := PricingEngine.Label "Default Price";
     PriceBreakdown.discount_amount := 0;
     PriceBreakdown.addons_total := 0;
     PriceBreakdown.subtotal := 100;
     PriceBreakdown.tax_percentage := 5;
     PriceBreakdown.tax_amount := 5;
     PriceBreakdown.final_price := 105 |}.

Definition morning : Booking.t :=
  {| Booking._id := "b1"; Booking.item := "i3";
     Booking.booking_date := monday;
     Booking.start_time := "09:00"; Booking.end_time := "10:00";
     Booking.quantity := 1;
     Booking.selected_addons := [];
     Booking.price_breakdown := Some morning_breakdown;
     Booking.status := CONFIRMED |}.

Definition spa_db : Db :=
  {| Categories := {[ "c1" := starters ]};
     Subcategories := ∅;
     Items := {[ "i3" := spa ]};
     AddonGroups := ∅;
     Bookings := [morning] |}.

(** An update that only moves the booking to the evening. *)
Definition move_to_evening : BookingService.UpdateData.t :=
  {| BookingService.UpdateData.booking_date := None;
     BookingService.UpdateData.start_time := Some "19:00";
     BookingService.UpdateData.end_time := Some "20:00";
     BookingService.UpdateData.quantity := None;
     BookingService.UpdateData.selected_addons := None;
     BookingService.UpdateData.status := None |}.

(** An update that moves the booking to the evening for two. *)
Definition evening_for_two : BookingService.UpdateData.t :=
  {| BookingService.UpdateData.booking_date := None;
     BookingService.UpdateData.start_time := Some "19:00";
     BookingService.UpdateData.end_time := Some "20:00";
     BookingService.UpdateData.quantity := Some 2%Q;
     BookingService.UpdateData.selected_addons := None;
     BookingService.UpdateData.status := None |}.

(** ** A rule through midnight *)

Definition late_night : DynamicRule.t :=
  {| DynamicRule.name := "Late night";
     DynamicRule.days := Some [];
     DynamicRule.start_time := "22:00";
     DynamicRule.end_time := "02:00";
     DynamicRule.price := 120;
     DynamicRule.priority := None |}.

Definition clock (h m : Z) : Js.Date :=
  {| Js.getTime := 1705276800000 + (h * 60 + m) * 60000; Js.getDay := 1;
     Js.getHours := h; Js.getMinutes := m |}.

(** ** Two tiers *)

Definition small_orders : Tier.t :=
  {| Tier.min_quantity := 1; Tier.max_quantity := 5; Tier.price := 10 |}.

Definition large_orders : Tier.t :=
  {| Tier.min_quantity := 6; Tier.max_quantity := 10; Tier.price := 8 |}.

Definition tiered : PricingConfig.t :=
  {| PricingConfig.type := Some TIERED;
     PricingConfig.base_price := None;
     PricingConfig.tiers := Some [large_orders; small_orders];
     PricingConfig.discount := None;
     PricingConfig.dynamic_rules := None;
     PricingConfig.default_price := None |}.

(** ** A drink taxed through its subcategory, and one that is not taxed *)

Definition drinks : Subcategory.t :=
  {| Subcategory._id := "s1"; Subcategory.name := "Drinks";
     Subcategory.category := RefId "c1";
     Subcategory.tax_applicable := Some true;
     Subcategory.tax_percentage := Some 12%Q |}.

Definition cola : Item.t string :=
  {| Item._id := "i4"; Item.name := "Cola";
     Item.category := RefId "c1"; Item.subcategory := RefId "s1";
     Item.tax_applicable := None; Item.tax_percentage := None;
     Item.pricing := static_pricing 40;
     Item.is_bookable := false; Item.availability_slots := None;
     Item.addon_groups := []; Item.is_active := true |}.

Definition water : Item.t string :=
  {| Item._id := "i5"; Item.name := "Water";
     Item.category := RefId "c1"; Item.subcategory := RefId "s1";
     Item.tax_applicable := Some false; Item.tax_percentage := Some 12%Q;
     Item.pricing := static_pricing 10;
     Item.is_bookable := false; Item.availability_slots := None;
     Item.addon_groups := []; Item.is_active := true |}.

Definition bar : Db :=
  {| Categories := {[ "c1" := starters ]};
     Subcategories := {[ "s1" := drinks ]};
     Items := {[ "i4" := cola; "i5" := water ]};
     AddonGroups := ∅;
     Bookings := [] |}.

(** ** More requests on the spa *)

Definition late_morning : Booking.t :=
  {| Booking._id := "b2"; Booking.item := "i3";
     Booking.booking_date := monday;
     Booking.start_time := "10:00"; Booking.end_time := "11:00";
     Booking.quantity := 1;
     Booking.selected_addons := [];
     Booking.price_breakdown := Some morning_breakdown;
     Booking.status := CONFIRMED |}.

Definition busy_db : Db :=
  {| Categories := {[ "c1" := starters ]};
     Subcategories := ∅;
     Items := {[ "i3" := spa ]};
     AddonGroups := ∅;
     Bookings := [morning; late_morning] |}.

Definition closed_db : Db :=
  {| Categories := {[ "c1" := starters ]};
     Subcategories := ∅;
     Items := {[ "i3" := spa ]};
     AddonGroups := ∅;
     Bookings := [BookingStatics.cancelled morning] |}.

(** An update that moves a booking half an hour earlier. *)
Definition move_earlier : BookingService.UpdateData.t :=
  {| BookingService.UpdateData.booking_date := None;
     BookingService.UpdateData.start_time := Some "09:30";
     BookingService.UpdateData.end_time := Some "10:30";
     BookingService.UpdateData.quantity := None;
     BookingService.UpdateData.selected_addons := None;
     BookingService.UpdateData.status := None |}.

Definition second_session : BookingServiceExtra.CreateData.t :=
  {| BookingServiceExtra.CreateData.item := "i3";
     BookingServiceExtra.CreateData.booking_date := monday;
     BookingServiceExtra.CreateData.start_time := "10:00";
     BookingServiceExtra.CreateData.end_time := "11:00";
     BookingServiceExtra.CreateData.quantity := Some 2%Q;
     BookingServiceExtra.CreateData.selected_addons := None |}.

Definition clashing_session : BookingServiceExtra.CreateData.t :=
  {| BookingServiceExtra.CreateData.item := "i3";
     BookingServiceExtra.CreateData.booking_date := monday;
     BookingServiceExtra.CreateData.start_time := "10:30";
     BookingServiceExtra.CreateData.end_time := "11:30";
     BookingServiceExtra.CreateData.quantity := None;
     BookingServiceExtra.CreateData.selected_addons := None |}.

(** A session whose times are written without the leading zero, which
    the time pattern admits, and one over the same half hour written in
    full. *)
Definition early_session : BookingServiceExtra.CreateData.t :=
  {| BookingServiceExtra.CreateData.item := "i3";
     BookingServiceExtra.CreateData.booking_date := monday;
     BookingServiceExtra.CreateData.start_time := "9:00";
     BookingServiceExtra.CreateData.end_time := "9:30";
     BookingServiceExtra.CreateData.quantity := None;
     BookingServiceExtra.CreateData.selected_addons := None |}.

Definition first_hour : BookingServiceExtra.CreateData.t :=
  {| BookingServiceExtra.CreateData.item := "i3";
     BookingServiceExtra.CreateData.booking_date := monday;
     BookingServiceExtra.CreateData.start_time := "09:00";
     BookingServiceExtra.CreateData.end_time := "10:00";
     BookingServiceExtra.CreateData.quantity := None;
     BookingServiceExtra.CreateData.selected_addons := None |}.

(** ** A lounge open in the evening, at the rates of the spa *)

Definition evening_hours : Slot.t :=
  {| Slot.day := 1; Slot.start_time := "18:00"; Slot.end_time := "22:00";
     Slot.max_bookings := 5 |}.

Definition lounge : Item.t string :=
  {| Item._id := "i6"; Item.name := "Lounge";
     Item.category := RefId "c1"; Item.subcategory := RefNone;
     Item.tax_applicable := None; Item.tax_percentage := None;
     Item.pricing := spa_pricing;
     Item.is_bookable := true;
     Item.availability_slots := Some [evening_hours];
     Item.addon_groups := []; Item.is_active := true |}.

Definition lounge_db : Db :=
  {| Categories := {[ "c1" := starters ]};
     Subcategories := ∅;
     Items := {[ "i6" := lounge ]};
     AddonGroups := ∅;
     Bookings := [] |}.

Definition evening_session : BookingServiceExtra.CreateData.t :=
  {| BookingServiceExtra.CreateData.item := "i6";
     BookingServiceExtra.CreateData.booking_date := monday;
     BookingServiceExtra.CreateData.start_time := "19:00";
     BookingServiceExtra.CreateData.end_time := "20:00";
     BookingServiceExtra.CreateData.quantity := None;
     BookingServiceExtra.CreateData.selected_addons := None |}.

(** ** A new item for the menu *)

Definition rings : ItemServiceExtra.ItemData.t :=
  {| ItemServiceExtra.ItemData.name := "Rings";
     ItemServiceExtra.ItemData.category := Some "c1";
     ItemServiceExtra.ItemData.subcategory := None;
     ItemServiceExtra.ItemData.tax_applicable := None;
     ItemServiceExtra.ItemData.tax_percentage := None;
     ItemServiceExtra.ItemData.pricing := static_pricing 50;
     ItemServiceExtra.ItemData.is_bookable := false;
     ItemServiceExtra.ItemData.availability_slots := [];
     ItemServiceExtra.ItemData.addon_groups := ["g1"];
     ItemServiceExtra.ItemData.is_active := true |}.

(** Document validation that accepts every item. *)
Definition any_item (doc : Item.t string) : bool := true.

End Examples.

(* ================================================================== *)
(** * Auxiliary definitions for the proofs *)
(* ================================================================== *)

(** The value of a digit character. *)
Definition dv (c : ascii) : Z := Z.of_N (N_of_ascii c) - 48.

(** [0; 1; ...; n - 1]. *)
Definition range (n : nat) : list Z := List.map Z.of_nat (List.seq 0 n).

(** The clock string of [h:m] reads back as [h * 60 + m] minutes. *)
Definition clock_ok (h m : Z) : bool :=
  match Js.toMinutes
          (PricingEngine.currentTime
             {| Js.getTime := 0; Js.getDay := 0;
                Js.getHours := h; Js.getMinutes := m |}) with
  | Some x => x =? h * 60 + m
  | None => false
  end.

(** Ascending by [min_quantity]. *)
Definition min_le (a b : Tier.t) : Prop :=
  (Tier.min_quantity a <= Tier.min_quantity b)%Q.

(** The range of [a] ends before the range of [b] starts. *)
Definition separated (a b : Tier.t) : Prop :=
  (Tier.max_quantity a < Tier.min_quantity b)%Q.

(** The quantity lies in the range of the tier, bounds included. *)
Definition in_tier (quantity : Q) (tier : Tier.t) : Prop :=
  (Tier.min_quantity tier <= quantity)%Q
  /\ (quantity <= Tier.max_quantity tier)%Q.

(** The result reports [tier] as the applicable one. *)
Definition selects (r : PricingEngine.Result) (tier : Tier.t) : Prop :=
  PricingEngine.details r = PricingEngine.tier_details (PricingEngine.TierOf tier)
  /\ PricingEngine.pricing_rule_applied r
     = PricingEngine.TierLabel (Tier.min_quantity tier) (Tier.max_quantity tier)
  /\ PricingEngine.unit_price r = Tier.price tier.

(** The add-on selections a booking stands for. *)
Definition selections_of (b : Booking.t) : list ItemService.AddonSelection :=
  List.map
    (fun a => {| ItemService.addon_group := SelectedAddon.addon_group a;
                 ItemService.addon_ids := SelectedAddon.addon_ids a |})
    (Booking.selected_addons b).

(** The quote request that a booking stands for: its quantity, its add-on
    selections, and the instant it is for. *)
Definition fresh_options (b : Booking.t) : ItemService.Options :=
  {| ItemService.opt_quantity := Some (Booking.quantity b);
     ItemService.opt_datetime :=
       at_clock (Booking.booking_date b) (Booking.start_time b);
     ItemService.opt_addons := Some (selections_of b) |}.

(** One step of the loop of [calculateSelectedPrice]. *)
Definition addon_step (ids : list string) (total : Q) (addon : Addon.t) : Q :=
  if AddonGroup.includes ids (Addon._id addon) && Addon.is_active addon
  then (total + Addon.price addon)%Q else total.

(** The priority a rule sorts by: [rule.priority || 0]. *)
Definition priority_of (rule : DynamicRule.t) : Q :=
  Js.num_or (DynamicRule.priority rule) 0.

(** Descending by priority. *)
Definition priority_ge (a b : DynamicRule.t) : Prop :=
  (priority_of b <= priority_of a)%Q.

(** Among the elements of [l] that satisfy [f], the first of those with
    the highest priority. *)
Fixpoint first_best (f : DynamicRule.t -> bool) (l : list DynamicRule.t)
  : option DynamicRule.t :=
  match l with
  | [] => None
  | x :: l' =>
      if f x then
        match first_best f l' with
        | Some y => if Js.Qltb (priority_of x) (priority_of y)
                    then Some y else Some x
        | None => Some x
        end
      else first_best f l'
  end.


(** The item is populated, as the services hand it to the tax engine:
    neither the item nor the subcategory it carries holds a bare id. *)
Definition populated {G : Type} (item : Item.t G) : Prop :=
  (forall id, Item.category item <> RefId id)
  /\ (forall id, Item.subcategory item <> RefId id)
  /\ (forall s id, Item.subcategory item = RefDoc s ->
                   Subcategory.category s <> RefId id).

(** The ranges of two tiers have no quantity in common. *)
Definition disjoint (a b : Tier.t) : Prop :=
  (Tier.max_quantity a < Tier.min_quantity b)%Q
  \/ (Tier.max_quantity b < Tier.min_quantity a)%Q.

(* ================================================================== *)
(** * Numbers *)
(* ================================================================== *)

Lemma Qltb_lt (a b : Q) : Js.Qltb a b = true <-> (a < b)%Q.
Proof.
  unfold Js.Qltb. rewrite negb_true_iff.
  destruct (Qle_bool b a) eqn:E.
  - apply Qle_bool_iff in E. split; [discriminate | intros H; lra].
  - split; [intros _ | reflexivity].
    destruct (Qlt_le_dec a b) as [H | H]; [exact H |].
    apply Qle_bool_iff in H. congruence.
Qed.

Lemma Qltb_ge (a b : Q) : Js.Qltb a b = false <-> (b <= a)%Q.
Proof.
  unfold Js.Qltb. rewrite negb_false_iff. apply Qle_bool_iff.
Qed.

Lemma num_or_zero (o : option Q) :
  (Js.num_or o 0 == default 0 o)%Q.
Proof.
  destruct o as [q |]; simpl; [| reflexivity].
  destruct (Qeq_bool q 0) eqn:E; [| reflexivity].
  apply Qeq_bool_iff in E. symmetry. exact E.
Qed.

Lemma Math_min_le_l (a b : Q) : (Js.Math_min a b <= a)%Q.
Proof.
  unfold Js.Math_min. destruct (Qle_bool a b) eqn:E; [lra |].
  destruct (Qlt_le_dec b a) as [H | H]; [lra |].
  apply Qle_bool_iff in H. congruence.
Qed.



(** [Math.round(y) / 100] is [round2] of [y / 100]. *)
Lemma Math_round_cents (x : Q) :
  (Js.Math_round (x * 100) / 100 == round2 x)%Q.
Proof. unfold Js.Math_round, round2. reflexivity. Qed.


(* ================================================================== *)
(** * Discounted pricing *)
(* ================================================================== *)





(* ================================================================== *)
(** * The tax step of a quote *)
(* ================================================================== *)

#[local] Instance round2_proper : Proper (Qeq ==> Qeq) round2.
Proof.
  intros x y E. unfold round2.
  assert (H : Qfloor (x * 100 + (1 # 2)) = Qfloor (y * 100 + (1 # 2))).
  { apply Qfloor_comp. rewrite E. reflexivity. }
  rewrite H. reflexivity.
Qed.

(** What [calculatePrice] does once the item is found and active. *)
Lemma calculatePrice_ok (db : Db) (id : string)
    (options : ItemService.Options) (q : ItemService.Quote) :
  ItemService.calculatePrice db id options = Ok q ->
  exists item r addonsTotal addonDetails,
    ItemService.findById_populated db id = Some item
    /\ Item.is_active item = true
    /\ PricingEngine.calculatePrice (Item.pricing item)
         (default 1%Q (ItemService.opt_quantity options))
         (ItemService.opt_datetime options) = Ok r
    /\ ItemService.addons_loop (Item.addon_groups item)
         (default [] (ItemService.opt_addons options)) 0%Q []
       = Ok (addonsTotal, addonDetails)
    /\ ItemService.addons_total q = addonsTotal
    /\ ItemService.addons_details q = addonDetails
    /\ ItemService.subtotal q
       = (PricingEngine.calculated_price r + addonsTotal)%Q
    /\ ItemService.base_price (ItemService.pricing_details q)
       = PricingEngine.base_price r
    /\ ItemService.discount_amount (ItemService.pricing_details q)
       = PricingEngine.discount_amount r
    /\ ItemService.percentage (ItemService.tax q)
       = TaxEngine.tax_percentage (TaxEngine.getEffectiveTax db item)
    /\ ItemService.applicable (ItemService.tax q)
       = TaxEngine.tax_applicable (TaxEngine.getEffectiveTax db item)
    /\ ItemService.inherited_from (ItemService.tax q)
       = TaxEngine.inherited_from (TaxEngine.getEffectiveTax db item)
    /\ ItemService.amount (ItemService.tax q)
       = TaxEngine.TaxCalculation.tax_amount
           (TaxEngine.calculateTax (ItemService.subtotal q)
              (ItemService.percentage (ItemService.tax q)))
    /\ ItemService.final_price q
       = TaxEngine.TaxCalculation.total_with_tax
           (TaxEngine.calculateTax (ItemService.subtotal q)
              (ItemService.percentage (ItemService.tax q))).
Proof.
  unfold ItemService.calculatePrice. intros H.
  destruct (ItemService.findById_populated db id) as [item |];
    [| discriminate].
  destruct (Item.is_active item) eqn:Hact; simpl in H; [| discriminate].
  destruct (PricingEngine.calculatePrice _ _ _) as [r | |] eqn:Hr;
    [| discriminate | discriminate].
  destruct (ItemService.addons_loop _ _ _ _) as [[addonsTotal addonDetails] | |]
    eqn:Hloop; [| discriminate | discriminate].
  injection H as <-. simpl.
  exists item, r, addonsTotal, addonDetails.
  repeat split; reflexivity || assumption.
Qed.

(** C5, at its failing inputs.  [calculateTax] is evaluated on doubles.
    With 10.05 taxed at 10% the tax returned is 1.00 and the total 11.06,
    where the tax of the claim, 1.005 rounded half-up to two decimal
    places, is 1.01 (and so is the half-up rounding of a tenth of the
    double 10.05): the product is taken in binary floating point and
    falls just below 1.005.  With 10.004 taxed at 50% the tax returned is
    5.00 and the total 15.01, where the total of the claim, 10.004 plus
    the rounded tax, rounded, is 15.00: the total is rounded from the
    amount plus the unrounded tax. *)
Theorem C5_tax_at_failing_inputs :
  let c := Binary64.calculateTax (Binary64.decimal 1005 2) (Binary64.of_Z 10) in
  let d := Binary64.calculateTax (Binary64.decimal 10004 3) (Binary64.of_Z 50) in
  (Binary64.tax_amount c = Binary64.decimal 100 2
   /\ Binary64.total_with_tax c = Binary64.decimal 1106 2
   /\ (round2 ((1005 # 100) * 10 / 100) == 101 # 100)%Q
   /\ (exists x, Binary64.to_Q (Binary64.decimal 1005 2) = Some x
                 /\ (round2 (x * 10 / 100) == 101 # 100)%Q)
   /\ Binary64.decimal 100 2 <> Binary64.decimal 101 2)
  /\ (Binary64.tax_amount d = Binary64.decimal 500 2
      /\ Binary64.total_with_tax d = Binary64.decimal 1501 2
      /\ (round2 ((10004 # 1000) + (500 # 100)) == 1500 # 100)%Q
      /\ Binary64.decimal 1501 2 <> Binary64.decimal 1500 2).
Proof.
  cbv zeta. split.
  - split; [vm_compute; reflexivity |].
    split; [vm_compute; reflexivity |].
    split; [vm_compute; reflexivity |].
    split; [| vm_compute; discriminate].
    eexists. split; [vm_compute; reflexivity |]. vm_compute. reflexivity.
  - split; [vm_compute; reflexivity |].
    split; [vm_compute; reflexivity |].
    split; [vm_compute; reflexivity |].
    vm_compute. discriminate.
Qed.

(** The same total in a quote, on exact rationals: an item priced 10.004
    and taxed at 50% is quoted with tax 5.00 and final price 15.01. *)
Example quote_total_from_unrounded_tax :
  exists q,
    ItemService.calculatePrice Examples.lab "i2" Examples.one_sample = Ok q
    /\ (ItemService.subtotal q == 10004 # 1000)%Q
    /\ (ItemService.amount (ItemService.tax q) == 5)%Q
    /\ (round2 (ItemService.subtotal q + ItemService.amount (ItemService.tax q))
        == 15)%Q
    /\ (ItemService.final_price q == 1501 # 100)%Q.
Proof.
  eexists. split; [vm_compute; reflexivity |].
  repeat split; reflexivity.
Qed.

(* ================================================================== *)
(** * Add-on selection *)
(* ================================================================== *)

Lemma addon_fold_skip (ids : list string) (l : list Addon.t) (acc : Q) :
  (forall x, In x l -> AddonGroup.includes ids (Addon._id x) = false) ->
  List.fold_left (addon_step ids) l acc = acc.
Proof.
  revert acc. induction l as [| x l IH]; intros acc H; simpl; [reflexivity |].
  unfold addon_step at 2. rewrite (H x) by (left; reflexivity). simpl.
  apply IH. intros y Hy. apply H. right. exact Hy.
Qed.

Lemma includes_single (aid id : string) :
  AddonGroup.includes [aid] id = String.eqb id aid.
Proof. unfold AddonGroup.includes. simpl. apply orb_false_r. Qed.

Lemma addon_fold_single (a : Addon.t) (l : list Addon.t) (acc : Q) :
  List.NoDup (List.map Addon._id l) ->
  In a l ->
  Addon.is_active a = true ->
  (List.fold_left (addon_step [Addon._id a]) l acc == acc + Addon.price a)%Q.
Proof.
  revert acc. induction l as [| x l IH]; intros acc Hnd Hin Hact;
    [destruct Hin |].
  simpl in Hnd. apply List.NoDup_cons_iff in Hnd as [Hx Hnd].
  destruct Hin as [-> | Hin]; simpl.
  - unfold addon_step at 2. rewrite includes_single, String.eqb_refl, Hact.
    simpl. rewrite addon_fold_skip; [reflexivity |].
    intros y Hy. rewrite includes_single. apply String.eqb_neq.
    intros E. apply Hx. rewrite <- E. apply in_map. exact Hy.
  - unfold addon_step at 2. rewrite includes_single.
    assert (Hne : String.eqb (Addon._id x) (Addon._id a) = false).
    { apply String.eqb_neq. intros E. apply Hx. rewrite E.
      apply in_map. exact Hin. }
    rewrite Hne. simpl. apply IH; assumption.
Qed.

(** With distinct addon ids, selecting one active addon prices the group at
    that addon's price. *)
Lemma calculateSelectedPrice_single (g : AddonGroup.t) (a : Addon.t) :
  List.NoDup (List.map Addon._id (AddonGroup.addons g)) ->
  In a (AddonGroup.addons g) ->
  Addon.is_active a = true ->
  (AddonGroup.calculateSelectedPrice g [Addon._id a] == Addon.price a)%Q.
Proof.
  intros Hnd Hin Hact.
  unfold AddonGroup.calculateSelectedPrice.
  change (fun total addon =>
            if AddonGroup.includes [Addon._id a] (Addon._id addon)
               && Addon.is_active addon
            then (total + Addon.price addon)%Q else total)
    with (addon_step [Addon._id a]).
  rewrite (addon_fold_single a _ 0 Hnd Hin Hact). lra.
Qed.

(** Selecting one active addon of the group is one valid selection. *)
Lemma validSelections_single (g : AddonGroup.t) (a : Addon.t) :
  In a (AddonGroup.addons g) ->
  Addon.is_active a = true ->
  AddonGroup.validSelections g [Addon._id a] = [Addon._id a].
Proof.
  intros Hin Hact. unfold AddonGroup.validSelections. simpl.
  assert (H : List.existsb
                (fun x => String.eqb (Addon._id x) (Addon._id a))
                (List.filter Addon.is_active (AddonGroup.addons g)) = true).
  { apply List.existsb_exists. exists a. split.
    - apply List.filter_In. split; assumption.
    - apply String.eqb_refl. }
  rewrite H. reflexivity.
Qed.

Lemma validateSelections_single (g : AddonGroup.t) (a : Addon.t) :
  In a (AddonGroup.addons g) ->
  Addon.is_active a = true ->
  (AddonGroup.min_selections g <= 1)%Q ->
  (1 <= AddonGroup.max_selections g)%Q ->
  AddonGroup.validateSelections g [Addon._id a]
  = {| AddonGroup.valid := true; AddonGroup.error := None |}.
Proof.
  intros Hin Hact Hmin Hmax. unfold AddonGroup.validateSelections.
  rewrite (validSelections_single g a Hin Hact).
  change (inject_Z (Z.of_nat (List.length [Addon._id a]))) with 1%Q.
  rewrite (proj2 (Qltb_ge 1 (AddonGroup.min_selections g)) Hmin).
  rewrite (proj2 (Qltb_ge (AddonGroup.max_selections g) 1) Hmax).
  reflexivity.
Qed.

(* ================================================================== *)
(** * Tax inheritance *)
(* ================================================================== *)

Lemma resolve_populate_category (db : Db) (r : Ref Category.t) :
  resolve (Categories db) (populate_category db r) = resolve (Categories db) r.
Proof.
  unfold populate_category.
  destruct (resolve (Categories db) r) eqn:E; reflexivity.
Qed.

Lemma resolve_populate_subcategory (db : Db) (r : Ref Subcategory.t) :
  match resolve (Subcategories db) r with
  | Some s =>
      exists s',
        resolve (Subcategories db) (populate_subcategory db r) = Some s'
        /\ Subcategory.tax_applicable s' = Subcategory.tax_applicable s
        /\ Subcategory.tax_percentage s' = Subcategory.tax_percentage s
        /\ Subcategory._id s' = Subcategory._id s
        /\ Subcategory.category s' = RefNone
  | None => resolve (Subcategories db) (populate_subcategory db r) = None
  end.
Proof.
  unfold populate_subcategory.
  destruct (resolve (Subcategories db) r) as [s |] eqn:E; [| reflexivity].
  eexists. split; [reflexivity |]. repeat split.
Qed.

(** An item with no tax of its own, under no subcategory that sets one,
    takes the tax of its category. *)
Lemma getEffectiveTax_populated_category (db : Db) (doc : Item.t string)
    (cat : Category.t) :
  Item.tax_applicable doc = None ->
  (forall s, resolve (Subcategories db) (Item.subcategory doc) = Some s ->
             Subcategory.tax_applicable s = None) ->
  resolve (Categories db) (Item.category doc) = Some cat ->
  TaxEngine.getEffectiveTax db (ItemService.populate db doc)
  = TaxEngine.from_category cat.
Proof.
  intros Hitem Hsub Hcat. unfold TaxEngine.getEffectiveTax. simpl.
  rewrite Hitem, resolve_populate_category, Hcat.
  pose proof (resolve_populate_subcategory db (Item.subcategory doc)) as P.
  destruct (resolve (Subcategories db) (Item.subcategory doc)) as [s |] eqn:E.
  - destruct P as (s' & -> & Ht & _ & _ & Hc).
    rewrite Ht, (Hsub s eq_refl), Hc. reflexivity.
  - rewrite P. reflexivity.
Qed.

(** What the services hand to the tax engine is populated. *)
Lemma populate_populated (db : Db) (doc : Item.t string) :
  populated (ItemService.populate db doc).
Proof.
  unfold populated, ItemService.populate, populate_category,
    populate_subcategory. simpl.
  split; [| split].
  - intros id. destruct (resolve (Categories db) (Item.category doc));
      discriminate.
  - intros id. destruct (resolve (Subcategories db) (Item.subcategory doc));
      discriminate.
  - intros s id.
    destruct (resolve (Subcategories db) (Item.subcategory doc));
      [| discriminate].
    intros [= <-]. discriminate.
Qed.

Lemma populate_refs_populated (db : Db) (doc : Item.t string) :
  populated (ItemServiceExtra.populate_refs db doc).
Proof.
  unfold populated, ItemServiceExtra.populate_refs, populate_category,
    populate_subcategory. simpl.
  split; [| split].
  - intros id. destruct (resolve (Categories db) (Item.category doc));
      discriminate.
  - intros id. destruct (resolve (Subcategories db) (Item.subcategory doc));
      discriminate.
  - intros s id.
    destruct (resolve (Subcategories db) (Item.subcategory doc));
      [| discriminate].
    intros [= <-]. discriminate.
Qed.

(* ================================================================== *)
(** * The end-to-end quote *)
(* ================================================================== *)

(** C1. An active item with Static pricing [base_price = 100], no tax of
    its own and a category taxed at 5%, one attached add-on group of which
    one active addon priced 20 is selected, quoted for quantity 2: pricing
    amount 200, add-ons total 20, subtotal 220, tax amount 11.00, final
    price 231.00. *)
Theorem C1_static_quote_with_addon
    (db : Db) (id gid : string) (doc : Item.t string) (cat : Category.t)
    (g : AddonGroup.t) (a : Addon.t) (p t : Q) (datetime : Js.Date) :
  Items db !! id = Some doc ->
  Item.is_active doc = true ->
  PricingConfig.type (Item.pricing doc) = Some STATIC ->
  PricingConfig.base_price (Item.pricing doc) = Some p -> (p == 100)%Q ->
  Item.tax_applicable doc = None ->
  (forall s, resolve (Subcategories db) (Item.subcategory doc) = Some s ->
             Subcategory.tax_applicable s = None) ->
  resolve (Categories db) (Item.category doc) = Some cat ->
  Category.tax_applicable cat = true ->
  Category.tax_percentage cat = Some t -> (t == 5)%Q ->
  Item.addon_groups doc = [gid] ->
  AddonGroups db !! gid = Some g ->
  AddonGroup._id g = gid ->
  List.NoDup (List.map Addon._id (AddonGroup.addons g)) ->
  In a (AddonGroup.addons g) ->
  Addon.is_active a = true ->
  (Addon.price a == 20)%Q ->
  (AddonGroup.min_selections g <= 1)%Q ->
  (1 <= AddonGroup.max_selections g)%Q ->
  exists q,
    ItemService.calculatePrice db id
      {| ItemService.opt_quantity := Some 2%Q;
         ItemService.opt_datetime := datetime;
         ItemService.opt_addons :=
           Some [ {| ItemService.addon_group := gid;
                     ItemService.addon_ids := [Addon._id a] |} ] |}
    = Ok q
    /\ (ItemService.base_price (ItemService.pricing_details q) == 200)%Q
    /\ (ItemService.addons_total q == 20)%Q
    /\ (ItemService.subtotal q == 220)%Q
    /\ ItemService.inherited_from (ItemService.tax q) = "category"
    /\ (ItemService.percentage (ItemService.tax q) == 5)%Q
    /\ (ItemService.amount (ItemService.tax q) == 11)%Q
    /\ (ItemService.final_price q == 231)%Q.
Proof.
  intros Hdoc Hact Hty Hbase Hp Htax Hsub Hcat Hcta Hctp Ht Hgroups Hg Hgid
    Hnd Hin Haact Hprice Hmin Hmax.
  unfold ItemService.calculatePrice, ItemService.findById_populated.
  rewrite Hdoc.
  rewrite (getEffectiveTax_populated_category db doc cat Htax Hsub Hcat).
  simpl. rewrite Hact. simpl.
  unfold PricingEngine.calculatePrice. rewrite Hty.
  rewrite Hgroups. simpl. rewrite Hg. simpl.
  unfold ItemService.find_group. simpl.
  rewrite Hgid, String.eqb_refl.
  rewrite (validateSelections_single g a Hin Haact Hmin Hmax). simpl.
  eexists. split; [reflexivity |]. simpl.
  rewrite Hbase, Hcta. unfold TaxEngine.percentage_of. rewrite Hctp.
  pose proof (num_or_zero (Some p)) as Ebase. simpl default in Ebase.
  pose proof (num_or_zero (Some t)) as Etax. simpl default in Etax.
  pose proof (calculateSelectedPrice_single g a Hnd Hin Haact) as Eaddon.
  set (basePrice := Js.num_or (Some p) 0) in *.
  set (pct := Js.num_or (Some t) 0) in *.
  set (addonPrice := AddonGroup.calculateSelectedPrice g [Addon._id a]) in *.
  assert (Es : (basePrice * 2 + (0 + addonPrice) == 220)%Q)
    by (rewrite Ebase, Eaddon, Hp, Hprice; reflexivity).
  assert (Epct : (pct == 5)%Q) by (rewrite Etax; exact Ht).
  repeat split.
  - rewrite Ebase, Hp. reflexivity.
  - rewrite Eaddon, Hprice. reflexivity.
  - exact Es.
  - exact Epct.
  - rewrite Math_round_cents, Es, Epct. reflexivity.
  - rewrite Math_round_cents.
    transitivity (round2 (220 + 220 * 5 / 100)); [| reflexivity].
    apply round2_proper. rewrite Es, Epct. reflexivity.
Qed.

Lemma C1_static_quote_with_addon_witness :
  exists q,
    ItemService.calculatePrice Examples.menu "i1" Examples.fries_order = Ok q
    /\ (ItemService.base_price (ItemService.pricing_details q) == 200)%Q
    /\ (ItemService.addons_total q == 20)%Q
    /\ (ItemService.subtotal q == 220)%Q
    /\ ItemService.inherited_from (ItemService.tax q) = "category"
    /\ (ItemService.percentage (ItemService.tax q) == 5)%Q
    /\ (ItemService.amount (ItemService.tax q) == 11)%Q
    /\ (ItemService.final_price q == 231)%Q.
Proof.
  apply (C1_static_quote_with_addon Examples.menu "i1" "g1" Examples.fries
           Examples.starters Examples.sauces Examples.dip 100 5 Examples.noon).
  - reflexivity.
  - reflexivity.
  - reflexivity.
  - reflexivity.
  - reflexivity.
  - reflexivity.
  - intros s Hs. discriminate Hs.
  - reflexivity.
  - reflexivity.
  - reflexivity.
  - reflexivity.
  - reflexivity.
  - reflexivity.
  - reflexivity.
  - repeat constructor. intros [].
  - left. reflexivity.
  - reflexivity.
  - reflexivity.
  - vm_compute. discriminate.
  - vm_compute. discriminate.
Defined.



(* ================================================================== *)
(** * Which add-on groups a quote validates *)
(* ================================================================== *)

Lemma addons_loop_skip (groups : list AddonGroup.t)
    (sel : ItemService.AddonSelection)
    (pre post : list ItemService.AddonSelection)
    (total : Q) (details : list ItemService.AddonDetail) :
  ItemService.find_group groups sel = None ->
  ItemService.addons_loop groups (pre ++ sel :: post) total details
  = ItemService.addons_loop groups (pre ++ post) total details.
Proof.
  intros Hsel. revert total details.
  induction pre as [| x pre IH]; intros total details; simpl.
  - rewrite Hsel. reflexivity.
  - destruct (ItemService.find_group groups x) as [g |]; [| apply IH].
    destruct (AddonGroup.valid _); simpl; [apply IH | reflexivity].
Qed.

Lemma find_group_unreferenced (g : AddonGroup.t) (l1 l2 : list AddonGroup.t)
    (sel : ItemService.AddonSelection) :
  ItemService.addon_group sel <> AddonGroup._id g ->
  ItemService.find_group (l1 ++ g :: l2) sel
  = ItemService.find_group (l1 ++ l2) sel.
Proof.
  intros Hne. unfold ItemService.find_group.
  induction l1 as [| x l1 IH]; simpl.
  - assert (E : String.eqb (AddonGroup._id g) (ItemService.addon_group sel)
                = false).
    { apply String.eqb_neq. intros E. apply Hne. symmetry. exact E. }
    rewrite E. reflexivity.
  - destruct (String.eqb (AddonGroup._id x) (ItemService.addon_group sel));
      [reflexivity | exact IH].
Qed.

Lemma addons_loop_unreferenced (g : AddonGroup.t) (l1 l2 : list AddonGroup.t)
    (addons : list ItemService.AddonSelection)
    (total : Q) (details : list ItemService.AddonDetail) :
  (forall sel, In sel addons ->
               ItemService.addon_group sel <> AddonGroup._id g) ->
  ItemService.addons_loop (l1 ++ g :: l2) addons total details
  = ItemService.addons_loop (l1 ++ l2) addons total details.
Proof.
  revert total details.
  induction addons as [| x addons IH]; intros total details H; simpl;
    [reflexivity |].
  rewrite (find_group_unreferenced g l1 l2 x) by (apply H; left; reflexivity).
  assert (H' : forall sel, In sel addons ->
                 ItemService.addon_group sel <> AddonGroup._id g)
    by (intros sel Hs; apply H; right; exact Hs).
  destruct (ItemService.find_group (l1 ++ l2) x) as [g' |]; [| apply IH, H'].
  destruct (AddonGroup.valid _); simpl; [apply IH, H' | reflexivity].
Qed.

(** C10. In [calculatePrice], add-on validation runs over the supplied
    selections only.  A selection naming a group the item does not have is
    skipped: the quote is the one obtained without it.  A group the item
    has but no selection names is never looked at: it can be removed from
    the item without changing the loop's outcome, and with no selection at
    all an active item is quoted with add-ons total 0 whatever its groups
    require, mandatory ones included. *)
Theorem C10_addon_validation_scope
    (db : Db) (id : string) (item : Item.t AddonGroup.t) :
  ItemService.findById_populated db id = Some item ->
  (forall quantity datetime pre sel post,
      ItemService.find_group (Item.addon_groups item) sel = None ->
      ItemService.calculatePrice db id
        (ItemService.mkOptions quantity datetime (Some (pre ++ sel :: post)))
      = ItemService.calculatePrice db id
          (ItemService.mkOptions quantity datetime (Some (pre ++ post))))
  /\ (forall g l1 l2 addons total details,
         Item.addon_groups item = l1 ++ g :: l2 ->
         (forall sel, In sel addons ->
                      ItemService.addon_group sel <> AddonGroup._id g) ->
         ItemService.addons_loop (Item.addon_groups item) addons total details
         = ItemService.addons_loop (l1 ++ l2) addons total details)
  /\ (forall quantity datetime,
         Item.is_active item = true ->
         PricingConfig.type (Item.pricing item) <> None ->
         exists q,
           ItemService.calculatePrice db id
             (ItemService.mkOptions quantity datetime (Some [])) = Ok q
           /\ ItemService.addons_total q = 0%Q
           /\ ItemService.addons_details q = []).
Proof.
  intros Hitem. split; [| split].
  - intros quantity datetime pre sel post Hsel.
    unfold ItemService.calculatePrice. rewrite Hitem. simpl.
    rewrite (addons_loop_skip _ sel pre post 0 [] Hsel). reflexivity.
  - intros g l1 l2 addons total details -> H.
    apply addons_loop_unreferenced. exact H.
  - intros quantity datetime Hact Hty.
    unfold ItemService.calculatePrice. rewrite Hitem, Hact. simpl.
    unfold PricingEngine.calculatePrice.
    destruct (PricingConfig.type (Item.pricing item)) as [[] |];
      [| | | | | congruence];
      (eexists; split; [reflexivity | split; reflexivity]).
Qed.

Lemma C10_addon_validation_scope_witness :
  AddonGroup.type Examples.sauces = MANDATORY
  /\ (AddonGroup.min_selections Examples.sauces == 1)%Q
  /\ ItemService.calculatePrice Examples.menu "i1"
       (ItemService.mkOptions (Some 2%Q) Examples.noon
          (Some [ItemService.mkAddonSelection "g9" ["a1"]]))
     = ItemService.calculatePrice Examples.menu "i1"
         (ItemService.mkOptions (Some 2%Q) Examples.noon (Some []))
  /\ exists q,
       ItemService.calculatePrice Examples.menu "i1"
         (ItemService.mkOptions (Some 2%Q) Examples.noon (Some [])) = Ok q
       /\ ItemService.addons_total q = 0%Q
       /\ ItemService.addons_details q = [].
Proof.
  pose proof (C10_addon_validation_scope Examples.menu "i1"
                (ItemService.populate Examples.menu Examples.fries) eq_refl)
    as [Hskip [_ Hnone]].
  split; [reflexivity | split; [reflexivity | split]].
  - apply (Hskip (Some 2%Q) Examples.noon []
             (ItemService.mkAddonSelection "g9" ["a1"]) []).
    reflexivity.
  - apply (Hnone (Some 2%Q) Examples.noon); [reflexivity | discriminate].
Defined.

(* ================================================================== *)
(** * Time strings *)
(* ================================================================== *)

Lemma is_digit_facts (c : ascii) :
  is_digit c = true ->
  Ascii.eqb c ":" = false /\ Js.digit_of c = Some (dv c) /\ 0 <= dv c <= 9.
Proof.
  unfold is_digit, Js.digit_of, dv. intros H.
  apply andb_true_iff in H as [Hlo Hhi].
  apply N.leb_le in Hlo. apply N.leb_le in Hhi.
  split; [| split; [| lia]].
  - apply Ascii.eqb_neq. intros ->. vm_compute in Hhi. apply Hhi. reflexivity.
  - assert (H1 : (48 <=? Z.of_N (N_of_ascii c)) = true) by (apply Z.leb_le; lia).
    assert (H2 : (Z.of_N (N_of_ascii c) <=? 57) = true) by (apply Z.leb_le; lia).
    rewrite H1, H2. reflexivity.
Qed.

Lemma digit_upto_facts (hi : N) (c : ascii) :
  (hi <= 9)%N -> digit_upto hi c = true ->
  is_digit c = true /\ dv c <= Z.of_N hi.
Proof.
  unfold digit_upto, is_digit, dv. intros Hhi H.
  apply andb_true_iff in H as [Hlo Hup].
  apply N.leb_le in Hlo. apply N.leb_le in Hup.
  split; [| lia].
  apply andb_true_iff. split; apply N.leb_le; lia.
Qed.

Lemma split_one_digit (c : ascii) (rest : list string) (p : string) :
  Ascii.eqb c ":" = false ->
  forall s, Js.split ":" s = p :: rest ->
  Js.split ":" (String c s) = String c p :: rest.
Proof. intros Hc s Hs. simpl. rewrite Hc, Hs. reflexivity. Qed.

Lemma toMinutes_H_MM (h m1 m2 : ascii) :
  is_digit h = true -> is_digit m1 = true -> is_digit m2 = true ->
  Js.toMinutes (String h (String ":" (String m1 (String m2 EmptyString))))
  = Some (dv h * 60 + (10 * dv m1 + dv m2)).
Proof.
  intros Hh H1 H2.
  destruct (is_digit_facts h Hh) as (Eh & Dh & _).
  destruct (is_digit_facts m1 H1) as (E1 & D1 & _).
  destruct (is_digit_facts m2 H2) as (E2 & D2 & _).
  unfold Js.toMinutes.
  rewrite (split_one_digit h [String m1 (String m2 EmptyString)] EmptyString Eh
             (String ":" (String m1 (String m2 EmptyString)))).
  - unfold Js.Number_of_string. simpl. rewrite Dh, D1, D2. simpl.
    f_equal; lia.
  - simpl. rewrite E1, E2. reflexivity.
Qed.

Lemma toMinutes_HH_MM (h1 h2 m1 m2 : ascii) :
  is_digit h1 = true -> is_digit h2 = true ->
  is_digit m1 = true -> is_digit m2 = true ->
  Js.toMinutes
    (String h1 (String h2 (String ":" (String m1 (String m2 EmptyString)))))
  = Some ((10 * dv h1 + dv h2) * 60 + (10 * dv m1 + dv m2)).
Proof.
  intros Hh1 Hh2 H1 H2.
  destruct (is_digit_facts h1 Hh1) as (Eh1 & Dh1 & _).
  destruct (is_digit_facts h2 Hh2) as (Eh2 & Dh2 & _).
  destruct (is_digit_facts m1 H1) as (E1 & D1 & _).
  destruct (is_digit_facts m2 H2) as (E2 & D2 & _).
  unfold Js.toMinutes.
  rewrite (split_one_digit h1 [String m1 (String m2 EmptyString)]
             (String h2 EmptyString) Eh1).
  - unfold Js.Number_of_string. simpl. rewrite Dh1, Dh2, D1, D2. simpl.
    f_equal; lia.
  - apply split_one_digit; [exact Eh2 |].
    simpl. rewrite E1, E2. reflexivity.
Qed.

(** The shape of a zero-padded time and its minute-of-day. *)
Lemma is_HHMM_shape (s : string) :
  is_HHMM s = true ->
  exists h1 h2 m1 m2,
    s = String h1 (String h2 (String ":" (String m1 (String m2 EmptyString))))
    /\ Js.toMinutes s
       = Some ((10 * dv h1 + dv h2) * 60 + (10 * dv m1 + dv m2))
    /\ 0 <= dv h1 <= 9 /\ 0 <= dv h2 <= 9
    /\ 0 <= dv m1 <= 5 /\ 0 <= dv m2 <= 9.
Proof.
  unfold is_HHMM. intros H. apply andb_true_iff in H as [Hp Hlen].
  destruct s as [| h1 [| h2 [| c [| m1 [| m2 [| x s]]]]]];
    try discriminate Hp; try discriminate Hlen.
  simpl in Hp.
  apply andb_true_iff in Hp as [Hp Hm2].
  apply andb_true_iff in Hp as [Hp Hm1].
  apply andb_true_iff in Hp as [Hh Hc].
  apply Ascii.eqb_eq in Hc. subst c.
  destruct (digit_upto_facts 5 m1 ltac:(lia) Hm1) as [Dm1 Bm1].
  assert (Hh12 : is_digit h1 = true /\ is_digit h2 = true).
  { apply orb_true_iff in Hh as [Hh | Hh]; apply andb_true_iff in Hh as [Ha Hb].
    - split; [apply (digit_upto_facts 1 h1); [lia | exact Ha] | exact Hb].
    - apply Ascii.eqb_eq in Ha. subst h1.
      split; [reflexivity | apply (digit_upto_facts 3 h2); [lia | exact Hb]]. }
  destruct Hh12 as [Dh1 Dh2].
  exists h1, h2, m1, m2.
  split; [reflexivity |].
  split; [apply toMinutes_HH_MM; assumption |].
  pose proof (is_digit_facts h1 Dh1) as (_ & _ & ?).
  pose proof (is_digit_facts h2 Dh2) as (_ & _ & ?).
  pose proof (is_digit_facts m1 Dm1) as (_ & _ & ?).
  pose proof (is_digit_facts m2 Hm2) as (_ & _ & ?).
  change (Z.of_N 5) with 5 in Bm1.
  repeat split; lia.
Qed.

Lemma dv_compare (a b : ascii) :
  Ascii.compare a b = (dv a ?= dv b).
Proof.
  unfold Ascii.compare, dv.
  rewrite <- N2Z.inj_compare.
  destruct (Z.compare_spec (Z.of_N (N_of_ascii a)) (Z.of_N (N_of_ascii b)));
    symmetry;
    [apply Z.compare_eq_iff | apply Z.compare_lt_iff | apply Z.compare_gt_iff];
    lia.
Qed.

(** On zero-padded times the character order is the order of the
    minute-of-day. *)
Lemma HHMM_compare (s t : string) (x y : Z) :
  is_HHMM s = true -> is_HHMM t = true ->
  minutes_are s x -> minutes_are t y ->
  String.compare s t = (x ?= y).
Proof.
  intros Hs Ht Hx Hy.
  destruct (is_HHMM_shape s Hs)
    as (a1 & a2 & a3 & a4 & -> & Ea & ? & ? & ? & ?).
  destruct (is_HHMM_shape t Ht)
    as (b1 & b2 & b3 & b4 & -> & Eb & ? & ? & ? & ?).
  unfold minutes_are in Hx, Hy.
  rewrite Ea in Hx. rewrite Eb in Hy.
  injection Hx as <-. injection Hy as <-.
  simpl. rewrite !dv_compare.
  change (dv ":" ?= dv ":") with Eq.
  destruct (Z.compare_spec (dv a1) (dv b1));
    [destruct (Z.compare_spec (dv a2) (dv b2));
     [destruct (Z.compare_spec (dv a3) (dv b3));
      [destruct (Z.compare_spec (dv a4) (dv b4)) | |] | |] | |];
    symmetry;
    first [ apply Z.compare_eq_iff; lia
          | apply Z.compare_lt_iff; lia
          | apply Z.compare_gt_iff; lia ].
Qed.

Lemma HHMM_ltb (s t : string) (x y : Z) :
  is_HHMM s = true -> is_HHMM t = true ->
  minutes_are s x -> minutes_are t y ->
  String.ltb s t = (x <? y).
Proof.
  intros Hs Ht Hx Hy. unfold String.ltb, Z.ltb.
  rewrite (HHMM_compare s t x y Hs Ht Hx Hy).
  destruct (x ?= y); reflexivity.
Qed.

Lemma HHMM_leb (s t : string) (x y : Z) :
  is_HHMM s = true -> is_HHMM t = true ->
  minutes_are s x -> minutes_are t y ->
  String.leb s t = (x <=? y).
Proof.
  intros Hs Ht Hx Hy. unfold String.leb, Z.leb.
  rewrite (HHMM_compare s t x y Hs Ht Hx Hy).
  destruct (x ?= y); reflexivity.
Qed.

(* ================================================================== *)
(** * Booking conflicts *)
(* ================================================================== *)

Lemma isTimeOverlapping_minutes (start1 end1 start2 end2 : string)
    (s1 e1 s2 e2 : Z) :
  minutes_are start1 s1 -> minutes_are end1 e1 ->
  minutes_are start2 s2 -> minutes_are end2 e2 ->
  BookingModel.isTimeOverlapping start1 end1 start2 end2
  = (s1 <? e2) && (e1 >? s2).
Proof.
  unfold minutes_are, BookingModel.isTimeOverlapping.
  intros -> -> -> ->. reflexivity.
Qed.

(** The three-case query is the overlap test. *)
Lemma or_query_overlap (b : Booking.t) (startTime endTime : string)
    (s1 e1 s2 e2 : Z) :
  is_HHMM (Booking.start_time b) = true -> is_HHMM (Booking.end_time b) = true ->
  is_HHMM startTime = true -> is_HHMM endTime = true ->
  minutes_are (Booking.start_time b) s1 -> minutes_are (Booking.end_time b) e1 ->
  minutes_are startTime s2 -> minutes_are endTime e2 ->
  s1 < e1 -> s2 < e2 ->
  BookingModel.or_query b startTime endTime = (s1 <? e2) && (e1 >? s2).
Proof.
  intros Hbs Hbe Hs He Ms1 Me1 Ms2 Me2 H1 H2.
  unfold BookingModel.or_query, BookingModel.starts_during,
    BookingModel.ends_during, BookingModel.fully_contained.
  rewrite (HHMM_leb _ _ s1 s2 Hbs Hs Ms1 Ms2).
  rewrite (HHMM_ltb _ _ s2 e1 Hs Hbe Ms2 Me1).
  rewrite (HHMM_ltb _ _ s1 e2 Hbs He Ms1 Me2).
  rewrite (HHMM_leb _ _ e2 e1 He Hbe Me2 Me1).
  rewrite (HHMM_leb _ _ s2 s1 Hs Hbs Ms2 Ms1).
  rewrite (HHMM_leb _ _ e1 e2 Hbe He Me1 Me2).
  apply Bool.eq_iff_eq_true.
  rewrite !orb_true_iff, !andb_true_iff, !Z.leb_le, !Z.ltb_lt, Z.gtb_lt.
  lia.
Qed.

(** C2. For well-formed intervals given as "HH:MM" strings (start before
    end), [findConflicts] returns exactly the non-cancelled bookings of the
    same item and date whose interval [[s1,e1)] overlaps the requested
    [[s2,e2)], that is [s1 < e2] and [e1 > s2]; its three-case query is
    that overlap test, the one [isTimeOverlapping] computes.  (A booking
    named by [excludeBookingId] is left out; by default none is.) *)
Theorem C2_findConflicts_overlap (db : Db) (itemId : string)
    (bookingDate : Js.Date) (startTime endTime : string)
    (excludeBookingId : option string) :
  interval_ok startTime endTime ->
  (forall b, In b (Bookings db) ->
             interval_ok (Booking.start_time b) (Booking.end_time b)) ->
  (* the disjunctive query is the overlap predicate *)
  (forall b, In b (Bookings db) ->
     BookingModel.or_query b startTime endTime
     = BookingModel.isTimeOverlapping
         (Booking.start_time b) (Booking.end_time b) startTime endTime
     /\ (BookingModel.or_query b startTime endTime = true <->
         exists s1 e1 s2 e2,
           minutes_are (Booking.start_time b) s1
           /\ minutes_are (Booking.end_time b) e1
           /\ minutes_are startTime s2 /\ minutes_are endTime e2
           /\ overlap s1 e1 s2 e2))
  (* the bookings returned, as a list *)
  /\ BookingModel.findConflicts db itemId bookingDate startTime endTime
       excludeBookingId
     = List.filter
         (fun b =>
            String.eqb (Booking.item b) itemId
            && Js.Date_eqb (Booking.booking_date b) bookingDate
            && negb (BOOKING_STATUS_eqb (Booking.status b) CANCELLED)
            && BookingModel.isTimeOverlapping
                 (Booking.start_time b) (Booking.end_time b) startTime endTime
            && match excludeBookingId with
               | Some id => negb (String.eqb (Booking._id b) id)
               | None => true
               end)
         (Bookings db)
  (* and one by one *)
  /\ (forall b,
        In b (BookingModel.findConflicts db itemId bookingDate startTime
                endTime excludeBookingId)
        <-> In b (Bookings db)
            /\ Booking.item b = itemId
            /\ Js.getTime (Booking.booking_date b) = Js.getTime bookingDate
            /\ Booking.status b <> CANCELLED
            /\ (exists s1 e1 s2 e2,
                   minutes_are (Booking.start_time b) s1
                   /\ minutes_are (Booking.end_time b) e1
                   /\ minutes_are startTime s2 /\ minutes_are endTime e2
                   /\ overlap s1 e1 s2 e2)
            /\ match excludeBookingId with
               | Some id => Booking._id b <> id
               | None => True
               end).
Proof.
  intros (Hs & He & s2 & e2 & Ms2 & Me2 & H2) Hall.
  assert (Hq : forall b, In b (Bookings db) ->
             BookingModel.or_query b startTime endTime
             = BookingModel.isTimeOverlapping
                 (Booking.start_time b) (Booking.end_time b) startTime endTime
             /\ (BookingModel.or_query b startTime endTime = true <->
                 exists s1 e1 s2 e2,
                   minutes_are (Booking.start_time b) s1
                   /\ minutes_are (Booking.end_time b) e1
                   /\ minutes_are startTime s2 /\ minutes_are endTime e2
                   /\ overlap s1 e1 s2 e2)).
  { intros b Hb.
    destruct (Hall b Hb) as (Hbs & Hbe & s1 & e1 & Ms1 & Me1 & H1).
    pose proof (or_query_overlap b startTime endTime s1 e1 s2 e2
                  Hbs Hbe Hs He Ms1 Me1 Ms2 Me2 H1 H2) as E.
    split.
    - rewrite E. symmetry. apply isTimeOverlapping_minutes; assumption.
    - rewrite E, andb_true_iff, Z.ltb_lt, Z.gtb_lt. unfold overlap. split.
      + intros [A B]. exists s1, e1, s2, e2. repeat split; (assumption || lia).
      + intros (s1' & e1' & s2' & e2' & A & B & C & D & O1 & O2).
        unfold minutes_are in *.
        rewrite Ms1 in A. rewrite Me1 in B. rewrite Ms2 in C. rewrite Me2 in D.
        injection A as <-. injection B as <-.
        injection C as <-. injection D as <-. lia. }
  assert (Hlist :
    BookingModel.findConflicts db itemId bookingDate startTime endTime
      excludeBookingId
    = List.filter
        (fun b =>
           String.eqb (Booking.item b) itemId
           && Js.Date_eqb (Booking.booking_date b) bookingDate
           && negb (BOOKING_STATUS_eqb (Booking.status b) CANCELLED)
           && BookingModel.isTimeOverlapping
                (Booking.start_time b) (Booking.end_time b) startTime endTime
           && match excludeBookingId with
              | Some id => negb (String.eqb (Booking._id b) id)
              | None => true
              end)
        (Bookings db)).
  { unfold BookingModel.findConflicts. apply List.filter_ext_in.
    intros b Hb. unfold BookingModel.conflict_query.
    rewrite (proj1 (Hq b Hb)). reflexivity. }
  split; [exact Hq | split; [exact Hlist |]].
  intros b. unfold BookingModel.findConflicts. rewrite List.filter_In.
  unfold BookingModel.conflict_query.
  rewrite !andb_true_iff, String.eqb_eq, negb_true_iff.
  unfold Js.Date_eqb. rewrite Z.eqb_eq.
  assert (Hst : BOOKING_STATUS_eqb (Booking.status b) CANCELLED = false
                <-> Booking.status b <> CANCELLED).
  { destruct (Booking.status b); simpl; split; congruence. }
  assert (Hex : match excludeBookingId with
                | Some id => negb (String.eqb (Booking._id b) id)
                | None => true
                end = true
                <-> match excludeBookingId with
                    | Some id => Booking._id b <> id
                    | None => True
                    end).
  { destruct excludeBookingId as [id |]; [| tauto].
    rewrite negb_true_iff. apply String.eqb_neq. }
  rewrite Hst, Hex.
  split.
  - intros (Hb & (((A & B) & C) & D) & E).
    rewrite (proj2 (Hq b Hb)) in D. tauto.
  - intros (Hb & A & B & C & D & E).
    rewrite <- (proj2 (Hq b Hb)) in D. tauto.
Qed.

Lemma C2_findConflicts_overlap_witness :
  BookingModel.findConflicts Examples.spa_db "i3" Examples.monday
    "09:30" "10:30" None = [Examples.morning]
  /\ BookingModel.findConflicts Examples.spa_db "i3" Examples.monday
       "10:00" "11:00" None = [].
Proof.
  assert (Hdb : forall b, In b (Bookings Examples.spa_db) ->
                  interval_ok (Booking.start_time b) (Booking.end_time b)).
  { intros b [<- | []]. split; [reflexivity | split; [reflexivity |]].
    exists 540, 600. split; [reflexivity | split; reflexivity]. }
  split.
  - rewrite (proj1 (proj2
       (C2_findConflicts_overlap Examples.spa_db "i3" Examples.monday
          "09:30" "10:30" None
          (conj eq_refl (conj eq_refl
             (ex_intro _ 570 (ex_intro _ 630
                (conj eq_refl (conj eq_refl eq_refl))))))
          Hdb))).
    reflexivity.
  - rewrite (proj1 (proj2
       (C2_findConflicts_overlap Examples.spa_db "i3" Examples.monday
          "10:00" "11:00" None
          (conj eq_refl (conj eq_refl
             (ex_intro _ 600 (ex_intro _ 660
                (conj eq_refl (conj eq_refl eq_refl))))))
          Hdb))).
    reflexivity.
Defined.

(* ================================================================== *)
(** * Availability *)
(* ================================================================== *)

Lemma isTimeWithinSlot_minutes (startTime endTime slotStart slotEnd : string)
    (st et : Z) :
  minutes_are startTime st -> minutes_are endTime et ->
  BookingService.isTimeWithinSlot startTime endTime slotStart slotEnd = true
  <-> exists ss se,
        minutes_are slotStart ss /\ minutes_are slotEnd se
        /\ ss <= st /\ et <= se.
Proof.
  unfold minutes_are, BookingService.isTimeWithinSlot. intros -> ->.
  destruct (Js.toMinutes slotStart) as [ss |];
    destruct (Js.toMinutes slotEnd) as [se |]; simpl.
  - rewrite andb_true_iff, Z.geb_le, Z.leb_le. split.
    + intros [A B]. exists ss, se. repeat split; assumption.
    + intros (ss' & se' & [= <-] & [= <-] & A & B). split; assumption.
  - rewrite andb_false_r. split; [discriminate |].
    intros (? & ? & _ & [=] & _).
  - split; [discriminate |]. intros (? & ? & [=] & _).
  - split; [discriminate |]. intros (? & ? & [=] & _).
Qed.

(** C9. [checkAvailability] answers available when the item declares no
    slot at all; otherwise it answers available exactly when some slot of
    the date's day of week contains the proposed interval
    ([start >= slotStart] and [end <= slotEnd], in minutes), and
    unavailable, with the outside-available-hours reason, exactly when no
    slot does. *)
Theorem C9_checkAvailability {G : Type} (item : Item.t G)
    (bookingDate : Js.Date) (startTime endTime : string) (st et : Z) :
  minutes_are startTime st ->
  minutes_are endTime et ->
  let result :=
    BookingService.checkAvailability item bookingDate startTime endTime in
  let slots := default [] (Item.availability_slots item) in
  let contains (slot : Slot.t) :=
    Slot.day slot = Js.getDay bookingDate
    /\ exists ss se,
         minutes_are (Slot.start_time slot) ss
         /\ minutes_are (Slot.end_time slot) se
         /\ ss <= st /\ et <= se in
  (slots = [] -> result = BookingService.Available None)
  /\ (slots <> [] ->
      ((exists slot, result = BookingService.Available (Some slot))
       <-> exists slot, In slot slots /\ contains slot)
      /\ (result = BookingService.Unavailable
                     "Requested time slot is not within available hours"
          <-> ~ exists slot, In slot slots /\ contains slot)
      /\ (forall slot, result = BookingService.Available (Some slot) ->
                       In slot slots /\ contains slot)).
Proof.
  intros Mst Met result slots contains.
  assert (Hc : forall slot,
             BookingService.slot_contains (Js.getDay bookingDate)
               startTime endTime slot = true <-> contains slot).
  { intros slot. unfold BookingService.slot_contains, contains.
    destruct (Slot.day slot =? Js.getDay bookingDate) eqn:Ed; simpl.
    - apply Z.eqb_eq in Ed.
      rewrite (isTimeWithinSlot_minutes _ _ _ _ st et Mst Met). tauto.
    - apply Z.eqb_neq in Ed. split; [discriminate | tauto]. }
  subst result slots. unfold BookingService.checkAvailability.
  destruct (Item.availability_slots item) as [[| slot0 rest] |]; simpl default.
  - split; [reflexivity | congruence].
  - split; [discriminate | intros _].
    destruct (List.find _ (slot0 :: rest)) as [m |] eqn:Ef.
    + pose proof (List.find_some _ _ Ef) as [Hin Hm]. apply Hc in Hm.
      split; [| split].
      * split; [intros _; exists m; tauto | intros _; exists m; reflexivity].
      * split; [discriminate | intros H; exfalso; apply H; exists m; tauto].
      * intros slot [= <-]. tauto.
    + pose proof (List.find_none _ _ Ef) as Hnone.
      assert (Hno : ~ exists slot, In slot (slot0 :: rest) /\ contains slot).
      { intros (slot & Hin & Hs). apply Hc in Hs.
        rewrite (Hnone slot Hin) in Hs. discriminate. }
      split; [| split].
      * split; [intros [slot [=]] | intros H; exfalso; exact (Hno H)].
      * split; [intros _; exact Hno | reflexivity].
      * intros slot [=].
  - split; [reflexivity | congruence].
Qed.

Lemma C9_checkAvailability_witness :
  BookingService.checkAvailability Examples.spa Examples.monday
    "10:00" "11:00"
  = BookingService.Available (Some Examples.weekday_hours)
  /\ BookingService.checkAvailability Examples.spa Examples.monday
       "17:30" "18:30"
     = BookingService.Unavailable
         "Requested time slot is not within available hours"
  /\ BookingService.checkAvailability Examples.fries Examples.monday
       "03:00" "04:00"
     = BookingService.Available None.
Proof.
  split; [| split].
  - pose proof (C9_checkAvailability Examples.spa Examples.monday
                  "10:00" "11:00" 600 660 eq_refl eq_refl) as [_ H].
    destruct (H ltac:(discriminate)) as [[_ Hex] _].
    destruct Hex as [slot Hslot].
    + exists Examples.weekday_hours. split; [left; reflexivity |].
      split; [reflexivity |]. exists 540, 1080.
      repeat split; (reflexivity || discriminate).
    + rewrite Hslot. vm_compute in Hslot. injection Hslot as <-. reflexivity.
  - pose proof (C9_checkAvailability Examples.spa Examples.monday
                  "17:30" "18:30" 1050 1110 eq_refl eq_refl) as [_ H].
    destruct (H ltac:(discriminate)) as [_ [[_ Hno] _]].
    apply Hno. intros (slot & [<- | []] & _ & ss & se & _ & Hse & _ & Hle).
    vm_compute in Hse. injection Hse as <-. apply Hle. reflexivity.
  - exact (proj1 (C9_checkAvailability Examples.fries Examples.monday
                    "03:00" "04:00" 180 240 eq_refl eq_refl) eq_refl).
Defined.

(* ================================================================== *)
(** * Dynamic rules *)
(* ================================================================== *)

Lemma clock_table :
  List.forallb (fun h => List.forallb (clock_ok h) (range 60)) (range 24)
  = true.
Proof. vm_compute. reflexivity. Qed.

Lemma In_range (n : nat) (z : Z) : 0 <= z < Z.of_nat n -> In z (range n).
Proof.
  intros H. unfold range. apply List.in_map_iff.
  exists (Z.to_nat z). split; [lia | apply List.in_seq; lia].
Qed.

(** The zero-padded clock string of a date reads back as its
    minute-of-day. *)
Lemma currentTime_minutes (date : Js.Date) :
  Js.Date_valid date ->
  minutes_are (PricingEngine.currentTime date)
    (Js.getHours date * 60 + Js.getMinutes date).
Proof.
  intros (_ & Hh & Hm).
  pose proof clock_table as T.
  rewrite List.forallb_forall in T.
  specialize (T (Js.getHours date) (In_range 24 _ Hh)).
  rewrite List.forallb_forall in T.
  specialize (T (Js.getMinutes date) (In_range 60 _ Hm)).
  unfold clock_ok in T. unfold minutes_are.
  change (PricingEngine.currentTime
            {| Js.getTime := 0; Js.getDay := 0;
               Js.getHours := Js.getHours date;
               Js.getMinutes := Js.getMinutes date |})
    with (PricingEngine.currentTime date) in T.
  destruct (Js.toMinutes (PricingEngine.currentTime date)) as [x |];
    [| discriminate].
  apply Z.eqb_eq in T. subst x. reflexivity.
Qed.

Lemma isTimeInRange_minutes (time startTime endTime : string) (c s e : Z) :
  minutes_are time c -> minutes_are startTime s -> minutes_are endTime e ->
  PricingEngine.isTimeInRange time startTime endTime = true
  <-> in_window c s e.
Proof.
  unfold minutes_are, PricingEngine.isTimeInRange, in_window.
  intros -> -> ->. simpl.
  destruct (e <? s).
  - rewrite orb_true_iff, Z.geb_le, Z.ltb_lt. lia.
  - rewrite andb_true_iff, Z.geb_le, Z.ltb_lt. lia.
Qed.

Lemma isDayMatch_iff (rule : DynamicRule.t) (dayOfWeek : Z) :
  PricingEngine.isDayMatch rule dayOfWeek = true
  <-> match DynamicRule.days rule with
      | None => True
      | Some ds => ds = [] \/ In dayOfWeek ds
      end.
Proof.
  unfold PricingEngine.isDayMatch.
  destruct (DynamicRule.days rule) as [[| d ds] |]; [tauto | | tauto].
  rewrite List.existsb_exists. split.
  - intros (x & Hin & Hx). apply Z.eqb_eq in Hx. subst x. right. exact Hin.
  - intros [H | H]; [discriminate |].
    exists dayOfWeek. split; [exact H | apply Z.eqb_refl].
Qed.

(** C7. A dynamic rule matches an instant exactly when the instant's day
    of week is in the rule's day set, or that set is empty or absent, and
    the instant's minute-of-day lies in the rule's window [[start, end)],
    a window with [end < start] running through midnight
    ([current >= start] or [current < end]). *)
Theorem C7_rule_matches (rule : DynamicRule.t) (date : Js.Date) (s e : Z) :
  Js.Date_valid date ->
  minutes_are (DynamicRule.start_time rule) s ->
  minutes_are (DynamicRule.end_time rule) e ->
  PricingEngine.rule_matches date rule = true
  <-> match DynamicRule.days rule with
      | None => True
      | Some ds => ds = [] \/ In (Js.getDay date) ds
      end
      /\ in_window (Js.getHours date * 60 + Js.getMinutes date) s e.
Proof.
  intros Hd Hs He. unfold PricingEngine.rule_matches.
  rewrite andb_true_iff, isDayMatch_iff.
  rewrite (isTimeInRange_minutes _ _ _ _ s e (currentTime_minutes date Hd) Hs He).
  reflexivity.
Qed.

Lemma C7_rule_matches_witness :
  PricingEngine.rule_matches (Examples.clock 23 30) Examples.late_night = true
  /\ PricingEngine.rule_matches (Examples.clock 1 0) Examples.late_night = true
  /\ PricingEngine.rule_matches (Examples.clock 12 0) Examples.late_night
     = false.
Proof.
  assert (V : forall h m, 0 <= h < 24 -> 0 <= m < 60 ->
                Js.Date_valid (Examples.clock h m)).
  { intros h m Hh Hm. split; [split; discriminate | split; assumption]. }
  split; [| split].
  - apply (C7_rule_matches Examples.late_night (Examples.clock 23 30) 1320 120).
    + apply V; split; (discriminate || reflexivity).
    + reflexivity.
    + reflexivity.
    + split; [left; reflexivity | left; discriminate].
  - apply (C7_rule_matches Examples.late_night (Examples.clock 1 0) 1320 120).
    + apply V; split; (discriminate || reflexivity).
    + reflexivity.
    + reflexivity.
    + split; [left; reflexivity | right; reflexivity].
  - apply not_true_is_false. intros H.
    apply (C7_rule_matches Examples.late_night (Examples.clock 12 0) 1320 120)
      in H.
    + destruct H as [_ [H | H]]; [apply H; reflexivity | discriminate H].
    + apply V; split; (discriminate || reflexivity).
    + reflexivity.
    + reflexivity.
Defined.

(* ================================================================== *)
(** * Sorting and tier selection *)
(* ================================================================== *)

Section Sort.

Context {A : Type} (cmp : A -> A -> Q).

Lemma sort_insert_perm (x : A) (l : list A) :
  Permutation (Js.sort_insert cmp x l) (x :: l).
Proof.
  induction l as [| y l IH]; simpl; [reflexivity |].
  destruct (Js.Qltb (cmp y x) 0); [| reflexivity].
  rewrite IH. apply perm_swap.
Qed.

Lemma sort_perm (l : list A) : Permutation (Js.sort cmp l) l.
Proof.
  unfold Js.sort. induction l as [| x l IH]; simpl; [reflexivity |].
  rewrite sort_insert_perm. constructor. exact IH.
Qed.

End Sort.

Lemma sortTiers_perm (tiers : list Tier.t) :
  Permutation (PricingEngine.sortTiers tiers) tiers.
Proof. apply sort_perm. Qed.

Lemma sortTiers_insert_sorted (x : Tier.t) (l : list Tier.t) :
  StronglySorted min_le l ->
  StronglySorted min_le
    (Js.sort_insert
       (fun a b => (Tier.min_quantity a - Tier.min_quantity b)%Q) x l).
Proof.
  induction l as [| y l IH]; intros Hs; simpl.
  - constructor; constructor.
  - apply StronglySorted_inv in Hs as [Hl Hy].
    destruct (Js.Qltb (Tier.min_quantity y - Tier.min_quantity x) 0) eqn:E.
    + apply Qltb_lt in E. constructor; [apply IH; exact Hl |].
      rewrite (sort_insert_perm _ x l). constructor; [| exact Hy].
      unfold min_le. lra.
    + apply Qltb_ge in E. constructor; [constructor; assumption |].
      constructor; [unfold min_le; lra |].
      eapply List.Forall_impl; [| exact Hy].
      intros z Hz. unfold min_le in *. lra.
Qed.

Lemma sortTiers_sorted (tiers : list Tier.t) :
  StronglySorted min_le (PricingEngine.sortTiers tiers).
Proof.
  unfold PricingEngine.sortTiers, Js.sort.
  induction tiers as [| x l IH]; simpl; [constructor |].
  apply sortTiers_insert_sorted. exact IH.
Qed.

Lemma find_first {A : Type} (f : A -> bool) (l1 l2 : list A) (x : A) :
  f x = true ->
  (forall y, In y l1 -> f y = false) ->
  List.find f (l1 ++ x :: l2) = Some x.
Proof.
  intros Hx. induction l1 as [| y l1 IH]; intros H; simpl.
  - rewrite Hx. reflexivity.
  - rewrite (H y) by (left; reflexivity).
    apply IH. intros z Hz. apply H. right. exact Hz.
Qed.

Lemma find_absent {A : Type} (f : A -> bool) (l : list A) :
  (forall y, In y l -> f y = false) -> List.find f l = None.
Proof.
  induction l as [| y l IH]; intros H; simpl; [reflexivity |].
  rewrite (H y) by (left; reflexivity).
  apply IH. intros z Hz. apply H. right. exact Hz.
Qed.

Lemma sorted_last_is_max (l : list Tier.t) (top : Tier.t) :
  StronglySorted min_le (l ++ [top]) ->
  forall t, In t (l ++ [top]) -> min_le t top.
Proof.
  induction l as [| x l IH]; simpl; intros Hs t Ht.
  - destruct Ht as [<- | []]. unfold min_le. lra.
  - apply StronglySorted_inv in Hs as [Hl Hx].
    destruct Ht as [<- | Ht]; [| apply IH; assumption].
    rewrite List.Forall_forall in Hx. apply Hx.
    apply List.in_or_app. right. left. reflexivity.
Qed.

Lemma tier_contains_iff (quantity : Q) (tier : Tier.t) :
  PricingEngine.tier_contains quantity tier = true
  <-> (Tier.min_quantity tier <= quantity)%Q
      /\ (quantity <= Tier.max_quantity tier)%Q.
Proof.
  unfold PricingEngine.tier_contains.
  rewrite andb_true_iff, !Qle_bool_iff. reflexivity.
Qed.

(** No reported overlap: consecutive sorted tiers are separated. *)
Lemma tier_overlaps_nil (i : nat) (l : list Tier.t) :
  PricingEngine.tier_overlaps i l = [] -> Sorted separated l.
Proof.
  revert i. induction l as [| a l IH]; intros i H; [constructor |].
  destruct l as [| b l]; [constructor; constructor |].
  simpl in H. apply List.app_eq_nil in H as [Hab Hrest].
  constructor; [apply (IH (S i)); exact Hrest |].
  constructor. unfold separated.
  destruct (Qle_bool (Tier.min_quantity b) (Tier.max_quantity a)) eqn:E;
    [discriminate |].
  destruct (Qlt_le_dec (Tier.max_quantity a) (Tier.min_quantity b)) as [L | L];
    [exact L |].
  apply Qle_bool_iff in L. congruence.
Qed.

Lemma separated_strongly (l : list Tier.t) :
  Forall tierSchema_ok l -> Sorted separated l -> StronglySorted separated l.
Proof.
  induction l as [| a l IH]; intros Hok Hs; [constructor |].
  apply List.Forall_cons_iff in Hok as [Ha Hok].
  apply Sorted_inv in Hs as [Hs Hd].
  specialize (IH Hok Hs).
  constructor; [exact IH |].
  destruct l as [| b l]; [constructor |].
  apply HdRel_inv in Hd.
  apply StronglySorted_inv in IH as [_ Hb].
  apply List.Forall_cons_iff in Hok as [(_ & Hbok & _) _].
  constructor; [exact Hd |].
  eapply List.Forall_impl; [| exact Hb].
  intros z Hz. unfold separated in *. lra.
Qed.

(** Separated ranges hold a quantity in at most one tier. *)
Lemma separated_unique (quantity : Q) (l : list Tier.t) (t t' : Tier.t) :
  Forall tierSchema_ok l -> StronglySorted separated l ->
  In t l -> In t' l ->
  PricingEngine.tier_contains quantity t = true ->
  PricingEngine.tier_contains quantity t' = true ->
  t = t'.
Proof.
  intros Hok Hs Ht Ht' Hc Hc'.
  apply tier_contains_iff in Hc. apply tier_contains_iff in Hc'.
  induction l as [| a l IH]; [destruct Ht |].
  apply List.Forall_cons_iff in Hok as [_ Hok].
  apply StronglySorted_inv in Hs as [Hs Ha].
  rewrite List.Forall_forall in Ha.
  destruct Ht as [<- | Ht]; destruct Ht' as [<- | Ht'].
  - reflexivity.
  - specialize (Ha t' Ht'). unfold separated in Ha. lra.
  - specialize (Ha t Ht). unfold separated in Ha. lra.
  - apply IH; assumption.
Qed.

Lemma validated_tiered (cfg : PricingConfig.t) :
  PricingConfig.type cfg = Some TIERED ->
  PricingEngine.valid (PricingEngine.validatePricingConfig cfg) = true ->
  default [] (PricingConfig.tiers cfg) <> []
  /\ Sorted separated
       (PricingEngine.sortTiers (default [] (PricingConfig.tiers cfg))).
Proof.
  intros Hty Hvalid. unfold PricingEngine.validatePricingConfig in Hvalid.
  rewrite Hty in Hvalid. simpl in Hvalid.
  destruct (PricingConfig.tiers cfg) as [[| a l] |]; try discriminate.
  simpl default. split; [discriminate |].
  apply (tier_overlaps_nil 0).
  destruct (PricingEngine.tier_overlaps 0 _); [reflexivity | discriminate].
Qed.

Lemma tiered_found (cfg : PricingConfig.t) (quantity : Q) (tier : Tier.t) :
  List.find (PricingEngine.tier_contains quantity)
    (PricingEngine.sortTiers (default [] (PricingConfig.tiers cfg)))
  = Some tier ->
  selects (PricingEngine.calculateTieredPrice cfg quantity) tier.
Proof.
  intros H. unfold PricingEngine.calculateTieredPrice, selects.
  rewrite H. simpl. repeat split.
Qed.

Lemma not_in_tier (quantity : Q) (tier : Tier.t) :
  ~ in_tier quantity tier ->
  PricingEngine.tier_contains quantity tier = false.
Proof.
  intros H. destruct (PricingEngine.tier_contains quantity tier) eqn:E;
    [| reflexivity].
  exfalso. apply H. apply tier_contains_iff. exact E.
Qed.

(** C8. Tiered evaluation sorts the tiers ascending by [min_quantity] and
    selects the first whose range [[min_quantity, max_quantity]] holds the
    quantity; in a validated configuration (no overlap reported, every
    tier with [min_quantity <= max_quantity]) the tier that holds the
    quantity is the one selected, in particular at a quantity equal to its
    [min_quantity] or [max_quantity]; when no tier holds the quantity the
    result is labelled "Default/Overflow" and priced by the last sorted
    tier, one of highest [min_quantity], or by the default price when
    there is no tier; the amount is the unit price times the quantity. *)
Theorem C8_tiered_selection (cfg : PricingConfig.t) (quantity : Q) :
  let tiers := default [] (PricingConfig.tiers cfg) in
  let sorted := PricingEngine.sortTiers tiers in
  let r := PricingEngine.calculateTieredPrice cfg quantity in
  (* ascending order *)
  (Permutation sorted tiers /\ StronglySorted min_le sorted)
  (* the first tier holding the quantity *)
  /\ (forall l1 tier l2,
         sorted = l1 ++ tier :: l2 ->
         in_tier quantity tier ->
         (forall y, In y l1 -> ~ in_tier quantity y) ->
         selects r tier)
  (* validated configurations: the tier holding the quantity, boundaries
     included *)
  /\ (PricingConfig.type cfg = Some TIERED ->
      PricingEngine.valid (PricingEngine.validatePricingConfig cfg) = true ->
      Forall tierSchema_ok tiers ->
      (1 <= quantity)%Q ->
      forall tier, In tier tiers ->
        (in_tier quantity tier -> selects r tier)
        /\ ((quantity == Tier.min_quantity tier)%Q -> selects r tier)
        /\ ((quantity == Tier.max_quantity tier)%Q -> selects r tier))
  (* overflow *)
  /\ ((forall tier, In tier tiers -> ~ in_tier quantity tier) ->
      PricingEngine.pricing_rule_applied r
      = PricingEngine.Label "Default/Overflow"
      /\ match last sorted with
         | Some top =>
             In top tiers
             /\ (forall t, In t tiers -> min_le t top)
             /\ PricingEngine.details r
                = PricingEngine.tier_details (PricingEngine.TierOf top)
             /\ PricingEngine.unit_price r = Tier.price top
         | None =>
             tiers = []
             /\ PricingEngine.unit_price r
                = Js.num_or (PricingConfig.default_price cfg) 0
         end)
  (* the amount *)
  /\ (PricingEngine.calculated_price r
      = (PricingEngine.unit_price r * quantity)%Q
      /\ PricingEngine.base_price r = PricingEngine.calculated_price r
      /\ PricingEngine.discount_amount r = 0%Q)
  (* reached from [calculatePrice] *)
  /\ (PricingConfig.type cfg = Some TIERED ->
      forall datetime,
        PricingEngine.calculatePrice cfg quantity datetime = Ok r).
Proof.
  intros tiers sorted r.
  pose proof (sortTiers_perm tiers) as Hperm.
  pose proof (sortTiers_sorted tiers) as Hsorted.
  fold sorted in Hperm, Hsorted.
  split; [split; assumption |].
  split; [| split; [| split; [| split]]].
  - intros l1 tier l2 Hsplit Hin Hbefore.
    apply tiered_found. fold tiers. fold sorted. rewrite Hsplit.
    apply find_first; [apply tier_contains_iff; exact Hin |].
    intros y Hy. apply not_in_tier, Hbefore, Hy.
  - intros Hty Hvalid Hok _ tier Htier.
    destruct (validated_tiered cfg Hty Hvalid) as [_ Hsep].
    fold tiers in Hsep. fold sorted in Hsep.
    assert (Hok' : Forall tierSchema_ok sorted).
    { rewrite Hperm. exact Hok. }
    pose proof (separated_strongly sorted Hok' Hsep) as Hstrong.
    assert (Hin : In tier sorted).
    { eapply Permutation_in; [symmetry; exact Hperm | exact Htier]. }
    assert (Hsel : in_tier quantity tier -> selects r tier).
    { intros Hq. apply tier_contains_iff in Hq.
      destruct (List.find (PricingEngine.tier_contains quantity) sorted)
        as [t' |] eqn:Ef.
      - pose proof (List.find_some _ _ Ef) as [Hin' Hc'].
        rewrite (separated_unique quantity sorted tier t'
                   Hok' Hstrong Hin Hin' Hq Hc').
        apply tiered_found. exact Ef.
      - pose proof (List.find_none _ _ Ef tier Hin) as Hn. congruence. }
    rewrite List.Forall_forall in Hok.
    destruct (Hok tier Htier) as (_ & Hmm & _).
    split; [exact Hsel | split]; intros E; apply Hsel; unfold in_tier; lra.
  - intros Hnone.
    assert (Ef : List.find (PricingEngine.tier_contains quantity) sorted = None).
    { apply find_absent. intros y Hy. apply not_in_tier, Hnone.
      eapply Permutation_in; [exact Hperm | exact Hy]. }
    subst r. unfold PricingEngine.calculateTieredPrice.
    fold tiers. fold sorted. rewrite Ef.
    destruct (last sorted) as [top |] eqn:El; simpl.
    + split; [reflexivity |].
      apply last_Some in El as [l' El].
      assert (Htop : In top sorted).
      { rewrite El. apply List.in_or_app. right. left. reflexivity. }
      split; [eapply Permutation_in; [exact Hperm | exact Htop] |].
      split; [| split; reflexivity].
      intros t Ht. rewrite El in Hsorted.
      apply (sorted_last_is_max l' top Hsorted).
      rewrite <- El. eapply Permutation_in; [symmetry; exact Hperm | exact Ht].
    + split; [reflexivity |].
      apply last_None in El. rewrite El in Hperm.
      split; [apply Permutation_nil; exact Hperm | reflexivity].
  - subst r. unfold PricingEngine.calculateTieredPrice.
    destruct (List.find _ _); simpl; repeat split.
  - intros Hty datetime. unfold PricingEngine.calculatePrice.
    rewrite Hty. reflexivity.
Qed.

Lemma C8_tiered_selection_witness :
  selects (PricingEngine.calculateTieredPrice Examples.tiered 5)
    Examples.small_orders
  /\ selects (PricingEngine.calculateTieredPrice Examples.tiered 6)
       Examples.large_orders
  /\ PricingEngine.pricing_rule_applied
       (PricingEngine.calculateTieredPrice Examples.tiered 11)
     = PricingEngine.Label "Default/Overflow".
Proof.
  assert (Hok : Forall tierSchema_ok
                  (default [] (PricingConfig.tiers Examples.tiered))).
  { repeat constructor; discriminate. }
  split; [| split].
  - refine (proj2 (proj2 (proj1 (proj2 (proj2
              (C8_tiered_selection Examples.tiered 5)))
              eq_refl eq_refl Hok _ Examples.small_orders _)) _).
    + discriminate.
    + right. left. reflexivity.
    + reflexivity.
  - refine (proj1 (proj2 (proj1 (proj2 (proj2
              (C8_tiered_selection Examples.tiered 6)))
              eq_refl eq_refl Hok _ Examples.large_orders _)) _).
    + discriminate.
    + left. reflexivity.
    + reflexivity.
  - refine (proj1 (proj1 (proj2 (proj2 (proj2
              (C8_tiered_selection Examples.tiered 11)))) _)).
    intros tier [<- | [<- | []]] [_ H]; apply H; reflexivity.
Defined.

(* ================================================================== *)
(** * Updating a booking *)
(* ================================================================== *)

Lemma calculatePrice_at_save (db : Db) (b : Booking.t) (id : string)
    (quantity : option Q) (datetime : Js.DateObject)
    (addons : option (list ItemService.AddonSelection)) :
  ItemService.calculatePrice_at (BookingModel.save db b) id quantity datetime
    addons
  = ItemService.calculatePrice_at db id quantity datetime addons.
Proof. reflexivity. Qed.

(** On a date with readings, the quote is the one of [calculatePrice]. *)
Lemma calculatePrice_at_valid (db : Db) (id : string)
    (options : ItemService.Options) :
  ItemService.calculatePrice_at db id (ItemService.opt_quantity options)
    (Js.ValidDate (ItemService.opt_datetime options))
    (ItemService.opt_addons options)
  = ItemService.calculatePrice db id options.
Proof.
  unfold ItemService.calculatePrice_at, ItemService.calculatePrice.
  destruct (ItemService.findById_populated db id) as [item |];
    [| reflexivity].
  destruct (negb (Item.is_active item)); [reflexivity |].
  unfold PricingEngine.calculatePrice_at, PricingEngine.calculatePrice.
  destruct (PricingConfig.type (Item.pricing item)) as [[] |]; reflexivity.
Qed.

(** No clock time lies in a window when the clock reads "NaN:NaN". *)
Lemma isTimeInRange_NaN (startTime endTime : string) :
  PricingEngine.isTimeInRange "NaN:NaN" startTime endTime = false.
Proof.
  unfold PricingEngine.isTimeInRange.
  change (Js.toMinutes "NaN:NaN") with (@None Z).
  destruct (Js.nan_cmp Z.ltb _ _); reflexivity.
Qed.

Lemma find_never {A : Type} (f : A -> bool) (l : list A) :
  (forall x, f x = false) -> List.find f l = None.
Proof.
  intros H. induction l as [| x l IH]; [reflexivity |].
  simpl. rewrite H. exact IH.
Qed.

(** At Invalid Date no dynamic rule applies. *)
Lemma calculateDynamicPrice_at_invalid (cfg : PricingConfig.t) (quantity : Q) :
  PricingEngine.calculateDynamicPrice_at cfg quantity Js.InvalidDate
  = {| PricingEngine.pricing_type := DYNAMIC;
       PricingEngine.pricing_rule_applied := PricingEngine.Label "Default Price";
       PricingEngine.details := PricingEngine.rule_details_invalid None;
       PricingEngine.unit_price :=
         Js.num_or (PricingConfig.default_price cfg) 0;
       PricingEngine.quantity := quantity;
       PricingEngine.base_price :=
         (Js.num_or (PricingConfig.default_price cfg) 0 * quantity)%Q;
       PricingEngine.discount_amount := 0;
       PricingEngine.calculated_price :=
         (Js.num_or (PricingConfig.default_price cfg) 0 * quantity)%Q |}.
Proof.
  unfold PricingEngine.calculateDynamicPrice_at.
  rewrite find_never; [reflexivity |].
  intros rule. unfold PricingEngine.rule_matches_invalid.
  rewrite isTimeInRange_NaN. apply andb_false_r.
Qed.

(** What a successful [update] went through. *)
Lemma update_ok (validates : Booking.t -> bool) (db db' : Db) (id : string)
    (data : BookingService.UpdateData.t) (booking b' : Booking.t) :
  BookingModel.findById db id = Some booking ->
  BookingService.update validates db id data = Ok (db', b') ->
  BookingService.is_locked (Booking.status booking) = false
  /\ db' = BookingModel.save db b'
  /\ exists price_breakdown,
       b' = BookingService.assign booking data price_breakdown
       /\ if BookingService.requote_needed data then
            exists q,
              ItemService.calculatePrice_at db (Booking.item booking)
                (Some (Js.num_or (BookingService.UpdateData.quantity data)
                         (Booking.quantity booking)))
                (BookingService.requote_datetime booking data)
                (Some (BookingService.addonsForPricing booking data)) = Ok q
              /\ price_breakdown = Some (BookingService.breakdown_of q)
          else price_breakdown = None.
Proof.
  intros Hfind H. unfold BookingService.update in H. rewrite Hfind in H.
  destruct (BookingService.is_locked (Booking.status booking));
    [discriminate |].
  split; [reflexivity |].
  destruct (if BookingService.time_changed data then _ else []);
    [| discriminate].
  destruct (BookingService.requote_needed data).
  - destruct (ItemService.calculatePrice_at _ _ _ _ _) as [q | |];
      [| discriminate | discriminate].
    destruct (validates _); [| discriminate].
    injection H as <- <-. split; [reflexivity |].
    eexists. split; [reflexivity |]. exists q. split; reflexivity.
  - destruct (validates _); [| discriminate].
    injection H as <- <-. split; [reflexivity |].
    eexists. split; reflexivity.
Qed.

(** C4 (as amended). For every booking that is neither cancelled nor
    completed, an update that succeeds and supplies a quantity re-quotes
    in full: the stored breakdown is the quote [calculatePrice] gives,
    from the current item state, for the booking's new quantity and
    add-ons, at the [datetime] that [update] builds from the booking's
    date and start time.  An update that supplies neither a quantity nor
    add-ons, such as one that only revises the time, leaves the stored
    breakdown as it was. *)
Theorem C4_update_requote (validates : Booking.t -> bool) (db db' : Db)
    (id : string) (data : BookingService.UpdateData.t)
    (booking b' : Booking.t) :
  BookingModel.findById db id = Some booking ->
  BookingService.update validates db id data = Ok (db', b') ->
  (Booking.status booking <> CANCELLED /\ Booking.status booking <> COMPLETED)
  /\ (forall n,
        BookingService.UpdateData.quantity data = Some n -> ~ (n == 0)%Q ->
        Booking.quantity b' = n
        /\ exists q,
             ItemService.calculatePrice_at db' (Booking.item b')
               (Some (Booking.quantity b'))
               (Js.Date_of_concat (Booking.booking_date b')
                  (Booking.start_time b'))
               (Some (selections_of b')) = Ok q
             /\ Booking.price_breakdown b'
                = Some (BookingService.breakdown_of q))
  /\ (BookingService.UpdateData.quantity data = None ->
      BookingService.UpdateData.selected_addons data = None ->
      Booking.price_breakdown b' = Booking.price_breakdown booking).
Proof.
  intros Hfind Hupd.
  destruct (update_ok validates db db' id data booking b' Hfind Hupd)
    as (Hlock & -> & pb & -> & Hpb).
  split; [| split].
  - unfold BookingService.is_locked in Hlock.
    destruct (Booking.status booking); simpl in Hlock;
      split; congruence.
  - intros n Hn Hnz.
    assert (Hnum : forall d, Js.num_or (Some n) d = n).
    { intros d. simpl. destruct (Qeq_bool n 0) eqn:E; [| reflexivity].
      apply Qeq_bool_iff in E. destruct (Hnz E). }
    assert (Hneed : BookingService.requote_needed data = true).
    { unfold BookingService.requote_needed. rewrite Hn. simpl.
      destruct (Qeq_bool n 0) eqn:E; [| reflexivity].
      apply Qeq_bool_iff in E. destruct (Hnz E). }
    rewrite Hneed in Hpb. destruct Hpb as (q & Hcalc & ->).
    split; [simpl; rewrite Hn; reflexivity |].
    exists q. split; [| reflexivity].
    rewrite calculatePrice_at_save. rewrite <- Hcalc.
    rewrite Hn, Hnum. simpl. rewrite Hn. reflexivity.
  - intros Hnq Hna.
    assert (Hneed : BookingService.requote_needed data = false).
    { unfold BookingService.requote_needed. rewrite Hnq, Hna. reflexivity. }
    rewrite Hneed in Hpb. subst pb. reflexivity.
Qed.

Lemma C4_update_requote_witness :
  exists db' b' q,
    BookingService.update BookingModel.schema_validates
      Examples.spa_db "b1" Examples.evening_for_two = Ok (db', b')
    /\ ItemService.calculatePrice_at db' (Booking.item b')
         (Some (Booking.quantity b'))
         (Js.Date_of_concat (Booking.booking_date b') (Booking.start_time b'))
         (Some (selections_of b')) = Ok q
    /\ Booking.price_breakdown b' = Some (BookingService.breakdown_of q)
    /\ (ItemService.final_price q == 210)%Q.
Proof.
  destruct (BookingService.update BookingModel.schema_validates
              Examples.spa_db "b1" Examples.evening_for_two)
    as [[db' b'] | |] eqn:E;
    [| vm_compute in E; discriminate | vm_compute in E; discriminate].
  destruct (C4_update_requote BookingModel.schema_validates Examples.spa_db
              db' "b1" Examples.evening_for_two Examples.morning b')
    as (_ & H & _).
  - reflexivity.
  - exact E.
  - destruct (H 2%Q eq_refl) as (_ & q & Hq & Hpb); [discriminate |].
    exists db', b', q. split; [reflexivity | split; [exact Hq | split]];
      [exact Hpb |].
    vm_compute in E. injection E as <- <-.
    vm_compute in Hq. injection Hq as <-. reflexivity.
Defined.

(** C4, as first stated, fails for an update that only revises the time:
    moving the morning booking of the spa to 19:00 stores the new time and
    keeps the morning breakdown (final price 105), while the quote for the
    booking as it now stands is the evening one (final price 157.50). *)
Lemma C4_time_only_update_counterexample :
  exists db' b' q,
    BookingService.update BookingModel.schema_validates
      Examples.spa_db "b1" Examples.move_to_evening = Ok (db', b')
    /\ Booking.status Examples.morning = CONFIRMED
    /\ Booking.start_time b' = "19:00"%string
    /\ Booking.end_time b' = "20:00"%string
    /\ ItemService.calculatePrice db' (Booking.item b')
         (fresh_options b') = Ok q
    /\ Booking.price_breakdown b' = Some Examples.morning_breakdown
    /\ (PriceBreakdown.final_price Examples.morning_breakdown == 105)%Q
    /\ (PriceBreakdown.final_price (BookingService.breakdown_of q)
        == 1575 # 10)%Q
    /\ forall pb, Booking.price_breakdown b' = Some pb ->
         ~ (PriceBreakdown.final_price pb
            == PriceBreakdown.final_price (BookingService.breakdown_of q))%Q.
Proof.
  eexists _, _, _.
  split; [vm_compute; reflexivity |].
  split; [reflexivity |].
  split; [reflexivity |].
  split; [reflexivity |].
  split; [vm_compute; reflexivity |].
  split; [reflexivity |].
  split; [reflexivity |].
  split; [reflexivity |].
  intros pb [= <-]. vm_compute. discriminate.
Qed.

(** A re-quote does not see the clock either: moved to 19:00 for two,
    the booking is stored at the default price (final price 210), where
    the quote for two at 19:00 is the evening one (315). *)
Example requote_ignores_the_clock :
  exists db' b' pb q,
    BookingService.update BookingModel.schema_validates
      Examples.spa_db "b1" Examples.evening_for_two = Ok (db', b')
    /\ Booking.start_time b' = "19:00"%string
    /\ Booking.price_breakdown b' = Some pb
    /\ (PriceBreakdown.final_price pb == 210)%Q
    /\ ItemService.calculatePrice db' (Booking.item b')
         (fresh_options b') = Ok q
    /\ (ItemService.final_price q == 315)%Q.
Proof.
  eexists _, _, _, _.
  split; [vm_compute; reflexivity |].
  split; [reflexivity |].
  split; [reflexivity |].
  split; [reflexivity |].
  split; [vm_compute; reflexivity |].
  reflexivity.
Qed.

(** Before that update the stored breakdown was the quote of the booking. *)
Example morning_breakdown_was_fresh :
  exists q,
    ItemService.calculatePrice Examples.spa_db "i3"
      (fresh_options Examples.morning) = Ok q
    /\ (PriceBreakdown.final_price (BookingService.breakdown_of q)
        == PriceBreakdown.final_price Examples.morning_breakdown)%Q
    /\ (PriceBreakdown.subtotal (BookingService.breakdown_of q)
        == PriceBreakdown.subtotal Examples.morning_breakdown)%Q.
Proof.
  eexists. split; [vm_compute; reflexivity |]. split; reflexivity.
Qed.

(* ================================================================== *)
(** * Evaluations on concrete inputs *)
(* ================================================================== *)

Example toMinutes_padded : Js.toMinutes "09:30" = Some 570.
Proof. reflexivity. Qed.

Example toMinutes_unpadded : Js.toMinutes "9:30" = Some 570.
Proof. reflexivity. Qed.

Example toMinutes_not_a_time : Js.toMinutes "soon" = None.
Proof. reflexivity. Qed.

(** The time pattern also admits a one-digit hour, on which the character
    order of the conflict query is not the order of the clock. *)
Example unpadded_hour_order :
  time_pattern "9:00" = true /\ is_HHMM "9:00" = false
  /\ String.ltb "9:00" "10:00" = false.
Proof. repeat split. Qed.

Example currentTime_pads :
  PricingEngine.currentTime (Examples.clock 1 5) = "01:05"%string.
Proof. reflexivity. Qed.

(** Equal keys keep their order: the sort is stable. *)
Example sortRules_stable :
  List.map DynamicRule.name
    (PricingEngine.sortRules [Examples.late_night; Examples.evening_rate;
                              Examples.late_night])
  = ["Evening"; "Late night"; "Late night"]%string.
Proof. reflexivity. Qed.

Example sortTiers_ascending :
  PricingEngine.sortTiers [Examples.large_orders; Examples.small_orders]
  = [Examples.small_orders; Examples.large_orders].
Proof. reflexivity. Qed.

(** A 150% discount on 3 units at 80 takes the whole base amount. *)
Example clearance_is_free :
  (PricingEngine.discount_amount
     (PricingEngine.calculateDiscountedPrice Examples.clearance 3) == 240)%Q
  /\ (PricingEngine.calculated_price
        (PricingEngine.calculateDiscountedPrice Examples.clearance 3) == 0)%Q.
Proof. split; reflexivity. Qed.

(** A mandatory group rejects an empty selection when it is named. *)
Example named_group_is_validated :
  ItemService.calculatePrice Examples.menu "i1"
    (ItemService.mkOptions (Some 2%Q) Examples.noon
       (Some [ItemService.mkAddonSelection "g1" []]))
  = Throw 400 (MinimumRequired 1 "Sauce") [].
Proof. reflexivity. Qed.

Example evening_quote :
  (PricingEngine.unit_price
     (PricingEngine.calculateDynamicPrice Examples.spa_pricing 1
        (Examples.clock 19 0)) == 150)%Q
  /\ (PricingEngine.unit_price
        (PricingEngine.calculateDynamicPrice Examples.spa_pricing 1
           (Examples.clock 9 0)) == 100)%Q.
Proof. split; reflexivity. Qed.

(* ================================================================== *)
(** * The choice among dynamic rules *)
(* ================================================================== *)

Lemma Qltb_sub (a b : Q) : Js.Qltb (a - b) 0 = Js.Qltb a b.
Proof.
  apply Bool.eq_iff_eq_true. rewrite !Qltb_lt. split; intros H; lra.
Qed.

Lemma sortRules_insert_sorted (x : DynamicRule.t) (l : list DynamicRule.t) :
  StronglySorted priority_ge l ->
  StronglySorted priority_ge
    (Js.sort_insert
       (fun a b => (Js.num_or (DynamicRule.priority b) 0
                    - Js.num_or (DynamicRule.priority a) 0)%Q) x l).
Proof.
  induction l as [| y l IH]; intros Hs; simpl.
  - constructor; constructor.
  - apply StronglySorted_inv in Hs as [Hl Hy].
    rewrite Qltb_sub.
    destruct (Js.Qltb _ _) eqn:E.
    + apply Qltb_lt in E. constructor; [apply IH; exact Hl |].
      rewrite (sort_insert_perm _ x l). constructor; [| exact Hy].
      unfold priority_ge, priority_of. lra.
    + apply Qltb_ge in E. constructor; [constructor; assumption |].
      constructor; [unfold priority_ge, priority_of; lra |].
      eapply List.Forall_impl; [| exact Hy].
      intros z Hz. unfold priority_ge, priority_of in *. lra.
Qed.

Lemma sortRules_sorted (rules : list DynamicRule.t) :
  StronglySorted priority_ge (PricingEngine.sortRules rules).
Proof.
  unfold PricingEngine.sortRules, Js.sort.
  induction rules as [| x l IH]; simpl; [constructor |].
  apply sortRules_insert_sorted. exact IH.
Qed.

Lemma find_sortRules_insert (f : DynamicRule.t -> bool) (x : DynamicRule.t)
    (l : list DynamicRule.t) :
  StronglySorted priority_ge l ->
  List.find f
    (Js.sort_insert
       (fun a b => (Js.num_or (DynamicRule.priority b) 0
                    - Js.num_or (DynamicRule.priority a) 0)%Q) x l)
  = if f x then
      match List.find f l with
      | Some y => if Js.Qltb (priority_of x) (priority_of y)
                  then Some y else Some x
      | None => Some x
      end
    else List.find f l.
Proof.
  induction l as [| y l IH]; intros Hs; simpl.
  - destruct (f x); reflexivity.
  - apply StronglySorted_inv in Hs as [Hl Hy].
    rewrite Qltb_sub. fold (priority_of x). fold (priority_of y).
    destruct (Js.Qltb (priority_of x) (priority_of y)) eqn:E; simpl.
    + rewrite (IH Hl). destruct (f y); [| reflexivity].
      rewrite E. destruct (f x); reflexivity.
    + destruct (f x) eqn:Ex; [| reflexivity].
      destruct (f y) eqn:Ey; [rewrite E; reflexivity |].
      destruct (List.find f l) as [z |] eqn:Ez; [| reflexivity].
      apply List.find_some in Ez as [Hz _].
      rewrite List.Forall_forall in Hy. specialize (Hy z Hz).
      apply Qltb_ge in E. unfold priority_ge in Hy.
      assert (Hn : Js.Qltb (priority_of x) (priority_of z) = false)
        by (apply Qltb_ge; lra).
      rewrite Hn. reflexivity.
Qed.

(** The rule found in the sorted list is the first of the best. *)
Lemma find_sortRules (f : DynamicRule.t -> bool) (rules : list DynamicRule.t) :
  List.find f (PricingEngine.sortRules rules) = first_best f rules.
Proof.
  induction rules as [| x l IH]; [reflexivity |].
  unfold PricingEngine.sortRules, Js.sort. simpl.
  rewrite find_sortRules_insert by apply sortRules_sorted.
  fold (Js.sort
          (fun a b => (Js.num_or (DynamicRule.priority b) 0
                       - Js.num_or (DynamicRule.priority a) 0)%Q) l).
  fold (PricingEngine.sortRules l). rewrite IH. reflexivity.
Qed.

Lemma first_best_Some (f : DynamicRule.t -> bool) (l : list DynamicRule.t)
    (r : DynamicRule.t) :
  first_best f l = Some r ->
  f r = true
  /\ (forall r', In r' l -> f r' = true -> (priority_of r' <= priority_of r)%Q)
  /\ exists before after,
       l = before ++ r :: after
       /\ forall r', In r' before -> f r' = true ->
                     (priority_of r' < priority_of r)%Q.
Proof.
  revert r. induction l as [| x l IH]; intros r H; [discriminate |].
  simpl in H. destruct (f x) eqn:Ex.
  - destruct (first_best f l) as [y |] eqn:Ey.
    + destruct (IH y eq_refl) as (Hfy & Hmax & before & after & -> & Hbefore).
      destruct (Js.Qltb (priority_of x) (priority_of y)) eqn:E;
        injection H as <-.
      * apply Qltb_lt in E. split; [exact Hfy | split].
        -- intros r' [<- | Hr'] Hf; [lra | apply Hmax; assumption].
        -- exists (x :: before), after. split; [reflexivity |].
           intros r' [<- | Hr'] Hf; [exact E | apply Hbefore; assumption].
      * apply Qltb_ge in E. split; [exact Ex | split].
        -- intros r' [<- | Hr'] Hf; [lra |].
           specialize (Hmax r' Hr' Hf). lra.
        -- exists [], (before ++ y :: after). split; [reflexivity |].
           intros r' [].
    + injection H as <-. split; [exact Ex | split].
      * intros r' [<- | Hr'] Hf; [lra |].
        exfalso. clear IH. induction l as [| z l IHl]; [destruct Hr' |].
        simpl in Ey. destruct (f z) eqn:Ez.
        -- destruct (first_best f l) as [w |];
             [destruct (Js.Qltb _ _) |]; discriminate.
        -- destruct Hr' as [<- | Hr']; [congruence | apply IHl; assumption].
      * exists [], l. split; [reflexivity |]. intros r' [].
  - destruct (IH r H) as (Hfr & Hmax & before & after & -> & Hbefore).
    split; [exact Hfr | split].
    + intros r' [<- | Hr'] Hf; [congruence | apply Hmax; assumption].
    + exists (x :: before), after. split; [reflexivity |].
      intros r' [<- | Hr'] Hf; [congruence | apply Hbefore; assumption].
Qed.

Lemma first_best_None (f : DynamicRule.t -> bool) (l : list DynamicRule.t) :
  first_best f l = None -> forall r, In r l -> f r = false.
Proof.
  induction l as [| x l IH]; intros H r Hr; [destruct Hr |].
  simpl in H. destruct (f x) eqn:Ex.
  - destruct (first_best f l) as [y |];
      [destruct (Js.Qltb _ _) |]; discriminate.
  - destruct Hr as [<- | Hr]; [exact Ex | apply IH; assumption].
Qed.

(** X1. Dynamic pricing applies, among the rules that match the instant,
    one of highest priority, and among those the one declared first; its
    price is the unit price and its name the label.  When no rule matches,
    the default price applies under the label "Default Price".  The amount
    is the unit price times the quantity. *)
Theorem X1_dynamic_rule_choice (cfg : PricingConfig.t) (quantity : Q)
    (date : Js.Date) :
  let rules := default [] (PricingConfig.dynamic_rules cfg) in
  let r := PricingEngine.calculateDynamicPrice cfg quantity date in
  (exists applicable,
      PricingEngine.details r
      = PricingEngine.rule_details applicable (Js.getDay date)
          (PricingEngine.currentTime date)
      /\ match applicable with
         | Some rule =>
             PricingEngine.rule_matches date rule = true
             /\ PricingEngine.unit_price r = DynamicRule.price rule
             /\ PricingEngine.pricing_rule_applied r
                = PricingEngine.Label (DynamicRule.name rule)
             /\ (forall rule', In rule' rules ->
                   PricingEngine.rule_matches date rule' = true ->
                   (priority_of rule' <= priority_of rule)%Q)
             /\ exists before after,
                  rules = before ++ rule :: after
                  /\ forall rule', In rule' before ->
                       PricingEngine.rule_matches date rule' = true ->
                       (priority_of rule' < priority_of rule)%Q
         | None =>
             (forall rule', In rule' rules ->
                PricingEngine.rule_matches date rule' = false)
             /\ PricingEngine.unit_price r
                = Js.num_or (PricingConfig.default_price cfg) 0
             /\ PricingEngine.pricing_rule_applied r
                = PricingEngine.Label "Default Price"
         end)
  /\ PricingEngine.calculated_price r
     = (PricingEngine.unit_price r * quantity)%Q.
Proof.
  intros rules r. subst r. unfold PricingEngine.calculateDynamicPrice.
  fold rules. rewrite find_sortRules.
  split; [| reflexivity].
  exists (first_best (PricingEngine.rule_matches date) rules).
  split; [reflexivity |].
  destruct (first_best (PricingEngine.rule_matches date) rules) as [rule |]
    eqn:E; simpl.
  - destruct (first_best_Some _ _ _ E) as (Hm & Hmax & Hfirst).
    repeat split; assumption.
  - split; [exact (first_best_None _ _ E) | split; reflexivity].
Qed.

(* ================================================================== *)
(** * Every pricing type *)
(* ================================================================== *)




(* ================================================================== *)
(** * What tier validation accepts *)
(* ================================================================== *)

Lemma separated_pairs (l : list Tier.t) (a b : Tier.t) :
  StronglySorted separated l -> In a l -> In b l ->
  a = b \/ separated a b \/ separated b a.
Proof.
  induction l as [| x l IH]; intros Hs Ha Hb; [destruct Ha |].
  apply StronglySorted_inv in Hs as [Hs Hx].
  rewrite List.Forall_forall in Hx.
  destruct Ha as [<- | Ha]; destruct Hb as [<- | Hb]; auto.
Qed.

Lemma separated_NoDup (l : list Tier.t) :
  Forall tierSchema_ok l -> StronglySorted separated l -> List.NoDup l.
Proof.
  induction l as [| x l IH]; intros Hok Hs; [constructor |].
  apply List.Forall_cons_iff in Hok as [(_ & Hx & _) Hok].
  apply StronglySorted_inv in Hs as [Hs Hsep].
  constructor; [| apply IH; assumption].
  intros Hin. rewrite List.Forall_forall in Hsep.
  specialize (Hsep x Hin). unfold separated in Hsep. lra.
Qed.

Lemma tier_overlaps_sorted (i : nat) (l : list Tier.t) :
  Sorted separated l -> PricingEngine.tier_overlaps i l = [].
Proof.
  revert i. induction l as [| a l IH]; intros i Hs; [reflexivity |].
  destruct l as [| b l]; [reflexivity |].
  apply Sorted_inv in Hs as [Hs Hd]. apply HdRel_inv in Hd.
  change (PricingEngine.tier_overlaps i (a :: b :: l))
    with ((if Qle_bool (Tier.min_quantity b) (Tier.max_quantity a)
           then [PricingEngine.TierOverlap (i + 1) (i + 2)] else [])
          ++ PricingEngine.tier_overlaps (S i) (b :: l)).
  rewrite (IH (S i) Hs).
  destruct (Qle_bool (Tier.min_quantity b) (Tier.max_quantity a)) eqn:E;
    [| reflexivity].
  apply Qle_bool_iff in E. unfold separated in Hd. lra.
Qed.

Lemma disjoint_sorted (l : list Tier.t) :
  Forall tierSchema_ok l -> StronglySorted min_le l -> List.NoDup l ->
  (forall a b, In a l -> In b l -> a <> b -> disjoint a b) ->
  Sorted separated l.
Proof.
  induction l as [| x l IH]; intros Hok Hs Hnd Hdis; [constructor |].
  apply List.Forall_cons_iff in Hok as [Hx Hok].
  apply StronglySorted_inv in Hs as [Hs Hmin].
  apply List.NoDup_cons_iff in Hnd as [Hnin Hnd].
  constructor.
  - apply IH; try assumption.
    intros a b Ha Hb. apply Hdis; right; assumption.
  - destruct l as [| y l]; constructor.
    assert (Hy : In y (y :: l)) by (left; reflexivity).
    rewrite List.Forall_forall in Hmin, Hok.
    specialize (Hmin y Hy). destruct (Hok y Hy) as (_ & Hyy & _).
    destruct (Hdis x y ltac:(left; reflexivity) ltac:(right; exact Hy))
      as [H | H].
    + intros ->. apply Hnin. exact Hy.
    + exact H.
    + unfold min_le in Hmin. lra.
Qed.

(** X4. For tiers that satisfy the tier schema
    ([min_quantity <= max_quantity]), [validatePricingConfig] accepts a
    Tiered configuration exactly when there is at least one tier, no tier
    is listed twice, and the ranges of any two tiers have no quantity in
    common: overlaps are always reported, and nothing else is. *)
Theorem X4_tier_validation_is_exact (cfg : PricingConfig.t) :
  PricingConfig.type cfg = Some TIERED ->
  Forall tierSchema_ok (default [] (PricingConfig.tiers cfg)) ->
  PricingEngine.valid (PricingEngine.validatePricingConfig cfg) = true
  <-> default [] (PricingConfig.tiers cfg) <> []
      /\ List.NoDup (default [] (PricingConfig.tiers cfg))
      /\ forall a b,
           In a (default [] (PricingConfig.tiers cfg)) ->
           In b (default [] (PricingConfig.tiers cfg)) ->
           a <> b -> disjoint a b.
Proof.
  intros Hty Hok.
  set (tiers := default [] (PricingConfig.tiers cfg)) in *.
  pose proof (sortTiers_perm tiers) as Hperm.
  assert (Hok' : Forall tierSchema_ok (PricingEngine.sortTiers tiers))
    by (rewrite Hperm; exact Hok).
  split.
  - intros Hvalid.
    destruct (validated_tiered cfg Hty Hvalid) as [Hne Hsep].
    fold tiers in Hne, Hsep.
    pose proof (separated_strongly _ Hok' Hsep) as Hstrong.
    split; [exact Hne | split].
    + eapply Permutation_NoDup; [exact Hperm |].
      apply separated_NoDup; assumption.
    + intros a b Ha Hb Hab.
      assert (Ha' : In a (PricingEngine.sortTiers tiers))
        by (eapply Permutation_in; [symmetry; exact Hperm | exact Ha]).
      assert (Hb' : In b (PricingEngine.sortTiers tiers))
        by (eapply Permutation_in; [symmetry; exact Hperm | exact Hb]).
      destruct (separated_pairs _ a b Hstrong Ha' Hb') as [E | [S | S]];
        [contradiction | left; exact S | right; exact S].
  - intros (Hne & Hnd & Hdis).
    assert (Hsorted : Sorted separated (PricingEngine.sortTiers tiers)).
    { apply disjoint_sorted.
      - exact Hok'.
      - apply sortTiers_sorted.
      - eapply Permutation_NoDup; [symmetry; exact Hperm | exact Hnd].
      - intros a b Ha Hb. apply Hdis.
        + eapply Permutation_in; [exact Hperm | exact Ha].
        + eapply Permutation_in; [exact Hperm | exact Hb]. }
    unfold PricingEngine.validatePricingConfig. rewrite Hty.
    subst tiers. destruct (PricingConfig.tiers cfg) as [[| t l] |];
      simpl in *; try congruence.
    rewrite (tier_overlaps_sorted 0 _ Hsorted). reflexivity.
Qed.

Lemma X4_tier_validation_is_exact_witness :
  PricingEngine.valid (PricingEngine.validatePricingConfig Examples.tiered)
  = true
  <-> default [] (PricingConfig.tiers Examples.tiered) <> []
      /\ List.NoDup (default [] (PricingConfig.tiers Examples.tiered))
      /\ forall a b,
           In a (default [] (PricingConfig.tiers Examples.tiered)) ->
           In b (default [] (PricingConfig.tiers Examples.tiered)) ->
           a <> b -> disjoint a b.
Proof.
  apply (X4_tier_validation_is_exact Examples.tiered eq_refl).
  repeat constructor; discriminate.
Defined.

(* ================================================================== *)
(** * Windows of the clock *)
(* ================================================================== *)

(** X5. For times that parse: a window whose start and end coincide holds
    no instant, and otherwise the window from [start] to [end] and the
    window from [end] to [start] split the day between them, every instant
    lying in exactly one. *)
Theorem X5_windows_split_the_day (time startTime endTime : string)
    (c s e : Z) :
  minutes_are time c -> minutes_are startTime s -> minutes_are endTime e ->
  (s = e -> PricingEngine.isTimeInRange time startTime endTime = false)
  /\ (s <> e ->
      PricingEngine.isTimeInRange time endTime startTime
      = negb (PricingEngine.isTimeInRange time startTime endTime)).
Proof.
  unfold minutes_are, PricingEngine.isTimeInRange.
  intros -> -> ->. simpl. split.
  - intros ->. rewrite Z.ltb_irrefl, Z.geb_leb.
    destruct (Z.leb_spec e c), (Z.ltb_spec c e); simpl; try reflexivity; lia.
  - intros Hne. rewrite !Z.geb_leb.
    destruct (Z.ltb_spec s e), (Z.ltb_spec e s), (Z.leb_spec e c),
      (Z.ltb_spec c s), (Z.leb_spec s c), (Z.ltb_spec c e);
      simpl; try reflexivity; lia.
Qed.

Lemma X5_windows_split_the_day_witness :
  PricingEngine.isTimeInRange "23:30" "02:00" "22:00"
  = negb (PricingEngine.isTimeInRange "23:30" "22:00" "02:00").
Proof.
  apply (proj2 (X5_windows_split_the_day "23:30" "22:00" "02:00"
                  1410 1320 120 eq_refl eq_refl eq_refl)).
  lia.
Defined.

(* ================================================================== *)
(** * More on tax *)
(* ================================================================== *)



(** X6. For a populated item with no tax setting of its own: under a
    subcategory that sets its tax, the item resolves to exactly what
    [getSubcategoryTax] returns for that subcategory; under a subcategory
    that sets none and carries no category, as [populate] leaves it, the
    item resolves to its own category, or to the default when it has
    none. *)
Theorem X6_item_tax_is_subcategory_tax {G : Type} (db : Db) (item : Item.t G)
    (s : Subcategory.t) :
  populated item ->
  Item.tax_applicable item = None ->
  Item.subcategory item = RefDoc s ->
  (Subcategory.tax_applicable s <> None ->
   TaxEngine.getEffectiveTax db item = TaxEngineExtra.getSubcategoryTax db s)
  /\ (Subcategory.tax_applicable s = None ->
      Subcategory.category s = RefNone ->
      TaxEngine.getEffectiveTax db item
      = match Item.category item with
        | RefDoc c => TaxEngine.from_category c
        | _ => TaxEngine.default_tax
        end).
Proof.
  intros (Hcat & _ & _) Hitem Hsub.
  unfold TaxEngine.getEffectiveTax, TaxEngineExtra.getSubcategoryTax.
  rewrite Hitem, Hsub. simpl. split.
  - intros Hset. destruct (Subcategory.tax_applicable s);
      [reflexivity | congruence].
  - intros -> ->. simpl.
    destruct (Item.category item) as [| id | c]; try reflexivity.
    destruct (Hcat id eq_refl).
Qed.

Lemma X6_item_tax_is_subcategory_tax_witness :
  exists s,
    Item.subcategory (ItemService.populate Examples.bar Examples.cola)
    = RefDoc s
    /\ TaxEngine.getEffectiveTax Examples.bar
         (ItemService.populate Examples.bar Examples.cola)
       = TaxEngineExtra.getSubcategoryTax Examples.bar s
    /\ TaxEngine.tax_percentage (TaxEngineExtra.getSubcategoryTax Examples.bar s)
       = 12%Q.
Proof.
  eexists. split; [vm_compute; reflexivity |].
  split; [| reflexivity].
  refine (proj1 (X6_item_tax_is_subcategory_tax Examples.bar
                   (ItemService.populate Examples.bar Examples.cola) _ _ _ _)
            _).
  - apply populate_populated.
  - reflexivity.
  - vm_compute. reflexivity.
  - discriminate.
Defined.

(** X8. [validateTaxConfig] accepts an applicable tax exactly when its
    percentage is given and lies between 0 and 100, bounds included, and
    accepts everything when the tax is not applicable. *)
Theorem X8_validated_tax_is_bounded (taxApplicable : option bool)
    (taxPercentage : option Q) :
  TaxEngineExtra.valid
    (TaxEngineExtra.validateTaxConfig taxApplicable taxPercentage) = true
  <-> (taxApplicable = Some true ->
       exists p, taxPercentage = Some p /\ (0 <= p)%Q /\ (p <= 100)%Q).
Proof.
  unfold TaxEngineExtra.validateTaxConfig.
  destruct taxApplicable as [[] |]; simpl;
    try (split; [intros _ H; discriminate H | reflexivity]).
  destruct taxPercentage as [p |]; simpl.
  - destruct (Js.Qltb p 0) eqn:E1; destruct (Js.Qltb 100 p) eqn:E2; simpl;
      try (apply Qltb_lt in E1); try (apply Qltb_lt in E2);
      try (apply Qltb_ge in E1); try (apply Qltb_ge in E2).
    + split; [discriminate |].
      intros H. destruct (H eq_refl) as (q & [= <-] & ? & ?). lra.
    + split; [discriminate |].
      intros H. destruct (H eq_refl) as (q & [= <-] & ? & ?). lra.
    + split; [discriminate |].
      intros H. destruct (H eq_refl) as (q & [= <-] & ? & ?). lra.
    + split; [| reflexivity]. intros _ _. exists p. repeat split; assumption.
  - split; [discriminate |].
    intros H. destruct (H eq_refl) as (q & [=] & _).
Qed.



Lemma getEffectiveTax_populate (db : Db) (doc : Item.t string) :
  TaxEngine.getEffectiveTax db (ItemService.populate db doc)
  = TaxEngine.getEffectiveTax db (ItemServiceExtra.populate_refs db doc).
Proof. reflexivity. Qed.

(** X10. The tax block of a quote is the effective tax that [getWithTax]
    reports for the same item: same applicability, percentage and source.
    Both answer 404 "Item not found" for the same ids. *)
Theorem X10_quote_tax_is_effective_tax (db : Db) (id : string)
    (options : ItemService.Options) :
  (forall q,
      ItemService.calculatePrice db id options = Ok q ->
      exists item effective,
        ItemServiceExtra.getWithTax db id = Ok (item, effective)
        /\ ItemService.applicable (ItemService.tax q)
           = TaxEngine.tax_applicable effective
        /\ ItemService.percentage (ItemService.tax q)
           = TaxEngine.tax_percentage effective
        /\ ItemService.inherited_from (ItemService.tax q)
           = TaxEngine.inherited_from effective)
  /\ (ItemServiceExtra.getWithTax db id = Throw 404 (Msg "Item not found") []
      <-> ItemService.calculatePrice db id options
          = Throw 404 (Msg "Item not found") []).
Proof.
  split.
  - intros q H.
    destruct (calculatePrice_ok db id options q H)
      as (item & r & aT & aD & Hitem & _ & _ & _ & _ & _ & _ & _ & _
          & Hpct & Happ & Hfrom & _ & _).
    unfold ItemService.findById_populated in Hitem.
    unfold ItemServiceExtra.getWithTax.
    destruct (Items db !! id) as [doc |]; [| discriminate].
    injection Hitem as <-.
    eexists _, _. split; [reflexivity |].
    rewrite <- getEffectiveTax_populate. repeat split; assumption.
  - unfold ItemServiceExtra.getWithTax, ItemService.calculatePrice,
      ItemService.findById_populated.
    destruct (Items db !! id) as [doc |]; [| tauto].
    split; [discriminate |]. simpl.
    destruct (Item.is_active doc); simpl; [| discriminate].
    destruct (PricingEngine.calculatePrice _ _ _) as [r | |] eqn:Hr.
    + destruct (ItemService.addons_loop _ _ _ _) as [[] | s m c |] eqn:Hl;
        try discriminate.
      intros [= -> -> ->]. exfalso. clear Hr.
      revert Hl. generalize 0%Q. generalize (@nil ItemService.AddonDetail).
      induction (default [] (ItemService.opt_addons options)) as [| x l IH];
        intros d t Hl; simpl in Hl; [discriminate |].
      destruct (ItemService.find_group _ x); [| exact (IH _ _ Hl)].
      destruct (AddonGroup.valid _); simpl in Hl;
        [exact (IH _ _ Hl) | discriminate].
    + intros [= -> -> ->].
      unfold PricingEngine.calculatePrice in Hr.
      destruct (PricingConfig.type _) as [[] |]; discriminate.
    + discriminate.
Qed.

(* ================================================================== *)
(** * More on add-on groups *)
(* ================================================================== *)

Lemma inject_nat_le (a b : nat) :
  (inject_Z (Z.of_nat a) <= inject_Z (Z.of_nat b))%Q <-> (a <= b)%nat.
Proof. rewrite <- Zle_Qle. lia. Qed.

(** X11. A group that passes the [pre('validate')] hook has
    [min_selections <= max_selections]; if it is single-selection its
    [max_selections] is 1; if it is mandatory its [min_selections] is not
    0; its addons and other fields are untouched; and passing it through
    the hook again changes nothing. *)
Theorem X11_hook_normalises_bounds (g g' : AddonGroup.t) :
  AddonGroupHook.pre_validate g = Ok g' ->
  (AddonGroup.min_selections g' <= AddonGroup.max_selections g')%Q
  /\ (AddonGroup.selection_type g = SINGLE ->
      AddonGroup.max_selections g' = 1%Q)
  /\ (AddonGroup.type g = MANDATORY ->
      ~ (AddonGroup.min_selections g' == 0)%Q)
  /\ (AddonGroup.type g = OPTIONAL ->
      AddonGroup.min_selections g' = AddonGroup.min_selections g)
  /\ (AddonGroup.selection_type g = MULTIPLE ->
      AddonGroup.max_selections g' = AddonGroup.max_selections g)
  /\ AddonGroup.addons g' = AddonGroup.addons g
  /\ AddonGroup.type g' = AddonGroup.type g
  /\ AddonGroup.selection_type g' = AddonGroup.selection_type g
  /\ AddonGroupHook.pre_validate g' = Ok g'.
Proof.
  unfold AddonGroupHook.pre_validate. intros H.
  destruct (Js.Qltb _ _) eqn:E; [discriminate |].
  injection H as <-. simpl. apply Qltb_ge in E.
  split; [exact E |].
  split; [intros ->; reflexivity |].
  assert (Hmin : AddonGroup.type g = MANDATORY ->
                 ~ ((if Qeq_bool (AddonGroup.min_selections g) 0 then 1
                     else AddonGroup.min_selections g) == 0)%Q).
  { intros _. destruct (Qeq_bool (AddonGroup.min_selections g) 0) eqn:Eq.
    - intros H. discriminate H.
    - apply Qeq_bool_neq. exact Eq. }
  split; [intros Hm; rewrite Hm; apply Hmin; exact Hm |].
  split; [intros ->; reflexivity |].
  split; [intros ->; reflexivity |].
  split; [reflexivity | split; [reflexivity | split; [reflexivity |]]].
  destruct (AddonGroup.type g) eqn:Ety;
    destruct (AddonGroup.selection_type g) eqn:Esel; simpl in *.
  - rewrite (proj2 (Qltb_ge _ _) E). reflexivity.
  - rewrite (proj2 (Qltb_ge _ _) E). reflexivity.
  - specialize (Hmin eq_refl).
    assert (Hn : Qeq_bool
                   (if Qeq_bool (AddonGroup.min_selections g) 0 then 1
                    else AddonGroup.min_selections g) 0 = false).
    { apply Bool.not_true_is_false. intros En.
      apply Qeq_bool_iff in En. contradiction. }
    rewrite Hn. rewrite (proj2 (Qltb_ge _ _) E). reflexivity.
  - specialize (Hmin eq_refl).
    assert (Hn : Qeq_bool
                   (if Qeq_bool (AddonGroup.min_selections g) 0 then 1
                    else AddonGroup.min_selections g) 0 = false).
    { apply Bool.not_true_is_false. intros En.
      apply Qeq_bool_iff in En. contradiction. }
    rewrite Hn. rewrite (proj2 (Qltb_ge _ _) E). reflexivity.
Qed.

Lemma X11_hook_normalises_bounds_witness :
  AddonGroupHook.pre_validate Examples.sauces = Ok Examples.sauces
  /\ (AddonGroup.min_selections Examples.sauces
      <= AddonGroup.max_selections Examples.sauces)%Q.
Proof.
  split; [reflexivity |].
  exact (proj1 (X11_hook_normalises_bounds Examples.sauces Examples.sauces
                  eq_refl)).
Defined.

(** X12. A mandatory single-selection group that passed the hook accepts
    a selection exactly when one of the selected ids names an active
    addon of the group and no second one does. *)
Theorem X12_single_mandatory_takes_exactly_one (g g' : AddonGroup.t)
    (selectedAddonIds : list string) :
  AddonGroupHook.pre_validate g = Ok g' ->
  AddonGroup.type g = MANDATORY ->
  AddonGroup.selection_type g = SINGLE ->
  (0 <= AddonGroup.min_selections g)%Q ->
  AddonGroup.valid (AddonGroup.validateSelections g' selectedAddonIds) = true
  <-> List.length (AddonGroup.validSelections g' selectedAddonIds) = 1%nat.
Proof.
  unfold AddonGroupHook.pre_validate. intros H Hty Hsel Hmin.
  rewrite Hty, Hsel in H.
  destruct (Js.Qltb _ _) eqn:E; [discriminate |].
  injection H as <-. apply Qltb_ge in E.
  unfold AddonGroup.validateSelections.
  set (n := List.length (AddonGroup.validSelections _ selectedAddonIds)).
  simpl AddonGroup.min_selections. simpl AddonGroup.max_selections.
  set (m := if Qeq_bool (AddonGroup.min_selections g) 0 then 1%Q
            else AddonGroup.min_selections g) in *.
  assert (Hm : (0 < m)%Q).
  { subst m. destruct (Qeq_bool (AddonGroup.min_selections g) 0) eqn:Eq;
      [reflexivity |].
    apply Qeq_bool_neq in Eq.
    destruct (Qlt_le_dec 0 (AddonGroup.min_selections g)) as [L | L];
      [exact L |].
    exfalso. apply Eq. lra. }
  pose proof (inject_nat_le n 1) as Hle1.
  pose proof (inject_nat_le 1 n) as Hge1.
  pose proof (inject_nat_le n 0) as Hle0.
  change (inject_Z (Z.of_nat 1)) with 1%Q in *.
  change (inject_Z (Z.of_nat 0)) with 0%Q in *.
  destruct (Js.Qltb (inject_Z (Z.of_nat n)) m) eqn:E1.
  - apply Qltb_lt in E1. simpl. split; [discriminate |].
    intros Hn. rewrite Hn in E1. change (inject_Z (Z.of_nat 1)) with 1%Q in E1.
    lra.
  - apply Qltb_ge in E1.
    destruct (Js.Qltb 1 (inject_Z (Z.of_nat n))) eqn:E2.
    + apply Qltb_lt in E2. simpl. split; [discriminate |].
      intros Hn. rewrite Hn in E2.
      change (inject_Z (Z.of_nat 1)) with 1%Q in E2. lra.
    + apply Qltb_ge in E2. simpl. split; [intros _ | reflexivity].
      apply Hle1 in E2.
      assert (Hn0 : ~ (n <= 0)%nat).
      { intros Hn. apply Hle0 in Hn. lra. }
      lia.
Qed.

Lemma X12_single_mandatory_takes_exactly_one_witness :
  AddonGroup.valid (AddonGroup.validateSelections Examples.sauces ["a1"])
  = true
  <-> List.length (AddonGroup.validSelections Examples.sauces ["a1"]) = 1%nat.
Proof.
  apply (X12_single_mandatory_takes_exactly_one Examples.sauces Examples.sauces
           ["a1"] eq_refl eq_refl eq_refl).
  vm_compute. discriminate.
Defined.

Lemma includes_In (ids : list string) (id : string) :
  AddonGroup.includes ids id = true <-> In id ids.
Proof.
  unfold AddonGroup.includes. rewrite List.existsb_exists. split.
  - intros (x & Hx & E). apply String.eqb_eq in E. subst x. exact Hx.
  - intros H. exists id. split; [exact H | apply String.eqb_refl].
Qed.

Lemma calculateSelectedPrice_fold (g : AddonGroup.t) (ids : list string) :
  AddonGroup.calculateSelectedPrice g ids
  = List.fold_left (addon_step ids) (AddonGroup.addons g) 0%Q.
Proof. reflexivity. Qed.

Lemma addon_fold_ext (ids ids' : list string) (l : list Addon.t) (acc : Q) :
  (forall a, In a l -> Addon.is_active a = true ->
             AddonGroup.includes ids (Addon._id a)
             = AddonGroup.includes ids' (Addon._id a)) ->
  List.fold_left (addon_step ids) l acc
  = List.fold_left (addon_step ids') l acc.
Proof.
  revert acc. induction l as [| a l IH]; intros acc H; [reflexivity |].
  simpl.
  assert (E : addon_step ids acc a = addon_step ids' acc a).
  { unfold addon_step. destruct (Addon.is_active a) eqn:Ea.
    - rewrite (H a) by (auto; left; reflexivity). reflexivity.
    - rewrite !andb_false_r. reflexivity. }
  rewrite E. apply IH. intros b Hb. apply H. right. exact Hb.
Qed.

Lemma In_validSelections (g : AddonGroup.t) (ids : list string) (id : string) :
  In id (AddonGroup.validSelections g ids)
  <-> In id ids
      /\ exists a, In a (AddonGroup.addons g)
                   /\ Addon.is_active a = true /\ Addon._id a = id.
Proof.
  unfold AddonGroup.validSelections.
  rewrite List.filter_In, List.existsb_exists.
  split; intros [Hid (a & Ha & E)]; (split; [exact Hid |]); exists a.
  - apply List.filter_In in Ha as [Ha Hact]. apply String.eqb_eq in E.
    repeat split; assumption.
  - destruct E as [Hact E]. split.
    + apply List.filter_In. split; assumption.
    + apply String.eqb_eq. exact E.
Qed.

Lemma calculateSelectedPrice_valid (g : AddonGroup.t) (ids : list string) :
  AddonGroup.calculateSelectedPrice g ids
  = AddonGroup.calculateSelectedPrice g (AddonGroup.validSelections g ids).
Proof.
  rewrite !calculateSelectedPrice_fold. apply addon_fold_ext.
  intros a Ha Hact. apply Bool.eq_iff_eq_true.
  rewrite !includes_In, In_validSelections. split; [| tauto].
  intros Hin. split; [exact Hin |]. exists a. repeat split; assumption.
Qed.

(** X13. The price of a selection depends only on which active addons of
    the group the selected ids name: ids that name no active addon add
    nothing, and an id given twice is priced once, although
    [validateSelections] counts it twice. *)
Theorem X13_price_depends_on_named_addons (g : AddonGroup.t)
    (ids : list string) :
  AddonGroup.calculateSelectedPrice g ids
  = AddonGroup.calculateSelectedPrice g (AddonGroup.validSelections g ids)
  /\ (forall ids',
         (forall id, In id ids <-> In id ids') ->
         AddonGroup.calculateSelectedPrice g ids
         = AddonGroup.calculateSelectedPrice g ids')
  /\ (forall id,
         In id (AddonGroup.validSelections g ids) ->
         AddonGroup.calculateSelectedPrice g (id :: ids)
         = AddonGroup.calculateSelectedPrice g ids
         /\ List.length (AddonGroup.validSelections g (id :: ids))
            = S (List.length (AddonGroup.validSelections g ids))).
Proof.
  split; [| split].
  - apply calculateSelectedPrice_valid.
  - intros ids' Hsame. rewrite !calculateSelectedPrice_fold.
    apply addon_fold_ext. intros a _ _. apply Bool.eq_iff_eq_true.
    rewrite !includes_In. apply Hsame.
  - intros id Hid. split.
    + rewrite !calculateSelectedPrice_fold. apply addon_fold_ext.
      intros a _ _. apply Bool.eq_iff_eq_true. rewrite !includes_In.
      apply In_validSelections in Hid as [Hid _]. simpl. split; [| auto].
      intros [<- | H]; assumption.
    + pose proof Hid as Hid'.
      unfold AddonGroup.validSelections in Hid' |- *.
      apply List.filter_In in Hid' as [_ Hp]. simpl. rewrite Hp. reflexivity.
Qed.

(** X14. A selection none of whose ids names an active addon of the group
    is priced 0; with [max_selections >= 0] it is accepted exactly when
    [min_selections <= 0], and otherwise refused with the "Minimum ...
    required" error. *)
Theorem X14_selection_without_valid_id (g : AddonGroup.t)
    (ids : list string) :
  AddonGroup.validSelections g ids = [] ->
  (0 <= AddonGroup.max_selections g)%Q ->
  AddonGroup.calculateSelectedPrice g ids = 0%Q
  /\ (AddonGroup.valid (AddonGroup.validateSelections g ids) = true
      <-> (AddonGroup.min_selections g <= 0)%Q)
  /\ (AddonGroup.valid (AddonGroup.validateSelections g ids) = false ->
      AddonGroup.error (AddonGroup.validateSelections g ids)
      = Some (MinimumRequired (AddonGroup.min_selections g)
                (AddonGroup.name g))).
Proof.
  intros Hnone Hmax. split; [| split].
  - rewrite calculateSelectedPrice_valid, Hnone, calculateSelectedPrice_fold.
    apply addon_fold_skip. reflexivity.
  - unfold AddonGroup.validateSelections. rewrite Hnone.
    change (inject_Z (Z.of_nat (List.length (@nil string)))) with 0%Q.
    destruct (Js.Qltb 0 (AddonGroup.min_selections g)) eqn:E1; simpl.
    + apply Qltb_lt in E1. split; [discriminate | lra].
    + apply Qltb_ge in E1.
      rewrite (proj2 (Qltb_ge _ _) Hmax). simpl. tauto.
  - unfold AddonGroup.validateSelections. rewrite Hnone.
    change (inject_Z (Z.of_nat (List.length (@nil string)))) with 0%Q.
    destruct (Js.Qltb 0 (AddonGroup.min_selections g)) eqn:E1; simpl;
      [reflexivity |].
    rewrite (proj2 (Qltb_ge _ _) Hmax). discriminate.
Qed.

Lemma X14_selection_without_valid_id_witness :
  AddonGroup.calculateSelectedPrice Examples.sauces ["a9"] = 0%Q
  /\ AddonGroup.error (AddonGroup.validateSelections Examples.sauces ["a9"])
     = Some (MinimumRequired 1 "Sauce").
Proof.
  refine ((fun H => conj (proj1 H) (proj2 (proj2 H) eq_refl))
            (X14_selection_without_valid_id Examples.sauces ["a9"]
               eq_refl _)).
  vm_compute. discriminate.
Defined.

(** X15. For a group attached to an active, priced item, the add-on price
    endpoint and the quote agree on one selection of that group: when
    [calculateAddonPrice] returns a price, the quote succeeds with that
    add-ons total and one detail of the same group name, addons and total;
    when it refuses the selection, the quote is refused with the same
    status and message. *)
Theorem X15_addon_price_agrees_with_quote (db : Db) (id : string)
    (item : Item.t AddonGroup.t) (sel : ItemService.AddonSelection)
    (g : AddonGroup.t) (quantity : option Q) (datetime : Js.Date) :
  ItemService.findById_populated db id = Some item ->
  Item.is_active item = true ->
  PricingConfig.type (Item.pricing item) <> None ->
  ItemService.find_group (Item.addon_groups item) sel = Some g ->
  AddonGroups db !! ItemService.addon_group sel = Some g ->
  (forall p,
      AddonService.calculateAddonPrice db (ItemService.addon_group sel)
        (ItemService.addon_ids sel) = Ok p ->
      exists q,
        ItemService.calculatePrice db id
          (ItemService.mkOptions quantity datetime (Some [sel])) = Ok q
        /\ (ItemService.addons_total q == AddonService.total_price p)%Q
        /\ ItemService.addons_details q
           = [ {| ItemService.group_name := AddonService.group_name p;
                  ItemService.selected_addons :=
                    List.map
                      (fun i => (AddonService.name i, AddonService.price i))
                      (AddonService.selected_addons p);
                  ItemService.total_price := AddonService.total_price p |} ])
  /\ (forall s m c,
         AddonService.calculateAddonPrice db (ItemService.addon_group sel)
           (ItemService.addon_ids sel) = Throw s m c ->
         ItemService.calculatePrice db id
           (ItemService.mkOptions quantity datetime (Some [sel]))
         = Throw s m c).
Proof.
  intros Hitem Hact Hty Hfind Hg.
  unfold AddonService.calculateAddonPrice, ItemService.calculatePrice.
  rewrite Hg, Hitem, Hact. simpl.
  assert (Hr : exists r,
             PricingEngine.calculatePrice (Item.pricing item)
               (default 1%Q quantity) datetime = Ok r).
  { unfold PricingEngine.calculatePrice.
    destruct (PricingConfig.type (Item.pricing item)) as [[] |];
      [eexists; reflexivity .. | congruence]. }
  destruct Hr as [r ->]. rewrite Hfind.
  destruct (AddonGroup.valid (AddonGroup.validateSelections g
                                (ItemService.addon_ids sel))); simpl.
  - split; [| discriminate].
    intros p [= <-]. eexists. split; [reflexivity |]. simpl.
    split; [lra |]. rewrite List.map_map. reflexivity.
  - split; [discriminate |]. intros s m c [= <- <- <-]. reflexivity.
Qed.

Lemma X15_addon_price_agrees_with_quote_witness :
  exists p q,
    AddonService.calculateAddonPrice Examples.menu "g1" ["a1"] = Ok p
    /\ ItemService.calculatePrice Examples.menu "i1" Examples.fries_order
       = Ok q
    /\ (ItemService.addons_total q == AddonService.total_price p)%Q.
Proof.
  destruct (AddonService.calculateAddonPrice Examples.menu "g1" ["a1"])
    as [p | |] eqn:E;
    [| vm_compute in E; discriminate | vm_compute in E; discriminate].
  destruct (proj1 (X15_addon_price_agrees_with_quote Examples.menu "i1"
                     (ItemService.populate Examples.menu Examples.fries)
                     {| ItemService.addon_group := "g1";
                        ItemService.addon_ids := ["a1"] |}
                     Examples.sauces (Some 2%Q) Examples.noon
                     ltac:(vm_compute; reflexivity) eq_refl
                     ltac:(discriminate) ltac:(vm_compute; reflexivity)
                     ltac:(vm_compute; reflexivity)) p E)
    as (q & Hq & Htotal & _).
  exists p, q. split; [reflexivity |]. split; [exact Hq | exact Htotal].
Defined.

(* ================================================================== *)
(** * More on bookings *)
(* ================================================================== *)

(** X16. The overlap test does not depend on the order of its two
    intervals; an interval that starts when another ends does not overlap
    it; and a non-empty interval that lies within a slot overlaps that
    slot, so a booking accepted into a slot is one that counts against
    it. *)
Theorem X16_overlap_facts :
  (forall start1 end1 start2 end2,
      BookingModel.isTimeOverlapping start1 end1 start2 end2
      = BookingModel.isTimeOverlapping start2 end2 start1 end1)
  /\ (forall start1 end1 end2,
         BookingModel.isTimeOverlapping start1 end1 end1 end2 = false)
  /\ (forall startTime endTime slotStart slotEnd st et,
         minutes_are startTime st -> minutes_are endTime et -> st < et ->
         BookingService.isTimeWithinSlot startTime endTime slotStart slotEnd
         = true ->
         BookingModel.isTimeOverlapping startTime endTime slotStart slotEnd
         = true).
Proof.
  split; [| split].
  - intros start1 end1 start2 end2. unfold BookingModel.isTimeOverlapping.
    destruct (Js.toMinutes start1), (Js.toMinutes end1),
      (Js.toMinutes start2), (Js.toMinutes end2); simpl;
      rewrite ?andb_false_r; try reflexivity.
    rewrite !Z.gtb_ltb. apply andb_comm.
  - intros start1 end1 end2. unfold BookingModel.isTimeOverlapping.
    destruct (Js.toMinutes start1), (Js.toMinutes end1), (Js.toMinutes end2);
      simpl; rewrite ?andb_false_r; try reflexivity.
    rewrite Z.gtb_ltb, Z.ltb_irrefl. apply andb_false_r.
  - intros startTime endTime slotStart slotEnd st et Hst Het Hlt.
    unfold BookingService.isTimeWithinSlot, BookingModel.isTimeOverlapping.
    unfold minutes_are in Hst, Het. rewrite Hst, Het.
    destruct (Js.toMinutes slotStart) as [ss |],
      (Js.toMinutes slotEnd) as [se |]; simpl;
      rewrite ?andb_false_r; try discriminate.
    rewrite !andb_true_iff, Z.geb_le, Z.leb_le, Z.ltb_lt, Z.gtb_lt. lia.
Qed.

Lemma findById_id (db : Db) (id : string) (b : Booking.t) :
  BookingModel.findById db id = Some b -> Booking._id b = id.
Proof.
  unfold BookingModel.findById. intros H.
  apply List.find_some in H as [_ H]. apply String.eqb_eq. exact H.
Qed.

Lemma findById_save (db : Db) (id : string) (b b' : Booking.t) :
  BookingModel.findById db id = Some b ->
  Booking._id b' = id ->
  BookingModel.findById (BookingModel.save db b') id = Some b'.
Proof.
  unfold BookingModel.findById, BookingModel.save. simpl.
  intros H Hid. rewrite Hid.
  induction (Bookings db) as [| x l IH]; [discriminate |].
  simpl in *. destruct (String.eqb (Booking._id x) id) eqn:E.
  - simpl. rewrite Hid, String.eqb_refl. reflexivity.
  - simpl. rewrite E. apply IH. exact H.
Qed.

Lemma filter_save_cancelled (query : Booking.t -> bool) (b' : Booking.t)
    (l : list Booking.t) :
  query b' = false ->
  List.filter query
    (List.map (fun b => if String.eqb (Booking._id b) (Booking._id b')
                        then b' else b) l)
  = List.filter (fun b => negb (String.eqb (Booking._id b) (Booking._id b')))
      (List.filter query l).
Proof.
  intros Hq. induction l as [| x l IH]; [reflexivity |].
  simpl. destruct (String.eqb (Booking._id x) (Booking._id b')) eqn:E.
  - rewrite Hq. destruct (query x); simpl; rewrite ?E; exact IH.
  - destruct (query x); simpl; rewrite ?E; simpl; rewrite IH; reflexivity.
Qed.

(** X17. Cancelling a booking frees its interval: after a successful
    [cancel], every conflict query returns what it returned before, less
    the cancelled booking; the booking is stored as cancelled, and
    cancelling it again is refused with "Booking is already cancelled". *)
Theorem X17_cancel_frees_the_interval (validates : Booking.t -> bool)
    (db db' : Db) (id : string) (b' : Booking.t) :
  BookingServiceExtra.cancel validates db id = Ok (db', b') ->
  Booking.status b' = CANCELLED
  /\ BookingModel.findById db' id = Some b'
  /\ (forall itemId bookingDate startTime endTime excludeBookingId,
         BookingModel.findConflicts db' itemId bookingDate startTime endTime
           excludeBookingId
         = List.filter (fun b => negb (String.eqb (Booking._id b) id))
             (BookingModel.findConflicts db itemId bookingDate startTime
                endTime excludeBookingId))
  /\ BookingServiceExtra.cancel validates db' id
     = Throw 400 (Msg "Booking is already cancelled") [].
Proof.
  unfold BookingServiceExtra.cancel at 1. intros H.
  destruct (BookingModel.findById db id) as [b |] eqn:Hfind; [| discriminate].
  pose proof (findById_id db id b Hfind) as Hid.
  destruct (Booking.status b) eqn:Hst; try discriminate;
    (destruct (validates (BookingStatics.cancelled b)); [| discriminate];
     injection H as <- <-;
     assert (Hfind' : BookingModel.findById
                        (BookingModel.save db (BookingStatics.cancelled b)) id
                      = Some (BookingStatics.cancelled b))
       by (apply (findById_save db id b); [exact Hfind | exact Hid]);
     split; [reflexivity |];
     split; [exact Hfind' |];
     split;
     [ intros itemId bookingDate startTime endTime excludeBookingId;
       unfold BookingModel.findConflicts, BookingModel.save; simpl;
       rewrite <- Hid;
       apply (filter_save_cancelled
                (BookingModel.conflict_query itemId bookingDate startTime
                   endTime excludeBookingId) (BookingStatics.cancelled b));
       unfold BookingModel.conflict_query; simpl;
       rewrite !andb_false_r; reflexivity
     | unfold BookingServiceExtra.cancel; rewrite Hfind'; reflexivity ]).
Qed.

Lemma X17_cancel_frees_the_interval_witness :
  exists db' b',
    BookingServiceExtra.cancel BookingModel.schema_validates
      Examples.spa_db "b1" = Ok (db', b')
    /\ Booking.status b' = CANCELLED
    /\ BookingModel.findConflicts db' "i3" Examples.monday "09:30" "10:30" None
       = []
    /\ BookingServiceExtra.cancel BookingModel.schema_validates db' "b1"
       = Throw 400 (Msg "Booking is already cancelled") [].
Proof.
  destruct (BookingServiceExtra.cancel BookingModel.schema_validates
              Examples.spa_db "b1") as [[db' b'] | |] eqn:E;
    [| vm_compute in E; discriminate | vm_compute in E; discriminate].
  destruct (X17_cancel_frees_the_interval BookingModel.schema_validates
              Examples.spa_db db' "b1" b' E) as (Hs & _ & Hc & Hagain).
  exists db', b'. split; [reflexivity |]. split; [exact Hs |].
  split; [| exact Hagain].
  rewrite Hc. vm_compute. reflexivity.
Defined.

(** X18. A cancelled booking is final: [update], [cancel] and [complete]
    each refuse it with status 400.  A completed booking can be neither
    updated nor cancelled. *)
Theorem X18_closed_bookings_stay_closed
    (validates : Booking.t -> bool)
    (db : Db) (id : string) (b : Booking.t)
    (data : BookingService.UpdateData.t) :
  BookingModel.findById db id = Some b ->
  (Booking.status b = CANCELLED ->
   BookingService.update validates db id data
   = Throw 400 (Msg "Cannot update cancelled booking") []
   /\ BookingServiceExtra.cancel validates db id
      = Throw 400 (Msg "Booking is already cancelled") []
   /\ BookingServiceExtra.complete validates db id
      = Throw 400 (Msg "Cannot complete a cancelled booking") [])
  /\ (Booking.status b = COMPLETED ->
      BookingService.update validates db id data
      = Throw 400 (Msg "Cannot update completed booking") []
      /\ BookingServiceExtra.cancel validates db id
         = Throw 400 (Msg "Cannot cancel a completed booking") []).
Proof.
  intros Hfind.
  unfold BookingService.update, BookingServiceExtra.cancel,
    BookingServiceExtra.complete.
  rewrite Hfind.
  split; intros ->; repeat split; reflexivity.
Qed.

Lemma X18_closed_bookings_stay_closed_witness :
  BookingService.update BookingModel.schema_validates
    Examples.closed_db "b1" Examples.move_to_evening
  = Throw 400 (Msg "Cannot update cancelled booking") []
  /\ BookingServiceExtra.cancel BookingModel.schema_validates
       Examples.closed_db "b1"
     = Throw 400 (Msg "Booking is already cancelled") []
  /\ BookingServiceExtra.complete BookingModel.schema_validates
       Examples.closed_db "b1"
     = Throw 400 (Msg "Cannot complete a cancelled booking") [].
Proof.
  apply (proj1 (X18_closed_bookings_stay_closed BookingModel.schema_validates Examples.closed_db "b1"
                  (BookingStatics.cancelled Examples.morning)
                  Examples.move_to_evening eq_refl)).
  reflexivity.
Defined.

Lemma checkAvailability_populated (db : Db) (doc : Item.t string)
    (date : Js.Date) (startTime endTime : string) :
  BookingService.checkAvailability (BookingServiceExtra.populate_groups db doc)
    date startTime endTime
  = BookingService.checkAvailability doc date startTime endTime.
Proof. reflexivity. Qed.

(** What a successful [create] went through. *)
Lemma create_ok (validates : Booking.t -> bool) (db db' : Db) (new_id : string)
    (data : BookingServiceExtra.CreateData.t) (b : Booking.t) :
  BookingServiceExtra.create validates db new_id data = Ok (db', b) ->
  exists doc q,
    Items db !! BookingServiceExtra.CreateData.item data = Some doc
    /\ Item.is_bookable doc = true
    /\ Item.is_active doc = true
    /\ (forall reason,
           BookingService.checkAvailability doc
             (BookingServiceExtra.CreateData.booking_date data)
             (BookingServiceExtra.CreateData.start_time data)
             (BookingServiceExtra.CreateData.end_time data)
           <> BookingService.Unavailable reason)
    /\ BookingModel.findConflicts db
         (BookingServiceExtra.CreateData.item data)
         (BookingServiceExtra.CreateData.booking_date data)
         (BookingServiceExtra.CreateData.start_time data)
         (BookingServiceExtra.CreateData.end_time data) None = []
    /\ ItemService.calculatePrice_at db
         (BookingServiceExtra.CreateData.item data)
         (Some (Js.num_or (BookingServiceExtra.CreateData.quantity data) 1))
         (Js.Date_of_concat (BookingServiceExtra.CreateData.booking_date data)
            (BookingServiceExtra.CreateData.start_time data))
         (Some (BookingServiceExtra.addonsForPricing data)) = Ok q
    /\ db' = BookingServiceExtra.insert_booking db b
    /\ b = {| Booking._id := new_id;
              Booking.item := BookingServiceExtra.CreateData.item data;
              Booking.booking_date :=
                BookingServiceExtra.CreateData.booking_date data;
              Booking.start_time :=
                BookingServiceExtra.CreateData.start_time data;
              Booking.end_time := BookingServiceExtra.CreateData.end_time data;
              Booking.quantity :=
                default 1%Q (BookingServiceExtra.CreateData.quantity data);
              Booking.selected_addons :=
                BookingServiceExtra.selectedAddonsWithPrices
                  (BookingServiceExtra.populate_groups db doc) q data;
              Booking.price_breakdown := Some (BookingService.breakdown_of q);
              Booking.status := CONFIRMED |}.
Proof.
  unfold BookingServiceExtra.create. intros H.
  destruct (Items db !! _) as [doc |] eqn:Hdoc; [| discriminate].
  simpl in H.
  destruct (Item.is_bookable doc) eqn:Hb; simpl in H; [| discriminate].
  destruct (Item.is_active doc) eqn:Ha; simpl in H; [| discriminate].
  rewrite checkAvailability_populated in H.
  destruct (BookingService.checkAvailability doc _ _ _) as [slot | reason]
    eqn:Hav; [| discriminate].
  destruct (BookingModel.findConflicts db _ _ _ _ None) as [| c cs] eqn:Hc;
    [| discriminate].
  destruct (ItemService.calculatePrice_at db _ _ _ _) as [q | |] eqn:Hq;
    [| discriminate | discriminate].
  destruct (validates _); [| discriminate].
  injection H as <- <-.
  exists doc, q. repeat split; try assumption; try reflexivity.
  intros reason. rewrite Hav. discriminate.
Qed.

(** What the pricing part of a quote is, at any [datetime]. *)
Lemma calculatePrice_at_ok (db : Db) (id : string) (quantity : option Q)
    (datetime : Js.DateObject)
    (addons : option (list ItemService.AddonSelection))
    (q : ItemService.Quote) :
  ItemService.calculatePrice_at db id quantity datetime addons = Ok q ->
  exists doc r,
    Items db !! id = Some doc
    /\ PricingEngine.calculatePrice_at (Item.pricing doc)
         (default 1%Q quantity) datetime = Ok r
    /\ ItemService.pricing_rule_applied (ItemService.pricing_details q)
       = PricingEngine.pricing_rule_applied r
    /\ ItemService.unit_price (ItemService.pricing_details q)
       = PricingEngine.unit_price r.
Proof.
  unfold ItemService.calculatePrice_at, ItemService.findById_populated.
  intros H.
  destruct (Items db !! id) as [doc |]; [| discriminate].
  destruct (negb (Item.is_active _)); [discriminate |].
  simpl in H.
  destruct (PricingEngine.calculatePrice_at _ _ _) as [r | |] eqn:Hr;
    [| discriminate | discriminate].
  destruct (ItemService.addons_loop _ _ _ _) as [[aT aD] | |];
    [| discriminate | discriminate].
  injection H as <-. exists doc, r. repeat split. exact Hr.
Qed.

(** X19. A booking is created only for an item that is bookable and
    active, at a time [checkAvailability] accepts, with no conflicting
    booking stored.  The booking is stored last, confirmed, under the new
    id, with a price on every selected add-on and with the breakdown of
    the quote for its item, quantity and add-ons.  The [datetime] handed
    to that quote is Invalid Date, so a dynamically priced item is booked
    at its default price whatever its start time. *)
Theorem X19_create_checks_and_stores
    (validates : Booking.t -> bool) (db db' : Db) (new_id : string)
    (data : BookingServiceExtra.CreateData.t) (b : Booking.t) :
  BookingServiceExtra.create validates db new_id data = Ok (db', b) ->
  (exists doc,
      Items db !! BookingServiceExtra.CreateData.item data = Some doc
      /\ Item.is_bookable doc = true
      /\ Item.is_active doc = true
      /\ exists slot,
           BookingService.checkAvailability doc
             (BookingServiceExtra.CreateData.booking_date data)
             (BookingServiceExtra.CreateData.start_time data)
             (BookingServiceExtra.CreateData.end_time data)
           = BookingService.Available slot)
  /\ BookingModel.findConflicts db
       (BookingServiceExtra.CreateData.item data)
       (BookingServiceExtra.CreateData.booking_date data)
       (BookingServiceExtra.CreateData.start_time data)
       (BookingServiceExtra.CreateData.end_time data) None = []
  /\ Bookings db' = Bookings db ++ [b]
  /\ Booking._id b = new_id
  /\ Booking.status b = CONFIRMED
  /\ (exists q,
        ItemService.calculatePrice_at db (Booking.item b)
          (Some (Js.num_or (BookingServiceExtra.CreateData.quantity data) 1))
          (Js.Date_of_concat (Booking.booking_date b) (Booking.start_time b))
          (Some (BookingServiceExtra.addonsForPricing data)) = Ok q
        /\ Booking.price_breakdown b = Some (BookingService.breakdown_of q)
        /\ forall doc,
             Items db !! Booking.item b = Some doc ->
             PricingConfig.type (Item.pricing doc) = Some DYNAMIC ->
             PriceBreakdown.pricing_rule_applied (BookingService.breakdown_of q)
             = PricingEngine.Label "Default Price"
             /\ ItemService.unit_price (ItemService.pricing_details q)
                = Js.num_or (PricingConfig.default_price (Item.pricing doc)) 0)
  /\ Forall (fun a => exists p, SelectedAddon.price a = Some p)
       (Booking.selected_addons b).
Proof.
  intros H.
  destruct (create_ok validates db db' new_id data b H)
    as (doc & q & Hdoc & Hb & Ha & Hav & Hc & Hq & -> & ->).
  split; [| split; [exact Hc | split; [reflexivity |]]].
  - exists doc. repeat split; try assumption.
    destruct (BookingService.checkAvailability doc _ _ _) as [slot | reason];
      [exists slot; reflexivity | destruct (Hav reason eq_refl)].
  - split; [reflexivity | split; [reflexivity | split]].
    + exists q. split; [exact Hq |]. split; [reflexivity |].
      simpl. intros doc' Hdoc' Hdyn.
      destruct (calculatePrice_at_ok _ _ _ _ _ _ Hq)
        as (doc'' & r & Hd & Hr & Hrule & Hunit).
      rewrite Hdoc' in Hd. injection Hd as <-.
      unfold PricingEngine.calculatePrice_at in Hr. rewrite Hdyn in Hr.
      unfold Js.Date_of_concat in Hr.
      rewrite calculateDynamicPrice_at_invalid in Hr.
      injection Hr as <-. rewrite Hrule, Hunit. split; reflexivity.
    + simpl. unfold BookingServiceExtra.selectedAddonsWithPrices.
      apply List.Forall_forall. intros a Ha'.
      apply List.in_map_iff in Ha' as (x & <- & _). eexists. reflexivity.
Qed.

Lemma X19_create_checks_and_stores_witness :
  exists db' b pb,
    BookingServiceExtra.create BookingModel.schema_validates
      Examples.lounge_db "b1" Examples.evening_session = Ok (db', b)
    /\ Bookings db' = Bookings Examples.lounge_db ++ [b]
    /\ Booking.status b = CONFIRMED
    /\ Booking.start_time b = "19:00"%string
    /\ Booking.price_breakdown b = Some pb
    /\ PriceBreakdown.pricing_rule_applied pb
       = PricingEngine.Label "Default Price"
    /\ (PriceBreakdown.final_price pb == 105)%Q.
Proof.
  destruct (BookingServiceExtra.create BookingModel.schema_validates
              Examples.lounge_db "b1" Examples.evening_session)
    as [[db' b] | |] eqn:E;
    [| vm_compute in E; discriminate | vm_compute in E; discriminate].
  destruct (X19_create_checks_and_stores BookingModel.schema_validates
              Examples.lounge_db db' "b1" Examples.evening_session b E)
    as (_ & _ & Hstore & _ & Hstatus & (q & Hq & Hpb & Hdyn) & _).
  destruct (Hdyn Examples.lounge) as [Hrule _].
  - clear - E. vm_compute in E. injection E as _ <-. vm_compute. reflexivity.
  - reflexivity.
  - exists db', b, (BookingService.breakdown_of q).
    split; [reflexivity |]. split; [exact Hstore |]. split; [exact Hstatus |].
    split; [clear - E; vm_compute in E; injection E as _ <-; reflexivity |].
    split; [exact Hpb |]. split; [exact Hrule |].
    clear - E Hq. vm_compute in E. injection E as _ <-.
    vm_compute in Hq. injection Hq as <-. reflexivity.
Defined.

(** X20. No second booking over a stored one, for times written in
    full.  Take two requests for the same item on the same date (the
    same instant), the times of both being zero-padded "HH:MM" strings
    with the start before the end.  Once [create] has stored a booking
    for the first, the conflict query for the interval of the second
    returns that booking whenever the two intervals overlap, and
    [create] for the second does not succeed, under any new id.  The
    spelling is a real condition: see [unpadded_booking_is_not_seen]. *)
Theorem X20_no_second_booking_on_an_interval
    (validates : Booking.t -> bool) (db db' : Db) (id1 : string)
    (data1 data2 : BookingServiceExtra.CreateData.t) (b1 : Booking.t)
    (s1 e1 s2 e2 : Z) :
  BookingServiceExtra.create validates db id1 data1 = Ok (db', b1) ->
  BookingServiceExtra.CreateData.item data2
  = BookingServiceExtra.CreateData.item data1 ->
  Js.getTime (BookingServiceExtra.CreateData.booking_date data2)
  = Js.getTime (BookingServiceExtra.CreateData.booking_date data1) ->
  is_HHMM (BookingServiceExtra.CreateData.start_time data1) = true ->
  is_HHMM (BookingServiceExtra.CreateData.end_time data1) = true ->
  is_HHMM (BookingServiceExtra.CreateData.start_time data2) = true ->
  is_HHMM (BookingServiceExtra.CreateData.end_time data2) = true ->
  minutes_are (BookingServiceExtra.CreateData.start_time data1) s1 ->
  minutes_are (BookingServiceExtra.CreateData.end_time data1) e1 ->
  minutes_are (BookingServiceExtra.CreateData.start_time data2) s2 ->
  minutes_are (BookingServiceExtra.CreateData.end_time data2) e2 ->
  s1 < e1 -> s2 < e2 -> overlap s1 e1 s2 e2 ->
  In b1 (BookingModel.findConflicts db'
           (BookingServiceExtra.CreateData.item data2)
           (BookingServiceExtra.CreateData.booking_date data2)
           (BookingServiceExtra.CreateData.start_time data2)
           (BookingServiceExtra.CreateData.end_time data2) None)
  /\ forall id2 result,
       BookingServiceExtra.create validates db' id2 data2
       <> Ok result.
Proof.
  intros H Hitem Hdate Hs1 He1 Hs2 He2 Ms1 Me1 Ms2 Me2 L1 L2 [O1 O2].
  destruct (create_ok validates db db' id1 data1 b1 H)
    as (doc & q & _ & _ & _ & _ & _ & _ & -> & ->).
  set (b1 := {| Booking._id := id1 |}) in *.
  assert (Hin : In b1 (BookingModel.findConflicts
                         (BookingServiceExtra.insert_booking db b1)
                         (BookingServiceExtra.CreateData.item data2)
                         (BookingServiceExtra.CreateData.booking_date data2)
                         (BookingServiceExtra.CreateData.start_time data2)
                         (BookingServiceExtra.CreateData.end_time data2) None)).
  { unfold BookingModel.findConflicts. apply List.filter_In. split.
    - simpl. apply List.in_or_app. right. left. reflexivity.
    - unfold BookingModel.conflict_query.
      rewrite (or_query_overlap b1 _ _ s1 e1 s2 e2
                 Hs1 He1 Hs2 He2 Ms1 Me1 Ms2 Me2 L1 L2).
      simpl. rewrite Hitem, String.eqb_refl. unfold Js.Date_eqb.
      rewrite Hdate, Z.eqb_refl. simpl.
      rewrite andb_true_r, andb_true_iff, Z.ltb_lt, Z.gtb_lt. lia. }
  split; [exact Hin |].
  intros id2 result Hcreate.
  destruct result as [db2 b2].
  destruct (create_ok validates _ db2 id2 data2 b2 Hcreate)
    as (_ & _ & _ & _ & _ & _ & Hnone & _).
  rewrite Hnone in Hin. destruct Hin.
Qed.

Lemma X20_no_second_booking_on_an_interval_witness :
  exists db' b,
    BookingServiceExtra.create BookingModel.schema_validates Examples.spa_db "b2"
      Examples.second_session = Ok (db', b)
    /\ forall id2 result,
         BookingServiceExtra.create BookingModel.schema_validates db' id2 Examples.clashing_session
         <> Ok result.
Proof.
  destruct (BookingServiceExtra.create BookingModel.schema_validates Examples.spa_db "b2"
              Examples.second_session) as [[db' b] | |] eqn:E;
    [| vm_compute in E; discriminate | vm_compute in E; discriminate].
  exists db', b. split; [reflexivity |].
  refine (proj2 (X20_no_second_booking_on_an_interval BookingModel.schema_validates Examples.spa_db db' "b2"
                   Examples.second_session Examples.clashing_session b
                   600 660 630 690 E eq_refl eq_refl eq_refl eq_refl eq_refl
                   eq_refl eq_refl eq_refl eq_refl eq_refl _ _ _)).
  - lia.
  - lia.
  - unfold overlap. lia.
Defined.

(** Without the leading zero the conflict query, which compares strings,
    loses the booking: after "9:00"-"9:30" is booked, the query for
    "09:00"-"10:00" returns nothing although the two intervals overlap,
    and a second booking over the first is created. *)
Example unpadded_booking_is_not_seen :
  exists db1 b1 db2 b2,
    BookingServiceExtra.create BookingModel.schema_validates
      Examples.closed_db "b2" Examples.early_session = Ok (db1, b1)
    /\ time_pattern (Booking.start_time b1) = true
    /\ BookingModel.isTimeOverlapping
         (Booking.start_time b1) (Booking.end_time b1) "09:00" "10:00" = true
    /\ BookingModel.findConflicts db1 "i3" Examples.monday "09:00" "10:00" None
       = []
    /\ BookingServiceExtra.create BookingModel.schema_validates
         db1 "b3" Examples.first_hour = Ok (db2, b2)
    /\ List.map Booking.start_time
         (List.filter
            (fun b => negb (BOOKING_STATUS_eqb (Booking.status b) CANCELLED))
            (Bookings db2))
       = ["9:00"%string; "09:00"%string].
Proof.
  eexists _, _, _, _.
  split; [vm_compute; reflexivity |].
  split; [reflexivity |].
  split; [reflexivity |].
  split; [reflexivity |].
  split; [vm_compute; reflexivity |].
  reflexivity.
Qed.

(* ================================================================== *)
(** * Errors of the quote and of an update *)
(* ================================================================== *)

Lemma addons_loop_throw (groups : list AddonGroup.t)
    (addons : list ItemService.AddonSelection) (total : Q)
    (details : list ItemService.AddonDetail) (s : Z) (m : Message)
    (c : list ConflictInfo.t) :
  ItemService.addons_loop groups addons total details = Throw s m c ->
  s = 400 /\ c = [].
Proof.
  revert total details.
  induction addons as [| sel rest IH]; intros total details H; simpl in H;
    [discriminate |].
  destruct (ItemService.find_group groups sel) as [g |]; [| exact (IH _ _ H)].
  destruct (negb (AddonGroup.valid _)); [| exact (IH _ _ H)].
  injection H as <- _ <-. split; reflexivity.
Qed.

Lemma quote_throw (db : Db) (id : string) (options : ItemService.Options)
    (s : Z) (m : Message) (c : list ConflictInfo.t) :
  ItemService.calculatePrice db id options = Throw s m c ->
  c = []
  /\ ((s = 404 /\ Items db !! id = None)
      \/ (s = 400 /\ exists doc, Items db !! id = Some doc)).
Proof.
  unfold ItemService.calculatePrice, ItemService.findById_populated.
  destruct (Items db !! id) as [doc |]; intros H.
  - destruct (negb (Item.is_active _)).
    + injection H as <- _ <-. split; [reflexivity |]. right.
      split; [reflexivity | exists doc; reflexivity].
    + destruct (PricingEngine.calculatePrice _ _ _) as [r | s' m' c' | m']
        eqn:Hp; [| | discriminate].
      * destruct (ItemService.addons_loop _ _ _ _) as [[t d] | s' m' c' | m']
          eqn:Hl; [discriminate | | discriminate].
        injection H as -> _ ->.
        apply addons_loop_throw in Hl as [-> ->].
        split; [reflexivity |]. right.
        split; [reflexivity | exists doc; reflexivity].
      * unfold PricingEngine.calculatePrice in Hp.
        destruct (PricingConfig.type _) as [[] |]; discriminate.
  - injection H as <- _ <-. split; [reflexivity |]. left.
    split; reflexivity.
Qed.

Lemma quote_at_throw (db : Db) (id : string) (quantity : option Q)
    (datetime : Js.DateObject)
    (addons : option (list ItemService.AddonSelection))
    (s : Z) (m : Message) (c : list ConflictInfo.t) :
  ItemService.calculatePrice_at db id quantity datetime addons = Throw s m c ->
  c = [] /\ (s = 404 \/ s = 400).
Proof.
  unfold ItemService.calculatePrice_at, ItemService.findById_populated.
  destruct (Items db !! id) as [doc |]; intros H.
  - destruct (negb (Item.is_active _)).
    + injection H as <- _ <-. split; [reflexivity | right; reflexivity].
    + destruct (PricingEngine.calculatePrice_at _ _ _) as [r | s' m' c' | m']
        eqn:Hp; [| | discriminate].
      * destruct (ItemService.addons_loop _ _ _ _) as [[t d] | s' m' c' | m']
          eqn:Hl; [discriminate | | discriminate].
        injection H as -> _ ->.
        apply addons_loop_throw in Hl as [-> ->].
        split; [reflexivity | right; reflexivity].
      * unfold PricingEngine.calculatePrice_at in Hp.
        destruct (PricingConfig.type _) as [[] |]; discriminate.
  - injection H as <- _ <-. split; [reflexivity | left; reflexivity].
Qed.

(** X21. The errors of a quote: it answers 404 "Item not found" exactly
    when no item is stored under the id; every other status it throws is
    400; and what it throws never carries a conflict list. *)
Theorem X21_quote_errors (db : Db) (id : string)
    (options : ItemService.Options) :
  (Items db !! id = None <->
   ItemService.calculatePrice db id options
   = Throw 404 (Msg "Item not found") [])
  /\ forall s m c,
       ItemService.calculatePrice db id options = Throw s m c ->
       c = [] /\ (s = 404 \/ s = 400)
       /\ (s = 404 <-> Items db !! id = None).
Proof.
  split.
  - split.
    + intros H. unfold ItemService.calculatePrice,
        ItemService.findById_populated. rewrite H. reflexivity.
    + intros H. apply quote_throw in H as [_ [[_ H] | [H _]]];
        [exact H | discriminate].
  - intros s m c H. apply quote_throw in H as [-> [[-> H] | [-> [doc H]]]].
    + split; [reflexivity |]. split; [left; reflexivity |].
      split; intros _; [exact H | reflexivity].
    + split; [reflexivity |]. split; [right; reflexivity |].
      split; [discriminate | rewrite H; discriminate].
Qed.

(** X22. An update answers 409 only when it carries a date or a
    non-empty time, and then with exactly the stored bookings that
    conflict with the new interval; the list is never empty and never
    holds the booking being updated. *)
Theorem X22_update_conflict_list
    (validates : Booking.t -> bool) (db : Db) (id : string)
    (data : BookingService.UpdateData.t) (m : Message)
    (cs : list ConflictInfo.t) :
  BookingService.update validates db id data = Throw 409 m cs ->
  BookingService.time_changed data = true
  /\ cs <> []
  /\ Forall (fun c => ConflictInfo.id c <> id) cs
  /\ exists booking,
       BookingModel.findById db id = Some booking
       /\ cs = List.map BookingService.conflict_info
                 (BookingModel.findConflicts db (Booking.item booking)
                    (default (Booking.booking_date booking)
                       (BookingService.UpdateData.booking_date data))
                    (Js.str_or (BookingService.UpdateData.start_time data)
                       (Booking.start_time booking))
                    (Js.str_or (BookingService.UpdateData.end_time data)
                       (Booking.end_time booking))
                    (Some id)).
Proof.
  unfold BookingService.update. intros H.
  destruct (BookingModel.findById db id) as [booking |] eqn:Hfind;
    [| discriminate].
  pose proof (findById_id db id booking Hfind) as Hid.
  destruct (BookingService.is_locked _); [discriminate |].
  destruct (BookingService.time_changed data) eqn:Htc.
  - rewrite Hid in H.
    destruct (BookingModel.findConflicts _ _ _ _ _ _) as [| c l] eqn:Hc.
    + exfalso.
      destruct (BookingService.requote_needed data).
      * destruct (ItemService.calculatePrice_at _ _ _ _ _)
          as [q | s' m' c' | m'] eqn:Hq.
        -- destruct (validates _); discriminate.
        -- injection H as -> _ _.
           apply quote_at_throw in Hq as [_ [Hs | Hs]]; discriminate.
        -- discriminate.
      * destruct (validates _); discriminate.
    + assert (Hcs : cs = List.map BookingService.conflict_info (c :: l))
        by (simpl in H |- *; congruence).
      clear H. split; [reflexivity |].
      split; [rewrite Hcs; discriminate |].
      rewrite <- Hc in Hcs. subst cs.
      split; [| exists booking; split; reflexivity].
      apply List.Forall_forall. intros ci Hin.
      apply List.in_map_iff in Hin as (b & <- & Hb).
      apply List.filter_In in Hb as [_ Hb].
      unfold BookingModel.conflict_query in Hb.
      apply andb_true_iff in Hb as [_ Hb].
      apply negb_true_iff in Hb. simpl.
      intros E. rewrite E, String.eqb_refl in Hb. discriminate.
  - exfalso.
    destruct (BookingService.requote_needed data).
    + destruct (ItemService.calculatePrice_at _ _ _ _ _)
        as [q | s' m' c' | m'] eqn:Hq.
      * destruct (validates _); discriminate.
      * injection H as -> _ _.
        apply quote_at_throw in Hq as [_ [Hs | Hs]]; discriminate.
      * discriminate.
    + destruct (validates _); discriminate.
Qed.

Lemma X22_update_conflict_list_witness :
  BookingService.update BookingModel.schema_validates
    Examples.busy_db "b2" Examples.move_earlier
  = Throw 409 (Msg "New time slot conflicts with existing bookings")
      [BookingService.conflict_info Examples.morning]
  /\ Forall (fun c => ConflictInfo.id c <> "b2")
       [BookingService.conflict_info Examples.morning].
Proof.
  assert (E : BookingService.update BookingModel.schema_validates Examples.busy_db "b2"
                Examples.move_earlier
              = Throw 409 (Msg "New time slot conflicts with existing bookings")
                  [BookingService.conflict_info Examples.morning])
    by (vm_compute; reflexivity).
  split; [exact E |].
  exact (proj1 (proj2 (proj2
           (X22_update_conflict_list BookingModel.schema_validates Examples.busy_db "b2"
              Examples.move_earlier _ _ E)))).
Defined.

(* ================================================================== *)
(** * The slots of a day *)
(* ================================================================== *)

Lemma filter_length_perm {A : Type} (p : A -> bool) (l l' : list A) :
  Permutation l l' ->
  List.length (List.filter p l) = List.length (List.filter p l').
Proof.
  induction 1 as [| x l l' _ IH | x y l | l l' l'' _ IH1 _ IH2]; simpl.
  - reflexivity.
  - destruct (p x); simpl; rewrite IH; reflexivity.
  - destruct (p x), (p y); reflexivity.
  - rewrite IH1. exact IH2.
Qed.

Lemma filter_filter_andb {A : Type} (p q : A -> bool) (l : list A) :
  List.filter p (List.filter q l) = List.filter (fun x => q x && p x) l.
Proof.
  induction l as [| x l IH]; [reflexivity |].
  simpl. destruct (q x); simpl; [destruct (p x) |]; rewrite IH; reflexivity.
Qed.

Lemma slot_count (db : Db) (itemId : string) (date : Js.Date)
    (slot : Slot.t) :
  List.length
    (BookingServiceExtra.slotBookings
       (BookingStatics.getBookingsForDate db itemId date) slot)
  = List.length
      (List.filter
         (fun b => BookingStatics.on_date itemId date b
                   && BookingModel.isTimeOverlapping
                        (Booking.start_time b) (Booking.end_time b)
                        (Slot.start_time slot) (Slot.end_time slot))
         (Bookings db)).
Proof.
  unfold BookingServiceExtra.slotBookings, BookingStatics.getBookingsForDate.
  rewrite (filter_length_perm _ _ _ (sort_perm _ _)).
  rewrite filter_filter_andb. reflexivity.
Qed.

Lemma Forall2_map_self {A B : Type} (R : A -> B -> Prop) (f : A -> B)
    (l : list A) :
  (forall x, In x l -> R x (f x)) -> Forall2 R l (List.map f l).
Proof.
  induction l as [| x l IH]; intros H; simpl; constructor.
  - apply H. left. reflexivity.
  - apply IH. intros y Hy. apply H. right. exact Hy.
Qed.

(** X23. The slot listing of a day: one entry for each slot the item
    declares on the weekday of the date, in the declared order, with the
    slot's own times and capacity.  [current_bookings] is the number of
    stored bookings of that item and date, cancelled ones apart, whose
    interval overlaps the slot, and [is_available] holds exactly when that
    number is below [max_bookings]. *)
Theorem X23_day_slots (db : Db) (itemId : string) (date : Js.Date)
    (i : string) (d : Js.Date) (w : Z)
    (infos : list BookingServiceExtra.SlotInfo.t) :
  BookingServiceExtra.getAvailableSlots db itemId date
  = Ok (BookingServiceExtra.DaySlots i d w infos) ->
  i = itemId /\ d = date /\ w = Js.getDay date /\ infos <> []
  /\ exists doc slots,
       Items db !! itemId = Some doc
       /\ Item.is_bookable doc = true
       /\ Item.availability_slots doc = Some slots
       /\ Forall2
            (fun slot info =>
               Slot.day slot = Js.getDay date
               /\ BookingServiceExtra.SlotInfo.start_time info
                  = Slot.start_time slot
               /\ BookingServiceExtra.SlotInfo.end_time info
                  = Slot.end_time slot
               /\ BookingServiceExtra.SlotInfo.max_bookings info
                  = Slot.max_bookings slot
               /\ BookingServiceExtra.SlotInfo.current_bookings info
                  = List.length
                      (List.filter
                         (fun b =>
                            BookingStatics.on_date itemId date b
                            && BookingModel.isTimeOverlapping
                                 (Booking.start_time b) (Booking.end_time b)
                                 (Slot.start_time slot) (Slot.end_time slot))
                         (Bookings db))
               /\ (BookingServiceExtra.SlotInfo.is_available info = true <->
                   (inject_Z
                      (Z.of_nat
                         (BookingServiceExtra.SlotInfo.current_bookings info))
                    < Slot.max_bookings slot)%Q))
            (List.filter (fun slot => Slot.day slot =? Js.getDay date) slots)
            infos.
Proof.
  unfold BookingServiceExtra.getAvailableSlots. intros H.
  destruct (Items db !! itemId) as [doc |] eqn:Hdoc; [| discriminate].
  destruct (Item.is_bookable doc) eqn:Hb; simpl in H; [| discriminate].
  destruct (Item.availability_slots doc) as [slots |] eqn:Hs;
    [| discriminate].
  destruct (List.filter _ slots) as [| s0 l0] eqn:Hday; [discriminate |].
  assert (Hinfos :
            infos
            = List.map
                (BookingServiceExtra.slot_info
                   (BookingStatics.getBookingsForDate db itemId date))
                (s0 :: l0)) by (simpl in H |- *; congruence).
  injection H as <- <- <- _.
  split; [reflexivity |]. split; [reflexivity |]. split; [reflexivity |].
  split; [rewrite Hinfos; discriminate |].
  exists doc, slots. split; [reflexivity |]. split; [exact Hb |].
  split; [exact Hs |].
  rewrite ?Hday, Hinfos.
  apply Forall2_map_self. intros slot Hin.
  rewrite <- Hday in Hin. apply List.filter_In in Hin as [_ Hd].
  apply Z.eqb_eq in Hd.
  split; [exact Hd |]. split; [reflexivity |]. split; [reflexivity |].
  split; [reflexivity |].
  split; [apply slot_count |].
  simpl. split; intros E.
  - apply Qltb_lt. exact E.
  - apply Qltb_lt. exact E.
Qed.

Lemma X23_day_slots_witness :
  exists infos,
    BookingServiceExtra.getAvailableSlots Examples.busy_db "i3" Examples.monday
    = Ok (BookingServiceExtra.DaySlots "i3" Examples.monday 1 infos)
    /\ List.map BookingServiceExtra.SlotInfo.current_bookings infos = [2%nat]
    /\ infos <> [].
Proof.
  destruct (BookingServiceExtra.getAvailableSlots Examples.busy_db "i3"
              Examples.monday) as [[msg | i d w infos] | |] eqn:E;
    try (vm_compute in E; discriminate).
  assert (Hi : i = "i3" /\ d = Examples.monday /\ w = 1 /\ infos <> []).
  { destruct (X23_day_slots Examples.busy_db "i3" Examples.monday i d w infos E)
      as (Hi & Hd & Hw & Hne & _).
    repeat split; assumption. }
  destruct Hi as (-> & -> & -> & Hne).
  exists infos. split; [reflexivity |]. split; [| exact Hne].
  vm_compute in E. injection E as <-. reflexivity.
Defined.

(* ================================================================== *)
(** * Deactivating, restoring and creating an item *)
(* ================================================================== *)

Lemma save_ok (validates : Item.t string -> bool) (db db' : Db)
    (id : string) (doc : Item.t string) :
  ItemServiceExtra.save validates db id doc = Ok db' ->
  db' = ItemServiceExtra.put_item db id doc
  /\ (Item.category doc <> RefNone \/ Item.subcategory doc <> RefNone).
Proof.
  unfold ItemServiceExtra.save. intros H.
  destruct (Item.category doc) eqn:Ec, (Item.subcategory doc) eqn:Es;
    try discriminate H;
    (destruct (validates doc); [| discriminate H]);
    injection H as <-; (split; [reflexivity |]);
    try (left; discriminate); right; discriminate.
Qed.

Lemma delete_ok (validates : Item.t string -> bool) (db db' : Db)
    (id : string) :
  ItemServiceExtra.delete validates db id = Ok db' ->
  exists item,
    Items db !! id = Some item
    /\ db' = ItemServiceExtra.put_item db id
               (ItemServiceExtra.set_active item false).
Proof.
  unfold ItemServiceExtra.delete. intros H.
  destruct (Items db !! id) as [item |] eqn:Hitem; [| discriminate].
  apply save_ok in H as [-> _]. exists item. split; reflexivity.
Qed.

(** X24. A deactivated item: after a successful [delete] every quote for
    the item answers 400 "Item is not available" and no booking can be
    created for it, while its slot listing is what it was before; the
    bookings and the other items are untouched. *)
Theorem X24_deactivated_item (validates : Item.t string -> bool)
    (booking_validates : Booking.t -> bool) (db db' : Db) (id : string) :
  ItemServiceExtra.delete validates db id = Ok db' ->
  (forall options,
      ItemService.calculatePrice db' id options
      = Throw 400 (Msg "Item is not available") [])
  /\ (forall new_id data result,
        BookingServiceExtra.CreateData.item data = id ->
        BookingServiceExtra.create booking_validates db' new_id data
        <> Ok result)
  /\ (forall date,
        BookingServiceExtra.getAvailableSlots db' id date
        = BookingServiceExtra.getAvailableSlots db id date)
  /\ Bookings db' = Bookings db
  /\ (forall other, other <> id -> Items db' !! other = Items db !! other).
Proof.
  intros H. apply delete_ok in H as (item & Hitem & ->).
  split; [| split; [| split; [| split]]].
  - intros options.
    unfold ItemService.calculatePrice, ItemService.findById_populated.
    simpl. rewrite lookup_insert_eq. reflexivity.
  - intros new_id data [db2 b2] Hid Hcreate.
    destruct (create_ok booking_validates _ db2 new_id data b2 Hcreate)
      as (doc & _ & Hdoc & _ & Ha & _).
    rewrite Hid in Hdoc. simpl in Hdoc. rewrite lookup_insert_eq in Hdoc.
    injection Hdoc as <-. discriminate Ha.
  - intros date. unfold BookingServiceExtra.getAvailableSlots.
    simpl. rewrite lookup_insert_eq, Hitem. reflexivity.
  - reflexivity.
  - intros other Hne. simpl. apply lookup_insert_ne. congruence.
Qed.

Lemma X24_deactivated_item_witness :
  exists db',
    ItemServiceExtra.delete Examples.any_item Examples.menu "i1" = Ok db'
    /\ ItemService.calculatePrice db' "i1" Examples.fries_order
       = Throw 400 (Msg "Item is not available") []
    /\ Bookings db' = Bookings Examples.menu.
Proof.
  destruct (ItemServiceExtra.delete Examples.any_item Examples.menu "i1")
    as [db' | |] eqn:E;
    [| vm_compute in E; discriminate | vm_compute in E; discriminate].
  destruct (X24_deactivated_item Examples.any_item
              BookingModel.schema_validates Examples.menu db' "i1" E)
    as (Hq & _ & _ & Hb & _).
  exists db'. split; [reflexivity |]. split; [apply Hq | exact Hb].
Defined.

Lemma set_active_same (doc : Item.t string) (active : bool) :
  Item.is_active doc = active ->
  ItemServiceExtra.set_active (ItemServiceExtra.set_active doc (negb active))
    active = doc.
Proof. intros <-. destruct doc. reflexivity. Qed.

(** X25. [restore] undoes [delete]: for an item that was active, a
    successful [delete] followed by a successful [restore] gives back the
    store as it was, and [restore] returns the item as it was stored. *)
Theorem X25_restore_undoes_delete (validates : Item.t string -> bool)
    (db db' db'' : Db) (id : string) (item restored : Item.t string) :
  Items db !! id = Some item ->
  Item.is_active item = true ->
  ItemServiceExtra.delete validates db id = Ok db' ->
  ItemServiceExtra.restore validates db' id = Ok (db'', restored) ->
  db'' = db /\ restored = item.
Proof.
  intros Hitem Hactive Hdel Hres.
  apply delete_ok in Hdel as (item' & Hitem' & ->).
  rewrite Hitem in Hitem'. injection Hitem' as <-.
  unfold ItemServiceExtra.restore in Hres. simpl in Hres.
  rewrite lookup_insert_eq in Hres.
  destruct (ItemServiceExtra.save _ _ _ _) as [d | |] eqn:Hsave;
    [| discriminate | discriminate].
  injection Hres as <- <-.
  apply save_ok in Hsave as [-> _].
  change false with (negb true).
  rewrite (set_active_same item true Hactive).
  split; [| reflexivity].
  unfold ItemServiceExtra.put_item. simpl.
  rewrite insert_insert_eq, (insert_id _ _ _ Hitem).
  destruct db. reflexivity.
Qed.

Lemma X25_restore_undoes_delete_witness :
  exists db',
    ItemServiceExtra.delete Examples.any_item Examples.menu "i1" = Ok db'
    /\ ItemServiceExtra.restore Examples.any_item db' "i1"
       = Ok (Examples.menu, Examples.fries).
Proof.
  destruct (ItemServiceExtra.delete Examples.any_item Examples.menu "i1")
    as [db' | |] eqn:E;
    [| vm_compute in E; discriminate | vm_compute in E; discriminate].
  exists db'. split; [reflexivity |].
  destruct (ItemServiceExtra.restore Examples.any_item db' "i1")
    as [[db'' restored] | |] eqn:R.
  - destruct (X25_restore_undoes_delete Examples.any_item Examples.menu db' db''
                "i1" Examples.fries restored
                ltac:(vm_compute; reflexivity) eq_refl E R) as [-> ->].
    reflexivity.
  - exfalso. vm_compute in E. injection E as <-.
    vm_compute in R. discriminate R.
  - exfalso. vm_compute in E. injection E as <-.
    vm_compute in R. discriminate R.
Defined.

Lemma remove_dups_length_le (l : list string) :
  (List.length (remove_dups l) <= List.length l)%nat.
Proof.
  induction l as [| x l IH]; simpl; [lia |].
  destruct (decide_rel elem_of x l); simpl; lia.
Qed.

Lemma remove_dups_full (l : list string) :
  List.length (remove_dups l) = List.length l ->
  remove_dups l = l /\ List.NoDup l.
Proof.
  induction l as [| x l IH]; simpl; intros H; [split; [reflexivity | constructor] |].
  pose proof (remove_dups_length_le l) as Hle.
  destruct (decide_rel elem_of x l) as [Hin | Hin]; simpl in H; [lia |].
  destruct IH as [IH1 IH2]; [lia |].
  split; [rewrite IH1; reflexivity |].
  constructor; [| exact IH2].
  intros Hx. apply Hin. apply list_elem_of_In. exact Hx.
Qed.

Lemma filter_full {A : Type} (p : A -> bool) (l : list A) :
  List.length (List.filter p l) = List.length l ->
  Forall (fun x => p x = true) l.
Proof.
  induction l as [| x l IH]; simpl; intros H; [constructor |].
  pose proof (List.filter_length_le p l) as Hle.
  destruct (p x) eqn:E; simpl in H; [| lia].
  constructor; [exact E | apply IH; lia].
Qed.

Lemma count_groups_full (db : Db) (ids : list string) :
  ItemServiceExtra.count_groups_in db ids = List.length ids ->
  List.NoDup ids /\ Forall (fun g => is_Some (AddonGroups db !! g)) ids.
Proof.
  unfold ItemServiceExtra.count_groups_in. intros H.
  pose proof (List.filter_length_le
                (fun id => bool_decide (is_Some (AddonGroups db !! id)))
                (remove_dups ids)) as H1.
  pose proof (remove_dups_length_le ids) as H2.
  destruct (remove_dups_full ids) as [Hsame Hnodup]; [lia |].
  split; [exact Hnodup |].
  rewrite Hsame in H. apply filter_full in H.
  eapply List.Forall_impl; [| exact H].
  intros g Hg. apply bool_decide_eq_true in Hg. exact Hg.
Qed.

Lemma addons_loop_no_error (groups : list AddonGroup.t)
    (addons : list ItemService.AddonSelection) (total : Q)
    (details : list ItemService.AddonDetail) (m : Message) :
  ItemService.addons_loop groups addons total details <> ThrowError m.
Proof.
  revert total details.
  induction addons as [| sel rest IH]; intros total details; simpl;
    [discriminate |].
  destruct (ItemService.find_group groups sel) as [g |]; [| apply IH].
  destruct (negb (AddonGroup.valid _)); [discriminate | apply IH].
Qed.

(** X26. What [create] has checked of a stored item: its pricing
    configuration passes [validatePricingConfig]; the add-on group ids it
    names are distinct and each is a stored group; a category or a
    subcategory it names is stored; with no category given it takes the
    category of its subcategory.  The item is stored under the new id
    with the pricing of the request, and a quote for it never fails on
    the pricing type. *)
Theorem X26_created_item (validates : Item.t string -> bool)
    (db db' : Db) (new_id : string) (data : ItemServiceExtra.ItemData.t)
    (item : Item.t AddonGroup.t) :
  ItemServiceExtra.create validates db new_id data = Ok (db', item) ->
  PricingEngine.valid
    (PricingEngine.validatePricingConfig (ItemServiceExtra.ItemData.pricing data))
  = true
  /\ List.NoDup (ItemServiceExtra.ItemData.addon_groups data)
  /\ Forall (fun g => is_Some (AddonGroups db !! g))
       (ItemServiceExtra.ItemData.addon_groups data)
  /\ (forall c, ItemServiceExtra.ItemData.category data = Some c ->
                is_Some (Categories db !! c))
  /\ (forall s, ItemServiceExtra.ItemData.subcategory data = Some s ->
                is_Some (Subcategories db !! s))
  /\ (exists doc,
        Items db' !! new_id = Some doc
        /\ Item.pricing doc = ItemServiceExtra.ItemData.pricing data
        /\ Item.addon_groups doc = ItemServiceExtra.ItemData.addon_groups data
        /\ (Item.category doc <> RefNone \/ Item.subcategory doc <> RefNone)
        /\ (ItemServiceExtra.ItemData.category data = None ->
            exists s sub,
              ItemServiceExtra.ItemData.subcategory data = Some s
              /\ Subcategories db !! s = Some sub
              /\ Item.category doc = Subcategory.category sub)
        /\ item = ItemService.populate db' doc)
  /\ (forall options m,
        ItemService.calculatePrice db' new_id options <> ThrowError m).
Proof.
  unfold ItemServiceExtra.create. intros H.
  destruct (match ItemServiceExtra.ItemData.category data with
            | Some c => negb (bool_decide (is_Some (Categories db !! c)))
            | None => false
            end) eqn:Hcat; [discriminate |].
  destruct (match ItemServiceExtra.ItemData.subcategory data with
            | Some s => _
            | None => _
            end) as [category | |] eqn:Hsub; [| discriminate | discriminate].
  destruct (PricingEngine.valid _) eqn:Hvalid; simpl in H; [| discriminate].
  destruct ((0 <? _)%nat && _) eqn:Hgroups; [discriminate |].
  destruct (ItemServiceExtra.save _ _ _ _) as [d | |] eqn:Hsave;
    [| discriminate | discriminate].
  injection H as <- <-.
  apply save_ok in Hsave as [-> Hkind]. simpl in Hkind.
  assert (Hg : List.NoDup (ItemServiceExtra.ItemData.addon_groups data)
               /\ Forall (fun g => is_Some (AddonGroups db !! g))
                    (ItemServiceExtra.ItemData.addon_groups data)).
  { destruct (ItemServiceExtra.ItemData.addon_groups data) as [| g gs] eqn:Eg.
    - split; constructor.
    - apply count_groups_full.
      apply andb_false_iff in Hgroups as [Hlen | Hcount].
      + simpl in Hlen. discriminate.
      + apply negb_false_iff, Nat.eqb_eq in Hcount. exact Hcount. }
  destruct Hg as [Hnodup Hstored].
  split; [reflexivity |]. split; [exact Hnodup |]. split; [exact Hstored |].
  split; [| split; [| split]].
  - intros c Hc. rewrite Hc in Hcat.
    apply negb_false_iff, bool_decide_eq_true in Hcat. exact Hcat.
  - intros s Hs. rewrite Hs in Hsub.
    destruct (Subcategories db !! s); [eexists; reflexivity | discriminate].
  - eexists. split; [simpl; apply lookup_insert_eq |].
    split; [reflexivity |]. split; [reflexivity |].
    split; [exact Hkind |]. split; [| reflexivity].
    intros Hnone. simpl. rewrite Hnone in *.
    destruct (ItemServiceExtra.ItemData.subcategory data) as [s |].
    + destruct (Subcategories db !! s) as [sub |] eqn:Es; [| discriminate].
      injection Hsub as <-. exists s, sub. repeat split. exact Es.
    + injection Hsub as <-. simpl in Hkind. destruct Hkind as [E | E];
        destruct (E eq_refl).
  - intros options m Hq.
    unfold ItemService.calculatePrice, ItemService.findById_populated in Hq.
    simpl in Hq. rewrite lookup_insert_eq in Hq.
    destruct (ItemServiceExtra.ItemData.is_active data); simpl in Hq;
      [| discriminate Hq].
    unfold PricingEngine.calculatePrice in Hq.
    unfold PricingEngine.validatePricingConfig in Hvalid.
    destruct (PricingConfig.type (ItemServiceExtra.ItemData.pricing data))
      as [ty |]; [| discriminate Hvalid].
    destruct ty;
      (destruct (ItemService.addons_loop _ _ _ _) as [[t dts] | |] eqn:Hl;
       [discriminate Hq | discriminate Hq |];
       exact (addons_loop_no_error _ _ _ _ _ Hl)).
Qed.

Lemma X26_created_item_witness :
  exists db' item,
    ItemServiceExtra.create Examples.any_item Examples.menu "i9" Examples.rings
    = Ok (db', item)
    /\ List.NoDup (ItemServiceExtra.ItemData.addon_groups Examples.rings)
    /\ forall options m,
         ItemService.calculatePrice db' "i9" options <> ThrowError m.
Proof.
  destruct (ItemServiceExtra.create Examples.any_item Examples.menu "i9"
              Examples.rings) as [[db' item] | |] eqn:E;
    [| vm_compute in E; discriminate | vm_compute in E; discriminate].
  destruct (X26_created_item Examples.any_item Examples.menu db' "i9"
              Examples.rings item E) as (_ & Hn & _ & _ & _ & _ & Hq).
  exists db', item. split; [reflexivity |]. split; [exact Hn | exact Hq].
Defined.
